(** * Trip-cost and recommendation engine: a shallow embedding

    The development follows [services/recommendation_service.py]
    (class [RecommendationService]) and
    [services/cost_calculation_service.py] (class [CostCalculationService]).

    Numbers.  Python's [int] is [Z].  Python's [float] is modelled twice.

    - By exact rationals [Q]: the arithmetic of the source is kept operation
      by operation and in the source's order, and [round(x, n)] is the
      round-half-to-even of the exact value.  The rounding of the individual
      binary operations and the overflow to infinity are not modelled there,
      so this model serves for control flow, order and relations between
      results, which the rounding of binary64 arithmetic preserves; where a
      statement needs more, it carries a bound on the magnitudes.  The
      conversion of an [int] operand to a [float], which raises
      [OverflowError] for a large integer, is modelled.

    - By IEEE 754 binary64 numbers (module [Binary64]), where the value
      itself is the subject: the distance, the transport estimate and the
      budget breakdown of [RecommendationService].

    Errors.  Python exceptions are values of [exn]; a function that can
    raise returns a [result].

    Outside world.  The C library behind [math] and the database behind the
    query are interfaces ([MathLib], [SqlEngine]). *)

From Stdlib Require Import QArith Qround Qabs ZArith Lqa Lia List Ascii String Bool.
From Stdlib Require Import Sorting.Sorted Sorting.Permutation.
From Stdlib Require Floats.
Import ListNotations.

Open Scope string_scope.
Open Scope Q_scope.

(** Decimal literals of binary64 numbers stand for the nearest float. *)
Set Warnings "-inexact-float".

(* ================================================================== *)
(** ** Exceptions *)

Inductive exn : Type :=
| KeyError (key : string)
| ValueError (msg : string)
| ZeroDivisionError
| OverflowError.

Inductive result (A : Type) : Type :=
| Ok (a : A)
| Raise (e : exn).

Arguments Ok {A} a.
Arguments Raise {A} e.

Definition bind {A B : Type} (m : result A) (k : A -> result B) : result B :=
  match m with
  | Ok a => k a
  | Raise e => Raise e
  end.

Notation "x <- m ;; k" := (bind m (fun x => k))
  (at level 61, m at next level, right associativity).

Definition raises {A : Type} (m : result A) : Prop :=
  exists e, m = Raise e.

(* ================================================================== *)
(** ** Numbers *)

Definition Qltb (x y : Q) : bool := negb (Qle_bool y x).

(** Python's [max(a, b)] returns [b] only when [b > a]. *)
Definition pymax (a b : Q) : Q := if Qltb a b then b else a.

Definition pymin (a b : Q) : Q := if Qltb b a then b else a.

(** Python truthiness of a float: [0.0] is falsy. *)
Definition truthy (x : Q) : bool := negb (Qeq_bool x 0).

(** Python truthiness of an [Optional[float]]: [None] and [0.0] are falsy. *)
Definition truthy_opt (x : option Q) : bool :=
  match x with
  | Some v => truthy v
  | None => false
  end.

(** [x or d] on an [Optional[float]]. *)
Definition or_default (x : option Q) (d : Q) : Q :=
  match x with
  | Some v => if truthy v then v else d
  | None => d
  end.

(** [x / y], raising [ZeroDivisionError] on a zero divisor. *)
Definition pydiv (x y : Q) : result Q :=
  if Qeq_bool y 0 then Raise ZeroDivisionError else Ok (x / y).

(** An [int] operand of a mixed operation ([x * n], [x / n], [n * x]) is
    converted to a [float] first, and so are both operands of the true
    division [n / m] of two [int]s.  The conversion rounds to the nearest
    float and raises [OverflowError] when that is beyond the largest one,
    that is from [2^1024 - 2^970] on, half-way between the largest float
    and [2^1024]. *)
Definition overflow_threshold : Z := (2 ^ 1024 - 2 ^ 970)%Z.

Definition float_of_int (n : Z) : result Q :=
  if (Z.abs n <? overflow_threshold)%Z then Ok (inject_Z n)
  else Raise OverflowError.

(** [a / b] on two [int]s. *)
Definition int_truediv (a b : Z) : result Q :=
  if (b =? 0)%Z then Raise ZeroDivisionError
  else if Qle_bool (inject_Z overflow_threshold) (Qabs (inject_Z a / inject_Z b))
       then Raise OverflowError
       else Ok (inject_Z a / inject_Z b).

(** Round half to even, to an integer: Python's [round(x)]. *)
Definition round_int (x : Q) : Z :=
  let f := Qfloor x in
  match Qcompare (x - inject_Z f) 0.5 with
  | Lt => f
  | Gt => (f + 1)%Z
  | Eq => if Z.even f then f else (f + 1)%Z
  end.

(** Python's [round(x, ndigits)]: the multiple of [10^-ndigits] nearest to
    [x], ties to the even multiple. *)
Definition round (x : Q) (ndigits : nat) : Q :=
  let scale := (10 ^ Z.of_nat ndigits)%Z in
  Qmake (round_int (x * inject_Z scale)) (Z.to_pos scale).

(* ================================================================== *)
(** ** Dictionaries with string keys

    A Python [dict] keeps its keys in insertion order; assigning to a key
    that is present replaces the value in place. *)

Definition dict (V : Type) : Type := list (string * V).

Fixpoint dict_get {V : Type} (k : string) (d : dict V) : option V :=
  match d with
  | [] => None
  | (k', v) :: rest => if String.eqb k k' then Some v else dict_get k rest
  end.

Fixpoint dict_set {V : Type} (k : string) (v : V) (d : dict V) : dict V :=
  match d with
  | [] => [(k, v)]
  | (k', v') :: rest =>
      if String.eqb k k' then (k', v) :: rest else (k', v') :: dict_set k v rest
  end.

Definition dict_keys {V : Type} (d : dict V) : list string := map fst d.

(** [d[k]]: raises [KeyError] when the key is absent. *)
Definition subscript {V : Type} (d : dict V) (k : string) : result V :=
  match dict_get k d with
  | Some v => Ok v
  | None => Raise (KeyError k)
  end.

(** [d.get(k, default)], where the key itself may be [None]. *)
Definition dict_get_default {V : Type} (d : dict V) (k : option string)
  (default : V) : V :=
  match k with
  | Some s => match dict_get s d with Some v => v | None => default end
  | None => default
  end.

(* ================================================================== *)
(** ** Strings *)

Definition str_truthy (s : option string) : bool :=
  match s with
  | Some "" => false
  | Some _ => true
  | None => false
  end.

(** [s or d] on an [Optional[str]]. *)
Definition str_or (s : option string) (d : string) : string :=
  match s with
  | Some "" => d
  | Some v => v
  | None => d
  end.

(** [needle in hay]: substring test. *)
Fixpoint contains (needle hay : string) : bool :=
  if String.prefix needle hay then true
  else match hay with
       | EmptyString => false
       | String _ rest => contains needle rest
       end.

(** [s.split(sep)] for a one-character separator. *)
Fixpoint split (sep : Ascii.ascii) (s : string) : list string :=
  match s with
  | EmptyString => [""]
  | String c rest =>
      if Ascii.eqb c sep then "" :: split sep rest
      else match split sep rest with
           | h :: t => String c h :: t
           | [] => [String c ""]
           end
  end.

(** [str.lower] on the ASCII letters; other bytes are left as they are. *)
Definition lower_char (c : Ascii.ascii) : Ascii.ascii :=
  let n := Ascii.nat_of_ascii c in
  if ((65 <=? n) && (n <=? 90))%nat then Ascii.ascii_of_nat (n + 32) else c.

Fixpoint lower (s : string) : string :=
  match s with
  | EmptyString => EmptyString
  | String c rest => String (lower_char c) (lower rest)
  end.

Definition is_space (c : Ascii.ascii) : bool :=
  let n := Ascii.nat_of_ascii c in
  ((9 <=? n) && (n <=? 13) || (28 <=? n) && (n <=? 32))%nat.

Fixpoint lstrip (s : string) : string :=
  match s with
  | EmptyString => EmptyString
  | String c rest => if is_space c then lstrip rest else s
  end.

Fixpoint rstrip (s : string) : string :=
  match s with
  | EmptyString => EmptyString
  | String c rest =>
      match rstrip rest with
      | EmptyString => if is_space c then EmptyString else String c EmptyString
      | r => String c r
      end
  end.

Definition strip (s : string) : string := rstrip (lstrip s).

(* ================================================================== *)
(** ** Lists: [list.sort(key=..., reverse=...)] and slicing

    Python's sort is stable and compares keys with [<] only.  With
    [reverse=True] the elements come out in descending key order and equal
    keys still keep their original relative order. *)

Section Sort.
Context {A K : Type} (ltb : K -> K -> bool) (key : A -> K).

(** [precedes reverse y x]: [y], met later in the list, has to move in
    front of [x]. *)
Definition precedes (reverse : bool) (y x : A) : bool :=
  if reverse then ltb (key x) (key y) else ltb (key y) (key x).

Fixpoint insert_sorted (reverse : bool) (x : A) (l : list A) : list A :=
  match l with
  | [] => [x]
  | y :: rest =>
      if precedes reverse y x then y :: insert_sorted reverse x rest
      else x :: y :: rest
  end.

Definition sort (reverse : bool) (l : list A) : list A :=
  fold_right (insert_sorted reverse) [] l.
End Sort.

(** [l[:stop]]: a negative [stop] counts from the end. *)
Definition slice_to {A : Type} (l : list A) (stop : Z) : list A :=
  if (0 <=? stop)%Z then firstn (Z.to_nat stop) l
  else firstn (List.length l - Z.to_nat (- stop)) l.

(** Sort keys may be [float('inf')]. *)
Inductive ext : Type :=
| Fin (q : Q)
| Inf.

Definition ext_ltb (a b : ext) : bool :=
  match a, b with
  | Fin x, Fin y => Qltb x y
  | Fin _, Inf => true
  | Inf, _ => false
  end.

(** [x or float('inf')]. *)
Definition or_inf (x : option Q) : ext :=
  match x with
  | Some v => if truthy v then Fin v else Inf
  | None => Inf
  end.

(* ================================================================== *)
(** ** The platform's [math] module

    [sin], [cos], [sqrt] and [atan2] come from the C library; the model
    takes them as an interface.  [math.sqrt] raises [ValueError] on a
    negative argument. *)

Class MathLib : Type := {
  sin : Q -> Q;
  cos : Q -> Q;
  sqrt : Q -> Q;
  atan2 : Q -> Q -> Q
}.

Definition pi : Q := 3.141592653589793.

Definition radians (x : Q) : Q := x * (pi / 180).

Definition math_sqrt `{MathLib} (x : Q) : result Q :=
  if Qltb x 0 then Raise (ValueError "math domain error") else Ok (sqrt x).

(** The Haversine formula; both services carry the same function. *)
Definition haversine `{MathLib} (R lat1 lon1 lat2 lon2 : Q) : result Q :=
  let lat1_rad := radians lat1 in
  let lon1_rad := radians lon1 in
  let lat2_rad := radians lat2 in
  let lon2_rad := radians lon2 in
  let dlat := lat2_rad - lat1_rad in
  let dlon := lon2_rad - lon1_rad in
  let a := sin (dlat / 2) ^ 2 + cos lat1_rad * cos lat2_rad * sin (dlon / 2) ^ 2 in
  sa <- math_sqrt a ;;
  sb <- math_sqrt (1 - a) ;;
  let c := 2 * atan2 sa sb in
  Ok (R * c).

(** The database's [LIKE] operator: [sql_like pattern value]. *)
Class SqlEngine : Type := {
  sql_like : string -> string -> bool
}.

(* ================================================================== *)
(** ** models.Destination

    The columns the engine computes with, and [id] and [title]; the other
    columns ([description], [website], [country], [city],
    [best_time_to_visit], [estimated_duration_hours], [created_at]) are
    copied to the output unchanged and are left out.  [review_count] is an
    integer column of the database, far below the integers whose conversion
    to a float overflows. *)

Module Destination.
Record t : Type := {
  id : Z;
  title : string;
  category : option string;
  budget_tier : option string;
  latitude : option Q;
  longitude : option Q;
  average_cost_per_day : option Q;
  rating : option Q;
  review_count : option Z;
  popularity_score : option Q;
  tags : option string
}.
End Destination.

(* ================================================================== *)
(** ** RecommendationService *)

Module RecommendationService.

Definition EARTH_RADIUS_KM : Q := 6371.

Definition calculate_distance `{MathLib} (lat1 lon1 lat2 lon2 : Q) : result Q :=
  haversine EARTH_RADIUS_KM lat1 lon1 lat2 lon2.

Definition calculate_transportation_cost (distance_km : Q) : result (dict Q) :=
  let costs : dict Q := [] in
  if Qltb distance_km 50 then
    let costs := dict_set "bus" (round (distance_km * 0.50) 2) costs in
    let costs := dict_set "taxi" (round (distance_km * 1.50) 2) costs in
    bus <- subscript costs "bus" ;;
    Ok (dict_set "recommended" bus costs)
  else if Qltb distance_km 300 then
    let costs := dict_set "bus" (round (50 + (distance_km - 50) * 0.15) 2) costs in
    let costs := dict_set "train" (round (40 + (distance_km - 50) * 0.20) 2) costs in
    let costs := dict_set "taxi" (round (distance_km * 1.20) 2) costs in
    bus <- subscript costs "bus" ;;
    Ok (dict_set "recommended" bus costs)
  else if Qltb distance_km 1000 then
    let costs := dict_set "train" (round (80 + (distance_km - 300) * 0.12) 2) costs in
    let costs := dict_set "budget_flight" (round (100 + (distance_km - 300) * 0.25) 2) costs in
    let costs := dict_set "standard_flight" (round (150 + (distance_km - 300) * 0.35) 2) costs in
    flight <- subscript costs "budget_flight" ;;
    Ok (dict_set "recommended" flight costs)
  else if Qltb distance_km 3000 then
    let costs := dict_set "budget_flight" (round (250 + (distance_km - 1000) * 0.15) 2) costs in
    let costs := dict_set "standard_flight" (round (400 + (distance_km - 1000) * 0.20) 2) costs in
    let costs := dict_set "premium_flight" (round (800 + (distance_km - 1000) * 0.30) 2) costs in
    flight <- subscript costs "budget_flight" ;;
    Ok (dict_set "recommended" flight costs)
  else
    let costs := dict_set "budget_flight" (round (550 + (distance_km - 3000) * 0.08) 2) costs in
    let costs := dict_set "standard_flight" (round (900 + (distance_km - 3000) * 0.12) 2) costs in
    let costs := dict_set "business_flight" (round (2000 + (distance_km - 3000) * 0.25) 2) costs in
    flight <- subscript costs "budget_flight" ;;
    Ok (dict_set "recommended" flight costs).

(** The modes on offer are the keys other than the entry ['recommended']. *)
Definition modes (costs : dict Q) : list string :=
  filter (fun k => negb (String.eqb k "recommended")) (dict_keys costs).

(* ================================================================== *)
(** ** RecommendationService.calculate_comprehensive_budget *)

Record BudgetBreakdown : Type := {
  transportation : Q;
  transportation_options : dict Q;
  accommodation : Q;
  accommodation_per_night : Q;
  food : Q;
  food_per_day : Q;
  local_transport : Q;
  activities : Q;
  miscellaneous : Q;
  insurance : Q;
  contingency : Q;
  subtotal : Q;
  total : Q;
  per_day_average : Q
}.

Definition accommodation_multipliers : dict Q :=
  [("budget", 0.6); ("mid-range", 1.0); ("luxury", 2.5)].

Definition food_multipliers : dict Q :=
  [("budget", 0.7); ("mid-range", 1.0); ("luxury", 2.0)].

(** [duration_days] is an [int]: each product by it, and the final
    quotient, converts it to a [float]; [days] is that float, and the first
    conversion is the one that can raise. *)
Definition calculate_comprehensive_budget
  (distance_km : Q) (duration_days : Z) (destination_daily_cost : Q)
  (budget_tier : option string) : result BudgetBreakdown :=
  transport_costs <- calculate_transportation_cost distance_km ;;
  recommended <- subscript transport_costs "recommended" ;;
  let transport_total := recommended * 2 in
  let accommodation_multiplier :=
    dict_get_default accommodation_multipliers budget_tier 1.0 in
  let accommodation_per_night :=
    destination_daily_cost * 0.4 * accommodation_multiplier in
  days <- float_of_int duration_days ;;
  let accommodation_total := accommodation_per_night * days in
  let food_multiplier := dict_get_default food_multipliers budget_tier 1.0 in
  let food_per_day := destination_daily_cost * 0.35 * food_multiplier in
  let food_total := food_per_day * days in
  let local_transport_per_day :=
    destination_daily_cost * 0.15 * accommodation_multiplier in
  let local_transport_total := local_transport_per_day * days in
  let activities_per_day := destination_daily_cost * 0.10 in
  let activities_total := activities_per_day * days in
  let misc_total := (food_total + activities_total) * 0.15 in
  let subtotal :=
    transport_total + accommodation_total + food_total
    + local_transport_total + activities_total + misc_total in
  let insurance := subtotal * 0.05 in
  let total_before_contingency := subtotal + insurance in
  let contingency := total_before_contingency * 0.10 in
  let grand_total := total_before_contingency + contingency in
  per_day <- (if (0 <? duration_days)%Z
              then q <- pydiv grand_total days ;; Ok (round q 2)
              else Ok 0) ;;
  Ok {| transportation := round transport_total 2;
        transportation_options := transport_costs;
        accommodation := round accommodation_total 2;
        accommodation_per_night := round accommodation_per_night 2;
        food := round food_total 2;
        food_per_day := round food_per_day 2;
        local_transport := round local_transport_total 2;
        activities := round activities_total 2;
        miscellaneous := round misc_total 2;
        insurance := round insurance 2;
        contingency := round contingency 2;
        subtotal := round subtotal 2;
        total := round grand_total 2;
        per_day_average := per_day |}.

(** *** get_recommendations *)

(** The recommendation dictionary built for one destination. *)
Module Recommendation.
Record t : Type := {
  id : Z;
  title : string;
  category : option string;
  budget_tier : option string;
  latitude : option Q;
  longitude : option Q;
  average_cost_per_day : option Q;
  rating : option Q;
  review_count : option Z;
  popularity_score : option Q;
  tags : list string;
  distance_km : option Q;
  trip_duration_days : Z;
  currency : string;
  recommendation_score : Q;
  budget_breakdown : option BudgetBreakdown;
  transportation_options : option (dict Q);
  total_trip_cost : option Q;
  estimated_cost_per_day : option Q
}.
End Recommendation.

(** SQL comparisons: a [NULL] column satisfies no comparison. *)
Definition sql_ge (column : option Q) (v : Q) : bool :=
  match column with
  | Some c => Qle_bool v c
  | None => false
  end.

Definition sql_le (column : option Q) (v : Q) : bool :=
  match column with
  | Some c => Qle_bool c v
  | None => false
  end.

Definition sql_in (column : option string) (values : list string) : bool :=
  match column with
  | Some c => existsb (String.eqb c) values
  | None => false
  end.

Definition sql_like_any `{SqlEngine} (column : option string)
  (patterns : list string) : bool :=
  match column with
  | Some c => existsb (fun p => sql_like p c) patterns
  | None => false
  end.

Section GetRecommendations.
Context `{MathLib} `{SqlEngine}.
Variables (user_lat user_lon budget_min budget_max : option Q).
Variables (categories tags : option (list string)).
Variables (min_rating max_distance_km : option Q).
Variables (limit : Z) (sort_by user_currency : string) (trip_duration_days : Z).

(** The [WHERE] clause assembled from the filters that are supplied. *)
Definition query_filter (dest : Destination.t) : bool :=
  (match budget_min with
   | Some v => sql_ge (Destination.average_cost_per_day dest) v
   | None => true
   end)
  && (match budget_max with
      | Some v => sql_le (Destination.average_cost_per_day dest) v
      | None => true
      end)
  && (match categories with
      | Some (c :: cs) => sql_in (Destination.category dest) (c :: cs)
      | _ => true
      end)
  && (match min_rating with
      | Some v => sql_ge (Destination.rating dest) v
      | None => true
      end)
  && (match tags with
      | Some (tag :: rest) =>
          sql_like_any (Destination.tags dest)
            (map (fun tag => "%" ++ tag ++ "%") (tag :: rest))
      | _ => true
      end).

(** [query.all()] over the rows of the table, in the order the database
    returns them. *)
Definition query_all (table : list Destination.t) : list Destination.t :=
  filter query_filter table.

(** Distance calculation and filtering: [None] is [continue], [Some distance]
    goes on with the distance found (itself [None] when it is not computed). *)
Definition distance_step (dest : Destination.t) : result (option (option Q)) :=
  let otherwise :=
    if truthy_opt max_distance_km
       && (negb (truthy_opt (Destination.latitude dest))
           || negb (truthy_opt (Destination.longitude dest)))
    then Ok None
    else Ok (Some None) in
  match user_lat, user_lon, Destination.latitude dest, Destination.longitude dest with
  | Some ulat, Some ulon, Some dlat, Some dlon =>
      if truthy dlat && truthy dlon then
        distance <- calculate_distance ulat ulon dlat dlon ;;
        match max_distance_km with
        | Some m =>
            if truthy m && Qltb m distance then Ok None
            else Ok (Some (Some distance))
        | None => Ok (Some (Some distance))
        end
      else otherwise
  | _, _, _, _ => otherwise
  end.

Definition review_count_or_0 (dest : Destination.t) : Z :=
  match Destination.review_count dest with
  | Some n => n
  | None => 0%Z
  end.

(** The body of the loop once the distance is settled. *)
Definition recommend (dest : Destination.t) (distance : option Q)
  : result Recommendation.t :=
  let score := 0 in
  budget_breakdown <-
    match distance, Destination.average_cost_per_day dest with
    | Some d, Some cost =>
        if truthy cost then
          b <- calculate_comprehensive_budget d trip_duration_days cost
                 (Some (str_or (Destination.budget_tier dest) "mid-range")) ;;
          Ok (Some b)
        else Ok None
    | _, _ => Ok None
    end ;;
  let transportation_options :=
    option_map RecommendationService.transportation_options budget_breakdown in
  let total_trip_cost := option_map RecommendationService.total budget_breakdown in
  let score := score + or_default (Destination.popularity_score dest) 0 * 0.4 in
  let score := score + or_default (Destination.rating dest) 3.0 * 0.3 in
  let score := score + inject_Z (review_count_or_0 dest) * 0.01 in
  let score :=
    match total_trip_cost with
    | Some cost =>
        if truthy cost then
          let affordability_score := pymax 0 ((5000 - cost) / 5000) * 5 in
          score + affordability_score * 0.2
        else
          score + (5.0 - or_default (Destination.average_cost_per_day dest) 100 / 50) * 0.2
    | None =>
        score + (5.0 - or_default (Destination.average_cost_per_day dest) 100 / 50) * 0.2
    end in
  score <-
    match distance, max_distance_km with
    | Some d, Some m =>
        if truthy m then
          ratio <- pydiv (m - d) m ;;
          let distance_score := pymax 0 ratio in
          Ok (score + distance_score * 0.1)
        else Ok score
    | _, _ => Ok score
    end ;;
  Ok {| Recommendation.id := Destination.id dest;
        Recommendation.title := Destination.title dest;
        Recommendation.category := Destination.category dest;
        Recommendation.budget_tier := Destination.budget_tier dest;
        Recommendation.latitude := Destination.latitude dest;
        Recommendation.longitude := Destination.longitude dest;
        Recommendation.average_cost_per_day := Destination.average_cost_per_day dest;
        Recommendation.rating := Destination.rating dest;
        Recommendation.review_count := Destination.review_count dest;
        Recommendation.popularity_score := Destination.popularity_score dest;
        Recommendation.tags :=
          match Destination.tags dest with
          | Some s => if str_truthy (Some s) then split ","%char s else []
          | None => []
          end;
        Recommendation.distance_km :=
          match distance with
          | Some d => if truthy d then Some (round d 1) else None
          | None => None
          end;
        Recommendation.trip_duration_days := trip_duration_days;
        Recommendation.currency := user_currency;
        Recommendation.recommendation_score := round score 2;
        Recommendation.budget_breakdown := budget_breakdown;
        Recommendation.transportation_options := transportation_options;
        Recommendation.total_trip_cost := total_trip_cost;
        Recommendation.estimated_cost_per_day :=
          option_map per_day_average budget_breakdown |}.

(** The loop over the destinations found. *)
Fixpoint recommendations_of (destinations : list Destination.t)
  : result (list Recommendation.t) :=
  match destinations with
  | [] => Ok []
  | dest :: rest =>
      step <- distance_step dest ;;
      match step with
      | None => recommendations_of rest
      | Some distance =>
          recommendation <- recommend dest distance ;;
          later <- recommendations_of rest ;;
          Ok (recommendation :: later)
      end
  end.

(** The four orders. *)
Inductive order : Type :=
| ByDistance
| ByRating
| ByCost
| ByScore.

Definition order_of : order :=
  if String.eqb sort_by "distance" && truthy_opt user_lat && truthy_opt user_lon
  then ByDistance
  else if String.eqb sort_by "rating" then ByRating
  else if String.eqb sort_by "cost" then ByCost
  else ByScore.

Definition sort_key (o : order) (x : Recommendation.t) : ext :=
  match o with
  | ByDistance => or_inf (Recommendation.distance_km x)
  | ByRating => Fin (or_default (Recommendation.rating x) 0)
  | ByCost => or_inf (Recommendation.average_cost_per_day x)
  | ByScore => Fin (Recommendation.recommendation_score x)
  end.

Definition sort_reverse (o : order) : bool :=
  match o with
  | ByDistance | ByCost => false
  | ByRating | ByScore => true
  end.

Definition sort_recommendations (recommendations : list Recommendation.t)
  : list Recommendation.t :=
  sort ext_ltb (sort_key order_of) (sort_reverse order_of) recommendations.

Definition get_recommendations (table : list Destination.t)
  : result (list Recommendation.t) :=
  let destinations := query_all table in
  recommendations <- recommendations_of destinations ;;
  Ok (slice_to (sort_recommendations recommendations) limit).

End GetRecommendations.

End RecommendationService.

(* ================================================================== *)
(** ** CostCalculationService *)

Module CostCalculationService.

(** Cost of living, Mumbai = 100. *)
Definition COST_OF_LIVING_INDEX : dict Z :=
  [("mumbai", 100); ("delhi", 95); ("bangalore", 98); ("bengaluru", 98);
   ("chennai", 85); ("kolkata", 80); ("hyderabad", 90); ("pune", 92);
   ("ahmedabad", 80); ("jaipur", 75); ("goa", 110); ("kerala", 85);
   ("bangkok", 85); ("tokyo", 180); ("singapore", 165); ("hong kong", 170);
   ("seoul", 150); ("beijing", 120); ("shanghai", 130); ("kuala lumpur", 75);
   ("bali", 70); ("phuket", 80); ("hanoi", 65); ("ho chi minh", 70);
   ("dubai", 140); ("istanbul", 90); ("manila", 70);
   ("london", 190); ("paris", 180); ("rome", 160); ("barcelona", 155);
   ("amsterdam", 175); ("berlin", 165); ("vienna", 160); ("prague", 120);
   ("budapest", 100); ("madrid", 150); ("lisbon", 130); ("athens", 120);
   ("new york", 200); ("los angeles", 185); ("san francisco", 195);
   ("chicago", 170); ("miami", 165); ("toronto", 170); ("vancouver", 175);
   ("mexico city", 85); ("cancun", 95); ("rio de janeiro", 90);
   ("buenos aires", 80); ("lima", 75);
   ("sydney", 180); ("melbourne", 175); ("auckland", 170);
   ("cape town", 95); ("cairo", 70); ("marrakech", 75); ("nairobi", 80)]%Z.

(** Daily costs in INR, mid-range, in Mumbai. *)
Definition BASE_DAILY_COSTS : dict Z :=
  [("accommodation", 2000); ("food", 800); ("local_transport", 400);
   ("activities", 500)]%Z.

Definition BUDGET_MULTIPLIERS : dict Q :=
  [("budget", 0.6); ("mid-range", 1.0); ("luxury", 2.5)].

Definition calculate_distance `{MathLib} (lat1 lon1 lat2 lon2 : Q) : result Q :=
  let R := 6371 in
  haversine R lat1 lon1 lat2 lon2.

(** [int(x)]: truncation towards zero. *)
Definition int_of_float (x : Q) : Z :=
  if Qltb x 0 then Qceiling x else Qfloor x.

(** The costs of the transport table are built with [max] and [min] from
    an [int] bound and a [float] product: the result is the [int] where the
    bound is returned and a [float] where the product is. *)
Inductive number : Type :=
| Int (z : Z)
| Float (x : Q).

Definition value (n : number) : Q :=
  match n with
  | Int z => inject_Z z
  | Float x => x
  end.

(** [max(a, b)] returns [b] only when [b > a], and [min(a, b)] only when
    [b < a]. *)
Definition pymax_number (a b : number) : number :=
  if Qltb (value a) (value b) then b else a.

Definition pymin_number (a b : number) : number :=
  if Qltb (value b) (value a) then b else a.

(** [round(x)]: an [int] is returned as it is. *)
Definition round_number (n : number) : Z :=
  match n with
  | Int z => z
  | Float x => round_int x
  end.

(** One entry of the table of transport modes; the display strings [icon] and
    [duration_formatted] are left out.  [cost] is the value after the
    rounding loop that closes the function. *)
Module TransportOption.
Record t : Type := {
  cost : Z;
  name : string;
  duration_minutes : Z;
  available : bool
}.
End TransportOption.

Module TransportOptions.
Record t : Type := {
  options : dict TransportOption.t;
  recommended : string;
  recommended_cost : number
}.
End TransportOptions.

Definition option_entry (cost : number) (name : string) (duration_minutes : Z)
  (available : bool) : TransportOption.t :=
  {| TransportOption.cost := round_number cost;
     TransportOption.name := name;
     TransportOption.duration_minutes := duration_minutes;
     TransportOption.available := available |}.

Definition calculate_transportation_cost (distance_km : Q) : TransportOptions.t :=
  if Qltb distance_km 20 then
    {| TransportOptions.options :=
         [("auto",
           option_entry (pymax_number (Int 50) (Float (distance_km * 15)))
             "Auto/Rickshaw" (int_of_float (distance_km * 3)) true);
          ("cab",
           option_entry (pymax_number (Int 80) (Float (distance_km * 18)))
             "Cab/Taxi" (int_of_float (distance_km * 2.5)) true);
          ("bus",
           option_entry (pymax_number (Int 20) (Float (distance_km * 2)))
             "Local Bus" (int_of_float (distance_km * 4)) true)];
       TransportOptions.recommended := "auto";
       TransportOptions.recommended_cost :=
         pymax_number (Int 50) (Float (distance_km * 15)) |}
  else if Qltb distance_km 100 then
    {| TransportOptions.options :=
         [("bus",
           option_entry (pymax_number (Int 100) (Float (distance_km * 1.5)))
             "AC Bus" (int_of_float (distance_km * 1.5)) true);
          ("train",
           option_entry (pymax_number (Int 150) (Float (distance_km * 2)))
             "Train (2nd AC)" (int_of_float (distance_km * 1.2)) true);
          ("cab",
           option_entry (pymax_number (Int 500) (Float (distance_km * 12)))
             "Cab/Taxi" (int_of_float (distance_km * 1.2)) true)];
       TransportOptions.recommended := "train";
       TransportOptions.recommended_cost :=
         pymax_number (Int 150) (Float (distance_km * 2)) |}
  else if Qltb distance_km 500 then
    {| TransportOptions.options :=
         [("bus",
           option_entry (pymax_number (Int 400) (Float (distance_km * 1.2)))
             "AC Sleeper Bus" (int_of_float (distance_km * 1.5)) true);
          ("train",
           option_entry (pymax_number (Int 600) (Float (distance_km * 1.8)))
             "Train (2AC/3AC)" (int_of_float (distance_km * 1)) true);
          ("flight",
           option_entry
             (pymax_number (Int 2500)
                (pymin_number (Int 8000) (Float (distance_km * 5))))
             "Flight (Economy)" (int_of_float (distance_km * 0.5) + 120)
             (Qltb 300 distance_km));
          ("cab",
           option_entry (pymax_number (Int 3000) (Float (distance_km * 10)))
             "Cab/Taxi" (int_of_float (distance_km * 1.2)) true)];
       TransportOptions.recommended := "train";
       TransportOptions.recommended_cost :=
         pymax_number (Int 600) (Float (distance_km * 1.8)) |}
  else if Qltb distance_km 1500 then
    {| TransportOptions.options :=
         [("train",
           option_entry (pymax_number (Int 1200) (Float (distance_km * 1.5)))
             "Train (AC/Sleeper)" (int_of_float (distance_km * 0.8)) true);
          ("flight",
           option_entry
             (pymax_number (Int 3500)
                (pymin_number (Int 12000) (Float (distance_km * 4))))
             "Flight (Economy)" (int_of_float (distance_km * 0.4) + 150) true);
          ("bus",
           option_entry (pymax_number (Int 1000) (Float (distance_km * 1)))
             "AC Sleeper Bus" (int_of_float (distance_km * 1.5)) true)];
       TransportOptions.recommended := "flight";
       TransportOptions.recommended_cost :=
         pymax_number (Int 3500)
           (pymin_number (Int 12000) (Float (distance_km * 4))) |}
  else
    let flight_cost :=
      pymin_number (Int 50000)
        (pymax_number (Int 5000) (Float (distance_km * 3.5))) in
    {| TransportOptions.options :=
         [("flight",
           option_entry flight_cost
             "Flight (Economy)" (int_of_float (distance_km * 0.35) + 180) true);
          ("train",
           option_entry (pymax_number (Int 2000) (Float (distance_km * 1.2)))
             "Train (AC)" (int_of_float (distance_km * 0.8))
             (Qltb distance_km 3000))];
       TransportOptions.recommended := "flight";
       TransportOptions.recommended_cost := flight_cost |}.

Definition get_destination_cost_index (destination : string) : Q :=
  let destination_lower := strip (lower destination) in
  match dict_get destination_lower COST_OF_LIVING_INDEX with
  | Some index => inject_Z index / 100.0
  | None =>
      match find (fun entry => contains (fst entry) destination_lower
                               || contains destination_lower (fst entry))
                 COST_OF_LIVING_INDEX with
      | Some (_, index) => inject_Z index / 100.0
      | None => 1.0
      end
  end.

Definition calculate_daily_costs (destination budget : string) : dict Z :=
  let cost_index := get_destination_cost_index destination in
  let budget_multiplier :=
    dict_get_default BUDGET_MULTIPLIERS (Some (lower budget)) 1.0 in
  let daily_costs :=
    fold_left
      (fun daily_costs entry =>
         dict_set (fst entry)
           (round_int (inject_Z (snd entry) * cost_index * budget_multiplier))
           daily_costs)
      BASE_DAILY_COSTS [] in
  dict_set "total" (fold_left Z.add (map snd daily_costs) 0%Z) daily_costs.

Module CostBreakdown.
Record t : Type := {
  accommodation : Z;
  food : Z;
  transportation_local : Z;
  transportation_to_destination : Z;
  activities : Z;
  miscellaneous : Z;
  total : Z
}.
End CostBreakdown.

Module DailyBreakdown.
Record t : Type := {
  accommodation_per_night : Z;
  food_per_day : Z;
  local_transport_per_day : Z;
  activities_per_day : Z
}.
End DailyBreakdown.

Module TransportMode.
Record t : Type := {
  name : string;
  one_way_cost : Z;
  round_trip_cost : Z;
  duration_minutes : Z;
  available : bool
}.
End TransportMode.

Module TransportDetails.
Record t : Type := {
  distance_km : Q;
  recommended_mode : string;
  recommended_cost_one_way : Z;
  recommended_cost_round_trip : Z;
  all_options : dict TransportMode.t
}.
End TransportDetails.

Module TripCosts.
Record t : Type := {
  destination : string;
  duration_days : Z;
  budget_category : string;
  travelers : Z;
  currency : string;
  cost_breakdown : CostBreakdown.t;
  per_person_cost : Z;
  daily_breakdown : DailyBreakdown.t;
  cost_index : Q;
  transportation_details : option TransportDetails.t;
  distance_km : option Q
}.
End TripCosts.

(** [round(recommended_cost * 2 * travelers)]: integer arithmetic when the
    cost is an [int]; otherwise [travelers] is converted to a [float]. *)
Definition round_trip (recommended_cost : number) (travelers : Z) : result Z :=
  match recommended_cost with
  | Int cost => Ok (cost * 2 * travelers)%Z
  | Float cost =>
      t <- float_of_int travelers ;;
      Ok (round_int (cost * 2 * t))
  end.

Definition calculate_trip_costs `{MathLib}
  (destination : string) (duration_days : Z) (budget : string) (travelers : Z)
  (user_latitude user_longitude dest_latitude dest_longitude : option Q)
  : result TripCosts.t :=
  let daily_costs := calculate_daily_costs destination budget in
  let accommodation_nights := Z.max 1 (duration_days - 1) in
  accommodation <- subscript daily_costs "accommodation" ;;
  let total_accommodation := (accommodation * accommodation_nights * travelers)%Z in
  food <- subscript daily_costs "food" ;;
  let total_food := (food * duration_days * travelers)%Z in
  local_transport <- subscript daily_costs "local_transport" ;;
  let total_local_transport := (local_transport * duration_days * travelers)%Z in
  activities <- subscript daily_costs "activities" ;;
  let total_activities := (activities * duration_days * travelers)%Z in
  transport <-
    match user_latitude, user_longitude, dest_latitude, dest_longitude with
    | Some ulat, Some ulon, Some dlat, Some dlon =>
        if truthy ulat && truthy ulon && truthy dlat && truthy dlon then
          distance_km <- calculate_distance ulat ulon dlat dlon ;;
          let transport_options := calculate_transportation_cost distance_km in
          let recommended_mode := TransportOptions.recommended transport_options in
          let recommended_cost := TransportOptions.recommended_cost transport_options in
          transportation_to_dest <- round_trip recommended_cost travelers ;;
          let transport_modes :=
            map (fun entry =>
                   let details := snd entry in
                   (fst entry,
                    {| TransportMode.name := TransportOption.name details;
                       TransportMode.one_way_cost := TransportOption.cost details;
                       TransportMode.round_trip_cost :=
                         (TransportOption.cost details * 2 * travelers)%Z;
                       TransportMode.duration_minutes :=
                         TransportOption.duration_minutes details;
                       TransportMode.available :=
                         TransportOption.available details |}))
                (TransportOptions.options transport_options) in
          Ok (transportation_to_dest,
              Some {| TransportDetails.distance_km := round distance_km 1;
                      TransportDetails.recommended_mode := recommended_mode;
                      TransportDetails.recommended_cost_one_way :=
                        round_number recommended_cost;
                      TransportDetails.recommended_cost_round_trip :=
                        transportation_to_dest;
                      TransportDetails.all_options := transport_modes |},
              Some distance_km)
        else Ok (0%Z, None, None)
    | _, _, _, _ => Ok (0%Z, None, None)
    end ;;
  let '(transportation_to_dest, transport_details, distance_km) := transport in
  categories <- float_of_int (total_accommodation + total_food
                              + total_local_transport + total_activities) ;;
  let misc_costs := round_int (categories * 0.1) in
  let total_cost :=
    (total_accommodation + total_food + total_local_transport
     + total_activities + transportation_to_dest + misc_costs)%Z in
  per_person_cost <-
    (if (0 <? travelers)%Z
     then q <- int_truediv total_cost travelers ;; Ok (round_int q)
     else Ok 0%Z) ;;
  accommodation_per_night <- subscript daily_costs "accommodation" ;;
  food_per_day <- subscript daily_costs "food" ;;
  local_transport_per_day <- subscript daily_costs "local_transport" ;;
  activities_per_day <- subscript daily_costs "activities" ;;
  Ok {| TripCosts.destination := destination;
        TripCosts.duration_days := duration_days;
        TripCosts.budget_category := budget;
        TripCosts.travelers := travelers;
        TripCosts.currency := "INR";
        TripCosts.cost_breakdown :=
          {| CostBreakdown.accommodation := total_accommodation;
             CostBreakdown.food := total_food;
             CostBreakdown.transportation_local := total_local_transport;
             CostBreakdown.transportation_to_destination := transportation_to_dest;
             CostBreakdown.activities := total_activities;
             CostBreakdown.miscellaneous := misc_costs;
             CostBreakdown.total := total_cost |};
        TripCosts.per_person_cost := per_person_cost;
        TripCosts.daily_breakdown :=
          {| DailyBreakdown.accommodation_per_night := accommodation_per_night;
             DailyBreakdown.food_per_day := food_per_day;
             DailyBreakdown.local_transport_per_day := local_transport_per_day;
             DailyBreakdown.activities_per_day := activities_per_day |};
        TripCosts.cost_index := get_destination_cost_index destination;
        TripCosts.transportation_details := transport_details;
        TripCosts.distance_km := distance_km |}.

End CostCalculationService.

(* ================================================================== *)
(** ** Stand-ins for the C library and the database

    They make the model run on concrete requests.  The arithmetic stand-in
    is exact at 0 and close for neighbouring points: the sine of a small
    angle is the angle, its cosine is 1, the square root is taken to ten
    decimals, and the arc tangent of a small ratio is the ratio. *)

Definition approx_sqrt (x : Q) : Q :=
  inject_Z (Z.sqrt (Qfloor (x * 100000000000000000000))) / 10000000000.

Definition small_angle_math : MathLib :=
  {| sin := fun x => x;
     cos := fun _ => 1;
     sqrt := approx_sqrt;
     atan2 := fun y x => y / x |}.

Fixpoint drop_last (s : string) : string :=
  match s with
  | EmptyString => EmptyString
  | String c EmptyString => EmptyString
  | String c rest => String c (drop_last rest)
  end.

(** A pattern [%text%] matches the values that contain [text]. *)
Definition substring_like : SqlEngine :=
  {| sql_like := fun pattern value =>
       match pattern with
       | String "%" rest => contains (drop_last rest) value
       | _ => String.eqb pattern value
       end |}.

(* ================================================================== *)
(** ** Binary64 arithmetic

    The exact rationals above leave out the rounding of each floating-point
    operation.  Where the value itself matters the functions are modelled a
    second time with IEEE 754 binary64 numbers, the kernel's [float]:
    [calculate_distance], where the rounding decides whether the argument of
    the second square root is negative, and [calculate_transportation_cost]
    and [calculate_comprehensive_budget], whose results are fixed to the
    cent.  Addition, subtraction, multiplication, division and the square
    root are the correctly rounded operations; [sin], [cos] and [atan2] are
    the C library's and form an interface.  [x ** 2] is the product
    [x * x].  A decimal literal denotes the nearest binary64 number, as it
    does in Python. *)

Module Binary64.
Import PrimFloat.
#[local] Open Scope float_scope.

Class MathLib : Type := {
  sin : float -> float;
  cos : float -> float;
  atan2 : float -> float -> float
}.

Definition pi : float := 0x1.921fb54442d18p+1.

Definition radians (x : float) : float := x * (pi / 180).

Definition math_sqrt (x : float) : result float :=
  if x <? 0 then Raise (ValueError "math domain error") else Ok (sqrt x).

Definition EARTH_RADIUS_KM : float := 6371.

(** The term [a] of the formula. *)
Definition haversine_term `{MathLib} (lat1_rad lat2_rad dlat dlon : float)
  : float :=
  sin (dlat / 2) * sin (dlat / 2)
  + cos lat1_rad * cos lat2_rad * (sin (dlon / 2) * sin (dlon / 2)).

Definition calculate_distance `{MathLib} (lat1 lon1 lat2 lon2 : float)
  : result float :=
  let lat1_rad := radians lat1 in
  let lon1_rad := radians lon1 in
  let lat2_rad := radians lat2 in
  let lon2_rad := radians lon2 in
  let dlat := lat2_rad - lat1_rad in
  let dlon := lon2_rad - lon1_rad in
  let a := haversine_term lat1_rad lat2_rad dlat dlon in
  sa <- math_sqrt a ;;
  sb <- math_sqrt (1 - a) ;;
  let c := 2 * atan2 sa sb in
  Ok (EARTH_RADIUS_KM * c).

(** The values of the C library at the arguments met on the way from
    (8, 0) to (-8, 180): [sin(-0.13962634015954636) = -0.13917310096006544],
    [sin(1.5707963267948966) = 1.0] and
    [cos(0.13962634015954636) = cos(-0.13962634015954636)
     = 0.9902680687415704].  No other argument is asked for. *)
Definition libm_samples : MathLib :=
  {| sin := fun x =>
       if x =? -0x1.1df46a2529d39p-3 then -0x1.1d06c968d9e19p-3
       else if x =? 0x1.921fb54442d18p+0 then 1
       else 0;
     cos := fun x =>
       if abs x =? 0x1.1df46a2529d39p-3 then 0x1.fb046a930947ap-1
       else 1;
     atan2 := fun y x => y / x |}.

(** *** Conversions and [round]

    [nearest_float n] is the binary64 number nearest to the integer [n],
    ties to even; it is infinite from [overflow_threshold] on, and there the
    conversion of Python raises. *)
Definition nearest_float (n : Z) : float :=
  FloatOps.SF2Prim
    (SpecFloat.binary_normalize FloatOps.prec FloatOps.emax n 0 false).

Definition float_of_int (n : Z) : result float :=
  if (Z.abs n <? overflow_threshold)%Z then Ok (nearest_float n)
  else Raise OverflowError.

(** [x * n] and [x / n] for a [float] [x] and an [int] [n].  The division
    raises [ZeroDivisionError] when the converted divisor is [0.0], which
    it is for [n = 0] alone. *)
Definition mul_int (x : float) (n : Z) : result float :=
  y <- float_of_int n ;;
  Ok (x * y).

Definition div_int (x : float) (n : Z) : result float :=
  y <- float_of_int n ;;
  if (n =? 0)%Z then Raise ZeroDivisionError else Ok (x / y).

(** The rational that a finite float denotes. *)
Definition exact (x : float) : Q :=
  match FloatOps.Prim2SF x with
  | SpecFloat.S754_finite s m e =>
      ((if s then -1 else 1) * inject_Z (Zpos m) * Qpower 2 e)%Q
  | _ => 0%Q
  end.

(** [round(x, ndigits)] as CPython computes it: the exact value of [x] is
    rounded to [ndigits] decimals, ties to even, and the decimal number found
    is converted to the nearest float; the sign of [x] is kept, and zeros,
    infinities and NaN are returned as they are. *)
Definition round (x : float) (ndigits : nat) : float :=
  match FloatOps.Prim2SF x with
  | SpecFloat.S754_finite s m e =>
      let scale := (10 ^ Z.of_nat ndigits)%Z in
      match round_int (exact x * inject_Z scale)%Q with
      | Z0 => FloatOps.SF2Prim (SpecFloat.S754_zero s)
      | Zpos k | Zneg k =>
          FloatOps.SF2Prim
            (SpecFloat.SFdiv FloatOps.prec FloatOps.emax
               (SpecFloat.S754_finite s k 0)
               (SpecFloat.S754_finite false (Z.to_pos scale) 0))
      end
  | _ => x
  end.

(** *** RecommendationService.calculate_transportation_cost *)

Definition calculate_transportation_cost (distance_km : float)
  : result (dict float) :=
  let costs : dict float := [] in
  if distance_km <? 50 then
    let costs := dict_set "bus" (round (distance_km * 0.50) 2) costs in
    let costs := dict_set "taxi" (round (distance_km * 1.50) 2) costs in
    bus <- subscript costs "bus" ;;
    Ok (dict_set "recommended" bus costs)
  else if distance_km <? 300 then
    let costs := dict_set "bus" (round (50 + (distance_km - 50) * 0.15) 2) costs in
    let costs := dict_set "train" (round (40 + (distance_km - 50) * 0.20) 2) costs in
    let costs := dict_set "taxi" (round (distance_km * 1.20) 2) costs in
    bus <- subscript costs "bus" ;;
    Ok (dict_set "recommended" bus costs)
  else if distance_km <? 1000 then
    let costs := dict_set "train" (round (80 + (distance_km - 300) * 0.12) 2) costs in
    let costs := dict_set "budget_flight" (round (100 + (distance_km - 300) * 0.25) 2) costs in
    let costs := dict_set "standard_flight" (round (150 + (distance_km - 300) * 0.35) 2) costs in
    flight <- subscript costs "budget_flight" ;;
    Ok (dict_set "recommended" flight costs)
  else if distance_km <? 3000 then
    let costs := dict_set "budget_flight" (round (250 + (distance_km - 1000) * 0.15) 2) costs in
    let costs := dict_set "standard_flight" (round (400 + (distance_km - 1000) * 0.20) 2) costs in
    let costs := dict_set "premium_flight" (round (800 + (distance_km - 1000) * 0.30) 2) costs in
    flight <- subscript costs "budget_flight" ;;
    Ok (dict_set "recommended" flight costs)
  else
    let costs := dict_set "budget_flight" (round (550 + (distance_km - 3000) * 0.08) 2) costs in
    let costs := dict_set "standard_flight" (round (900 + (distance_km - 3000) * 0.12) 2) costs in
    let costs := dict_set "business_flight" (round (2000 + (distance_km - 3000) * 0.25) 2) costs in
    flight <- subscript costs "budget_flight" ;;
    Ok (dict_set "recommended" flight costs).

(** The modes on offer are the keys other than the entry ['recommended']. *)
Definition modes (costs : dict float) : list string :=
  filter (fun k => negb (String.eqb k "recommended")) (dict_keys costs).

(** *** RecommendationService.calculate_comprehensive_budget *)

Record BudgetBreakdown : Type := {
  transportation : float;
  transportation_options : dict float;
  accommodation : float;
  accommodation_per_night : float;
  food : float;
  food_per_day : float;
  local_transport : float;
  activities : float;
  miscellaneous : float;
  insurance : float;
  contingency : float;
  subtotal : float;
  total : float;
  per_day_average : float
}.

Definition accommodation_multipliers : dict float :=
  [("budget", 0.6); ("mid-range", 1.0); ("luxury", 2.5)].

Definition food_multipliers : dict float :=
  [("budget", 0.7); ("mid-range", 1.0); ("luxury", 2.0)].

Definition calculate_comprehensive_budget
  (distance_km : float) (duration_days : Z) (destination_daily_cost : float)
  (budget_tier : option string) : result BudgetBreakdown :=
  transport_costs <- calculate_transportation_cost distance_km ;;
  recommended <- subscript transport_costs "recommended" ;;
  let transport_total := recommended * 2 in
  let accommodation_multiplier :=
    dict_get_default accommodation_multipliers budget_tier 1.0 in
  let accommodation_per_night :=
    destination_daily_cost * 0.4 * accommodation_multiplier in
  accommodation_total <- mul_int accommodation_per_night duration_days ;;
  let food_multiplier := dict_get_default food_multipliers budget_tier 1.0 in
  let food_per_day := destination_daily_cost * 0.35 * food_multiplier in
  food_total <- mul_int food_per_day duration_days ;;
  let local_transport_per_day :=
    destination_daily_cost * 0.15 * accommodation_multiplier in
  local_transport_total <- mul_int local_transport_per_day duration_days ;;
  let activities_per_day := destination_daily_cost * 0.10 in
  activities_total <- mul_int activities_per_day duration_days ;;
  let misc_total := (food_total + activities_total) * 0.15 in
  let subtotal :=
    transport_total + accommodation_total + food_total
    + local_transport_total + activities_total + misc_total in
  let insurance := subtotal * 0.05 in
  let total_before_contingency := subtotal + insurance in
  let contingency := total_before_contingency * 0.10 in
  let grand_total := total_before_contingency + contingency in
  per_day <- (if (0 <? duration_days)%Z
              then q <- div_int grand_total duration_days ;; Ok (round q 2)
              else Ok 0) ;;
  Ok {| transportation := round transport_total 2;
        transportation_options := transport_costs;
        accommodation := round accommodation_total 2;
        accommodation_per_night := round accommodation_per_night 2;
        food := round food_total 2;
        food_per_day := round food_per_day 2;
        local_transport := round local_transport_total 2;
        activities := round activities_total 2;
        miscellaneous := round misc_total 2;
        insurance := round insurance 2;
        contingency := round contingency 2;
        subtotal := round subtotal 2;
        total := round grand_total 2;
        per_day_average := per_day |}.

End Binary64.

(* ================================================================== *)
(** ** The specification's tables and steps

    [Spec.estimateTransport] follows the tier table of section 4.2 of the
    specification and [Spec.synthesize] the eleven steps of section 4.3,
    with binary64 numbers: each product, sum and quotient of the text is the
    binary64 operation, in the order in which the text writes it, and the
    duration enters as the float nearest to it.  The theorems below compare
    them with the functions of the source. *)

Module Spec.
Import PrimFloat.
#[local] Open Scope float_scope.

Inductive tier : Type :=
| Budget
| MidRange
| Luxury.

Definition tier_name (t : tier) : string :=
  match t with
  | Budget => "budget"
  | MidRange => "mid-range"
  | Luxury => "luxury"
  end.

Record TransportEstimate : Type := {
  options : list (string * float);
  recommended : string
}.

(** Bands are half-open; each cost is rounded to 2 decimal places. *)
Definition estimateTransport (d : float) : TransportEstimate :=
  if d <? 50 then
    {| options := [("bus", Binary64.round (0.50 * d) 2);
                   ("taxi", Binary64.round (1.50 * d) 2)];
       recommended := "bus" |}
  else if d <? 300 then
    {| options := [("bus", Binary64.round (50 + 0.15 * (d - 50)) 2);
                   ("train", Binary64.round (40 + 0.20 * (d - 50)) 2);
                   ("taxi", Binary64.round (1.20 * d) 2)];
       recommended := "bus" |}
  else if d <? 1000 then
    {| options := [("train", Binary64.round (80 + 0.12 * (d - 300)) 2);
                   ("budget_flight", Binary64.round (100 + 0.25 * (d - 300)) 2);
                   ("standard_flight", Binary64.round (150 + 0.35 * (d - 300)) 2)];
       recommended := "budget_flight" |}
  else if d <? 3000 then
    {| options := [("budget_flight", Binary64.round (250 + 0.15 * (d - 1000)) 2);
                   ("standard_flight", Binary64.round (400 + 0.20 * (d - 1000)) 2);
                   ("premium_flight", Binary64.round (800 + 0.30 * (d - 1000)) 2)];
       recommended := "budget_flight" |}
  else
    {| options := [("budget_flight", Binary64.round (550 + 0.08 * (d - 3000)) 2);
                   ("standard_flight", Binary64.round (900 + 0.12 * (d - 3000)) 2);
                   ("business_flight", Binary64.round (2000 + 0.25 * (d - 3000)) 2)];
       recommended := "budget_flight" |}.

Definition recommendedCost (e : TransportEstimate) : float :=
  match dict_get (recommended e) (options e) with
  | Some cost => cost
  | None => 0
  end.

Definition accommodationMultiplier (t : tier) : float :=
  match t with
  | Budget => 0.6
  | MidRange => 1.0
  | Luxury => 2.5
  end.

Definition foodMultiplier (t : tier) : float :=
  match t with
  | Budget => 0.7
  | MidRange => 1.0
  | Luxury => 2.0
  end.

Record BudgetBreakdown : Type := {
  transportation : float;
  accommodation : float;
  food : float;
  local_transport : float;
  activities : float;
  miscellaneous : float;
  insurance : float;
  contingency : float;
  subtotal : float;
  total : float;
  per_day_average : float
}.

Definition synthesize (distanceKm : float) (durationDays : Z)
  (destinationDailyCost : float) (budgetTier : tier) : BudgetBreakdown :=
  let days := Binary64.nearest_float durationDays in
  let transport := recommendedCost (estimateTransport distanceKm) * 2 in
  let accommodationPerNight :=
    destinationDailyCost * 0.4 * accommodationMultiplier budgetTier in
  let accommodation := accommodationPerNight * days in
  let foodPerDay := destinationDailyCost * 0.35 * foodMultiplier budgetTier in
  let food := foodPerDay * days in
  let localTransportPerDay :=
    destinationDailyCost * 0.15 * accommodationMultiplier budgetTier in
  let localTransport := localTransportPerDay * days in
  let activitiesPerDay := destinationDailyCost * 0.10 in
  let activities := activitiesPerDay * days in
  let misc := (food + activities) * 0.15 in
  let subtotal :=
    transport + accommodation + food + localTransport + activities + misc in
  let insurance := subtotal * 0.05 in
  let contingency := (subtotal + insurance) * 0.10 in
  let total := subtotal + insurance + contingency in
  {| transportation := Binary64.round transport 2;
     accommodation := Binary64.round accommodation 2;
     food := Binary64.round food 2;
     local_transport := Binary64.round localTransport 2;
     activities := Binary64.round activities 2;
     miscellaneous := Binary64.round misc 2;
     insurance := Binary64.round insurance 2;
     contingency := Binary64.round contingency 2;
     subtotal := Binary64.round subtotal 2;
     total := Binary64.round total 2;
     per_day_average :=
       if (0 <? durationDays)%Z then Binary64.round (total / days) 2 else 0 |}.

End Spec.

(** The breakdown of the source, read as the specification's record. *)
Definition as_spec_breakdown (b : Binary64.BudgetBreakdown)
  : Spec.BudgetBreakdown :=
  {| Spec.transportation := Binary64.transportation b;
     Spec.accommodation := Binary64.accommodation b;
     Spec.food := Binary64.food b;
     Spec.local_transport := Binary64.local_transport b;
     Spec.activities := Binary64.activities b;
     Spec.miscellaneous := Binary64.miscellaneous b;
     Spec.insurance := Binary64.insurance b;
     Spec.contingency := Binary64.contingency b;
     Spec.subtotal := Binary64.subtotal b;
     Spec.total := Binary64.total b;
     Spec.per_day_average := Binary64.per_day_average b |}.

(* ================================================================== *)
(** ** The orders of the ranking, as relations

    [in_order o a b] says that [a] may stand before [b] in a list ranked by
    [o]; [same_rank o a b] that the two tie. *)

Definition ext_le (a b : ext) : Prop :=
  match a, b with
  | Fin x, Fin y => x <= y
  | _, Inf => True
  | Inf, Fin _ => False
  end.

Definition in_order (o : RecommendationService.order)
  (a b : RecommendationService.Recommendation.t) : Prop :=
  match o with
  | RecommendationService.ByDistance =>
      ext_le (or_inf (RecommendationService.Recommendation.distance_km a))
             (or_inf (RecommendationService.Recommendation.distance_km b))
  | RecommendationService.ByRating =>
      or_default (RecommendationService.Recommendation.rating b) 0
      <= or_default (RecommendationService.Recommendation.rating a) 0
  | RecommendationService.ByCost =>
      ext_le (or_inf (RecommendationService.Recommendation.average_cost_per_day a))
             (or_inf (RecommendationService.Recommendation.average_cost_per_day b))
  | RecommendationService.ByScore =>
      RecommendationService.Recommendation.recommendation_score b
      <= RecommendationService.Recommendation.recommendation_score a
  end.

Definition same_rank (o : RecommendationService.order)
  (a b : RecommendationService.Recommendation.t) : bool :=
  negb (ext_ltb (RecommendationService.sort_key o a)
                (RecommendationService.sort_key o b))
  && negb (ext_ltb (RecommendationService.sort_key o b)
                   (RecommendationService.sort_key o a)).


(* ================================================================== *)
(** ** Sample destinations *)

Definition destination (id : Z) (title : string) (latitude longitude : option Q)
  (average_cost_per_day rating popularity_score : option Q) : Destination.t :=
  {| Destination.id := id;
     Destination.title := title;
     Destination.category := Some "city";
     Destination.budget_tier := Some "mid-range";
     Destination.latitude := latitude;
     Destination.longitude := longitude;
     Destination.average_cost_per_day := average_cost_per_day;
     Destination.rating := rating;
     Destination.review_count := Some 0%Z;
     Destination.popularity_score := popularity_score;
     Destination.tags := Some "culture,food" |}.

Definition mysore : Destination.t :=
  destination 1 "Mysore" (Some 12.2958) (Some 76.6394) (Some 40) (Some 4.5) (Some 1).

Definition hampi : Destination.t :=
  destination 2 "Hampi" (Some 15.3350) (Some 76.4600) (Some 30) (Some 4.0) (Some 10).

Definition unmapped : Destination.t :=
  destination 3 "Unmapped" None None (Some 20) (Some 5.0) (Some 50).

Definition null_island : Destination.t :=
  destination 4 "Null Island" (Some 0) (Some 0) (Some 25) (Some 3.5) (Some 5).

Definition bengaluru : Destination.t :=
  destination 5 "Bengaluru" (Some 12.9716) (Some 77.5946) (Some 50) (Some 4.2) (Some 8).

(** A destination on the far side of the globe from (8, 0). *)
Definition far_island : Destination.t :=
  destination 6 "Far Island" (Some (-8)) (Some 180) (Some 60) (Some 4.0) (Some 2).

(** The three destinations of the end-to-end scenario of the specification:
    popularity 10, 5, 1; rating 4, 5, 3; 50, 200 and 0 reviews; no
    coordinates and no daily cost. *)
Definition scenario (id : Z) (popularity_score rating : Q) (review_count : Z)
  : Destination.t :=
  {| Destination.id := id;
     Destination.title := "";
     Destination.category := None;
     Destination.budget_tier := None;
     Destination.latitude := None;
     Destination.longitude := None;
     Destination.average_cost_per_day := None;
     Destination.rating := Some rating;
     Destination.review_count := Some review_count;
     Destination.popularity_score := Some popularity_score;
     Destination.tags := None |}.

Definition scenario_table : list Destination.t :=
  [scenario 1 10 4 50; scenario 2 5 5 200; scenario 3 1 3 0].

(* ================================================================== *)
(** ** RecommendationService: the maintenance job and the similarity query *)

Module RecommendationJobs.

(** The score that [update_popularity_scores] gives to one destination. *)
Definition popularity_of (dest : Destination.t) : Q :=
  let base_score := or_default (Destination.rating dest) 3.0 * 0.5 in
  let review_score :=
    pymin (inject_Z (RecommendationService.review_count_or_0 dest) / 100) 1.0 * 0.3 in
  let recency_score := 0.2 in
  base_score + review_score + recency_score.

Definition set_popularity (dest : Destination.t) : Destination.t :=
  {| Destination.id := Destination.id dest;
     Destination.title := Destination.title dest;
     Destination.category := Destination.category dest;
     Destination.budget_tier := Destination.budget_tier dest;
     Destination.latitude := Destination.latitude dest;
     Destination.longitude := Destination.longitude dest;
     Destination.average_cost_per_day := Destination.average_cost_per_day dest;
     Destination.rating := Destination.rating dest;
     Destination.review_count := Destination.review_count dest;
     Destination.popularity_score := Some (popularity_of dest);
     Destination.tags := Destination.tags dest |}.

(** The table after the commit, and the value returned. *)
Definition update_popularity_scores (table : list Destination.t)
  : list Destination.t * Z :=
  (map set_popularity table, Z.of_nat (List.length table)).

Module SimilarDestination.
Record t : Type := {
  id : Z;
  title : string;
  category : option string;
  rating : option Q;
  average_cost_per_day : option Q;
  tags : list string
}.
End SimilarDestination.

(** The patterns built from the tags of the destination: one per tag that is
    not blank once stripped. *)
Definition tag_patterns (tags : string) : list string :=
  map (fun tag => "%" ++ tag ++ "%")
    (filter (fun tag => negb (String.eqb tag ""))
       (map strip (split ","%char tags))).

Section GetSimilarDestinations.
Context `{SqlEngine}.

(** [LIMIT n], as the database applies it to the rows found. *)
Variable sql_limit : Z -> list Destination.t -> list Destination.t.

Definition similar_filter (dest other : Destination.t) (destination_id : Z) : bool :=
  negb (Destination.id other =? destination_id)%Z
  && (if str_truthy (Destination.category dest)
      then match Destination.category other, Destination.category dest with
           | Some c, Some c' => String.eqb c c'
           | _, _ => false
           end
      else true)
  && (match Destination.tags dest with
      | Some tags =>
          if str_truthy (Some tags) then
            match tag_patterns tags with
            | [] => true
            | patterns => RecommendationService.sql_like_any (Destination.tags other) patterns
            end
          else true
      | None => true
      end).

Definition get_similar_destinations (table : list Destination.t)
  (destination_id limit : Z) : list SimilarDestination.t :=
  match find (fun d => (Destination.id d =? destination_id)%Z) table with
  | None => []
  | Some dest =>
      let similar_destinations :=
        sql_limit limit
          (filter (fun other => similar_filter dest other destination_id) table) in
      map (fun d =>
             {| SimilarDestination.id := Destination.id d;
                SimilarDestination.title := Destination.title d;
                SimilarDestination.category := Destination.category d;
                SimilarDestination.rating := Destination.rating d;
                SimilarDestination.average_cost_per_day :=
                  Destination.average_cost_per_day d;
                SimilarDestination.tags :=
                  match Destination.tags d with
                  | Some s => if str_truthy (Some s) then split ","%char s else []
                  | None => []
                  end |})
          similar_destinations
  end.

End GetSimilarDestinations.

End RecommendationJobs.

(* ================================================================== *)
(** ** CostCalculationService.geocode_city *)

Module Geocoding.

Definition CITY_COORDINATES : dict (Q * Q) :=
  [("mumbai", (19.0760, 72.8777)); ("delhi", (28.7041, 77.1025));
   ("bangalore", (12.9716, 77.5946)); ("bengaluru", (12.9716, 77.5946));
   ("chennai", (13.0827, 80.2707)); ("kolkata", (22.5726, 88.3639));
   ("hyderabad", (17.3850, 78.4867)); ("pune", (18.5204, 73.8567));
   ("ahmedabad", (23.0225, 72.5714)); ("jaipur", (26.9124, 75.7873));
   ("goa", (15.2993, 74.1240)); ("kerala", (10.8505, 76.2711));
   ("marathahalli", (12.9591, 77.7011)); ("whitefield", (12.9698, 77.7500));
   ("koramangala", (12.9352, 77.6245));
   ("bangkok", (13.7563, 100.5018)); ("tokyo", (35.6762, 139.6503));
   ("singapore", (1.3521, 103.8198)); ("hong kong", (22.3193, 114.1694));
   ("seoul", (37.5665, 126.9780)); ("beijing", (39.9042, 116.4074));
   ("shanghai", (31.2304, 121.4737)); ("kuala lumpur", (3.1390, 101.6869));
   ("bali", (-8.3405, 115.0920)); ("dubai", (25.2048, 55.2708));
   ("london", (51.5074, -0.1278)); ("paris", (48.8566, 2.3522));
   ("rome", (41.9028, 12.4964)); ("barcelona", (41.3851, 2.1734));
   ("amsterdam", (52.3676, 4.9041)); ("berlin", (52.5200, 13.4050));
   ("new york", (40.7128, -74.0060)); ("los angeles", (34.0522, -118.2437));
   ("san francisco", (37.7749, -122.4194)); ("miami", (25.7617, -80.1918));
   ("toronto", (43.6532, -79.3832))].

(** What [OpenRouteService().geocode] answers: nothing, or a dictionary in
    which either coordinate may be absent. *)
Record GeocodeResult : Type := {
  latitude : option Q;
  longitude : option Q
}.

(** The geocoding service: whether its module could be imported, and its
    [geocode] call, which may raise. *)
Class OpenRoute : Type := {
  OPENROUTE_AVAILABLE : bool;
  ors_geocode : string -> result (option GeocodeResult)
}.

(** The fallback on the local table. *)
Definition geocode_local (city_lower : string) : option (Q * Q) :=
  match dict_get city_lower CITY_COORDINATES with
  | Some coords => Some coords
  | None =>
      match find (fun entry => contains (fst entry) city_lower
                               || contains city_lower (fst entry))
                 CITY_COORDINATES with
      | Some (_, coords) => Some coords
      | None => None
      end
  end.

Definition geocode_city `{OpenRoute} (city_name : string) : option (Q * Q) :=
  let city_lower := strip (lower city_name) in
  let fallback := geocode_local city_lower in
  if OPENROUTE_AVAILABLE then
    match ors_geocode city_name with
    | Ok (Some result) =>
        match latitude result, longitude result with
        | Some lat, Some lon =>
            if truthy lat && truthy lon then Some (lat, lon) else fallback
        | _, _ => fallback
        end
    | Ok None => fallback
    | Raise _ => fallback
    end
  else fallback.

End Geocoding.

(* ================================================================== *)
(** ** A destination with another rating *)

Definition with_rating (dest : Destination.t) (rating : option Q) : Destination.t :=
  {| Destination.id := Destination.id dest;
     Destination.title := Destination.title dest;
     Destination.category := Destination.category dest;
     Destination.budget_tier := Destination.budget_tier dest;
     Destination.latitude := Destination.latitude dest;
     Destination.longitude := Destination.longitude dest;
     Destination.average_cost_per_day := Destination.average_cost_per_day dest;
     Destination.rating := rating;
     Destination.review_count := Destination.review_count dest;
     Destination.popularity_score := Destination.popularity_score dest;
     Destination.tags := Destination.tags dest |}.

(* ================================================================== *)
(** ** Stand-ins for the geocoding service and for [LIMIT] *)

(** A geocoding service that is imported but whose call fails, and one that
    answers every name with the same coordinates. *)
Definition failing_service : Geocoding.OpenRoute :=
  {| Geocoding.OPENROUTE_AVAILABLE := true;
     Geocoding.ors_geocode := fun _ => Raise (ValueError "no answer") |}.

Definition fixed_service (lat lon : Q) : Geocoding.OpenRoute :=
  {| Geocoding.OPENROUTE_AVAILABLE := true;
     Geocoding.ors_geocode := fun _ =>
       Ok (Some {| Geocoding.latitude := Some lat;
                   Geocoding.longitude := Some lon |}) |}.

(** [LIMIT n] as a cut to the first [n] rows. *)
Definition first_rows (n : Z) (rows : list Destination.t) : list Destination.t :=
  firstn (Z.to_nat n) rows.

(* ================================================================== *)
(** * Properties *)

Import RecommendationService.

(** ** Comparison and rounding *)

Lemma Qltb_lt (x y : Q) : Qltb x y = true <-> x < y.
Proof.
  unfold Qltb. rewrite negb_true_iff. split; intro H.
  - apply Qnot_le_lt. intro Hle. apply Qle_bool_iff in Hle. congruence.
  - destruct (Qle_bool y x) eqn:E; [|reflexivity].
    apply Qle_bool_iff in E. lra.
Qed.

Lemma Qltb_ge (x y : Q) : Qltb x y = false <-> y <= x.
Proof.
  unfold Qltb. rewrite negb_false_iff. apply Qle_bool_iff.
Qed.

Lemma round_int_comp (x y : Q) : x == y -> round_int x = round_int y.
Proof.
  intro H. unfold round_int. rewrite (Qfloor_comp x y H).
  assert (E : Qcompare (x - inject_Z (Qfloor y)) 0.5 = Qcompare (y - inject_Z (Qfloor y)) 0.5).
  { apply Qcompare_comp; [rewrite H|]; reflexivity. }
  rewrite E. reflexivity.
Qed.

Lemma round_int_bounds (x : Q) :
  (round_int x = Qfloor x \/ round_int x = Qfloor x + 1)%Z.
Proof.
  unfold round_int. destruct (Qcompare _ _); [destruct (Z.even _)| |]; auto.
Qed.

Lemma round_int_mono (x y : Q) : x <= y -> (round_int x <= round_int y)%Z.
Proof.
  intro H.
  pose proof (Qfloor_resp_le x y H) as Hf.
  destruct (Z.eq_dec (Qfloor x) (Qfloor y)) as [E|NE].
  - unfold round_int. rewrite E.
    destruct (Qcompare_spec (x - inject_Z (Qfloor y)) 0.5) as [Hx|Hx|Hx];
    destruct (Qcompare_spec (y - inject_Z (Qfloor y)) 0.5) as [Hy|Hy|Hy];
    try destruct (Z.even (Qfloor y)); try lia; exfalso; lra.
  - destruct (round_int_bounds x) as [-> | ->], (round_int_bounds y) as [-> | ->]; lia.
Qed.

Lemma round_comp (x y : Q) (n : nat) : x == y -> round x n = round y n.
Proof.
  intro H. unfold round. f_equal. apply round_int_comp. rewrite H. reflexivity.
Qed.

Lemma round_mono (x y : Q) (n : nat) : x <= y -> round x n <= round y n.
Proof.
  intro H. unfold round, Qle. cbn [Qnum Qden].
  apply Z.mul_le_mono_nonneg_r; [lia|].
  apply round_int_mono.
  apply Qmult_le_compat_r; [assumption|].
  change 0 with (inject_Z 0). rewrite <- Zle_Qle. apply Z.pow_nonneg. lia.
Qed.

(** ** Binary64 numbers: product and order *)

Section FloatFacts.
Import PrimFloat SpecFloat FloatOps FloatAxioms.
#[local] Open Scope float_scope.

Lemma float_mul_comm (x y : float) : x * y = y * x.
Proof.
  apply Prim2SF_inj. rewrite !mul_spec. unfold SF64mul, SFmul.
  destruct (Prim2SF x) as [sx|sx| |sx mx ex], (Prim2SF y) as [sy|sy| |sy my ey];
    try reflexivity; try (rewrite xorb_comm; reflexivity).
  rewrite xorb_comm, Pos.mul_comm, Z.add_comm. reflexivity.
Qed.

Lemma SF_not_below (b l d : spec_float) :
  SFleb b l = true -> SFleb l d = true -> SFltb d b = false.
Proof.
  unfold SFleb, SFltb, SFcompare.
  destruct b as [sb|sb| |sb mb eb], l as [sl|sl| |sl ml el],
    d as [sd|sd| |sd md ed];
    try destruct sb; try destruct sl; try destruct sd; cbn;
    try congruence;
    repeat match goal with
    | |- context [Z.compare ?x ?y] => destruct (Z.compare_spec x y)
    | |- context [Pos.compare_cont Eq ?x ?y] =>
        change (Pos.compare_cont Eq x y) with (Pos.compare x y);
        destruct (Pos.compare_spec x y)
    end; cbn; try congruence; try lia.
Qed.

(** A number at or above [l] is not below any [b <= l]. *)
Lemma float_not_below (b l d : float) :
  (b <=? l) = true -> (l <=? d) = true -> (d <? b) = false.
Proof. rewrite !leb_spec, ltb_spec. apply SF_not_below. Qed.

End FloatFacts.

(** ** The transport tiers in binary64 *)

Section TransportBands.
Import PrimFloat.
#[local] Open Scope float_scope.

Ltac float_band d :=
  destruct (d <? 50) eqn:?Hb; [|
  destruct (d <? 300) eqn:?Hb; [|
  destruct (d <? 1000) eqn:?Hb; [|
  destruct (d <? 3000) eqn:?Hb]]].

(** The band hypotheses that contradict the tests of the branch taken. *)
Ltac wrong_band d :=
  exfalso;
  repeat match goal with
  | L : (?l <=? d) = true, B : (d <? ?b) = true |- _ =>
      let E := fresh "E" in
      assert (E : (d <? b) = false)
        by (apply (float_not_below b l d); [vm_compute; reflexivity | exact L]);
      congruence
  end;
  congruence.

Ltac same_product :=
  do 2 f_equal; first [apply float_mul_comm | f_equal; apply float_mul_comm].

(** C2 (fails as stated).  The transport estimate does not name a
    recommended mode: the entry ['recommended'] is a cost.  At 250 km it is
    80.0, which is the cost of the bus and of the train alike. *)
Lemma recommended_entry_is_a_cost :
  exists costs,
    Binary64.calculate_transportation_cost 250 = Ok costs
    /\ dict_get "recommended" costs = Some 80
    /\ dict_get "bus" costs = Some 80
    /\ dict_get "train" costs = Some 80.
Proof.
  eexists. split; [vm_compute; reflexivity|]. repeat split.
Qed.

(** C2 (amended).  In binary64 arithmetic the transport estimate offers
    exactly the modes of the half-open band that contains the distance, each
    cost being the band's formula rounded to 2 decimals; the entry
    ['recommended'] holds a cost, that of the bus below 300 km and that of
    the budget flight from 300 km on.  At distance 0 the bus costs 0 and at
    distance 100 the train costs 50.0. *)
Theorem transport_bands_in_binary64 :
  (forall d : float,
   exists costs,
     Binary64.calculate_transportation_cost d = Ok costs
     /\ ((d <? 50) = true ->
         Binary64.modes costs = ["bus"; "taxi"]
         /\ dict_get "bus" costs = Some (Binary64.round (0.50 * d) 2)
         /\ dict_get "taxi" costs = Some (Binary64.round (1.50 * d) 2))
     /\ ((50 <=? d) = true -> (d <? 300) = true ->
         Binary64.modes costs = ["bus"; "train"; "taxi"]
         /\ dict_get "bus" costs
            = Some (Binary64.round (50 + 0.15 * (d - 50)) 2)
         /\ dict_get "train" costs
            = Some (Binary64.round (40 + 0.20 * (d - 50)) 2)
         /\ dict_get "taxi" costs = Some (Binary64.round (1.20 * d) 2))
     /\ ((300 <=? d) = true -> (d <? 1000) = true ->
         Binary64.modes costs = ["train"; "budget_flight"; "standard_flight"]
         /\ dict_get "train" costs
            = Some (Binary64.round (80 + 0.12 * (d - 300)) 2)
         /\ dict_get "budget_flight" costs
            = Some (Binary64.round (100 + 0.25 * (d - 300)) 2)
         /\ dict_get "standard_flight" costs
            = Some (Binary64.round (150 + 0.35 * (d - 300)) 2))
     /\ ((1000 <=? d) = true -> (d <? 3000) = true ->
         Binary64.modes costs
         = ["budget_flight"; "standard_flight"; "premium_flight"]
         /\ dict_get "budget_flight" costs
            = Some (Binary64.round (250 + 0.15 * (d - 1000)) 2)
         /\ dict_get "standard_flight" costs
            = Some (Binary64.round (400 + 0.20 * (d - 1000)) 2)
         /\ dict_get "premium_flight" costs
            = Some (Binary64.round (800 + 0.30 * (d - 1000)) 2))
     /\ ((3000 <=? d) = true ->
         Binary64.modes costs
         = ["budget_flight"; "standard_flight"; "business_flight"]
         /\ dict_get "budget_flight" costs
            = Some (Binary64.round (550 + 0.08 * (d - 3000)) 2)
         /\ dict_get "standard_flight" costs
            = Some (Binary64.round (900 + 0.12 * (d - 3000)) 2)
         /\ dict_get "business_flight" costs
            = Some (Binary64.round (2000 + 0.25 * (d - 3000)) 2))
     /\ ((d <? 300) = true ->
         dict_get "recommended" costs = dict_get "bus" costs)
     /\ ((300 <=? d) = true ->
         dict_get "recommended" costs = dict_get "budget_flight" costs))
  /\ (exists costs,
        Binary64.calculate_transportation_cost 0 = Ok costs
        /\ dict_get "bus" costs = Some 0)
  /\ (exists costs,
        Binary64.calculate_transportation_cost 100 = Ok costs
        /\ dict_get "train" costs = Some 50.0).
Proof.
  split; [|split].
  - intro d. unfold Binary64.calculate_transportation_cost.
    float_band d; cbn [dict_set subscript dict_get bind String.eqb Ascii.eqb
                       Bool.eqb];
      eexists; (split; [reflexivity|]);
      repeat split; intros;
      try (cbn [dict_set dict_get String.eqb Ascii.eqb Bool.eqb];
           first [reflexivity | same_product]);
      wrong_band d.
  - eexists. split; [vm_compute; reflexivity|]. reflexivity.
  - eexists. split; [vm_compute; reflexivity|]. reflexivity.
Qed.

(** The theorem at one distance in each band. *)
Lemma transport_bands_in_binary64_witness :
  (exists costs,
     Binary64.calculate_transportation_cost 10 = Ok costs
     /\ Binary64.modes costs = ["bus"; "taxi"]
     /\ dict_get "recommended" costs = dict_get "bus" costs)
  /\ (exists costs,
        Binary64.calculate_transportation_cost 50.3 = Ok costs
        /\ Binary64.modes costs = ["bus"; "train"; "taxi"]
        /\ dict_get "bus" costs
           = Some (Binary64.round (50 + 0.15 * (50.3 - 50)) 2))
  /\ (exists costs,
        Binary64.calculate_transportation_cost 500 = Ok costs
        /\ Binary64.modes costs = ["train"; "budget_flight"; "standard_flight"])
  /\ (exists costs,
        Binary64.calculate_transportation_cost 2000 = Ok costs
        /\ Binary64.modes costs
           = ["budget_flight"; "standard_flight"; "premium_flight"])
  /\ (exists costs,
        Binary64.calculate_transportation_cost 5000 = Ok costs
        /\ Binary64.modes costs
           = ["budget_flight"; "standard_flight"; "business_flight"]
        /\ dict_get "recommended" costs = dict_get "budget_flight" costs).
Proof.
  destruct transport_bands_in_binary64 as [H _].
  repeat split.
  - destruct (H 10) as (costs & E & B1 & _ & _ & _ & _ & R1 & _).
    exists costs. split; [exact E|].
    split; [apply B1 | apply R1]; reflexivity.
  - destruct (H 50.3) as (costs & E & _ & B2 & _).
    exists costs. split; [exact E|].
    split; apply B2; reflexivity.
  - destruct (H 500) as (costs & E & _ & _ & B3 & _).
    exists costs. split; [exact E | apply B3; reflexivity].
  - destruct (H 2000) as (costs & E & _ & _ & _ & B4 & _).
    exists costs. split; [exact E | apply B4; reflexivity].
  - destruct (H 5000) as (costs & E & _ & _ & _ & _ & B5 & _ & R2).
    exists costs. split; [exact E|].
    split; [apply B5 | apply R2]; reflexivity.
Defined.

(** The cents of binary64: the bus at 50.3 km costs 50.05, where the exact
    value of the formula, 50.045, would round to 50.04. *)
Example bus_at_50_3_km :
  exists costs,
    Binary64.calculate_transportation_cost 50.3 = Ok costs
    /\ dict_get "bus" costs = Some 50.05.
Proof. eexists. split; [vm_compute; reflexivity|]. reflexivity. Qed.

(** ** The budget breakdown in binary64 *)

Lemma recommended_cost_follows_table (d : float) :
  exists costs,
    Binary64.calculate_transportation_cost d = Ok costs
    /\ dict_get "recommended" costs
       = Some (Spec.recommendedCost (Spec.estimateTransport d)).
Proof.
  unfold Binary64.calculate_transportation_cost, Spec.estimateTransport,
    Spec.recommendedCost.
  float_band d;
    cbn [dict_set subscript dict_get bind String.eqb Ascii.eqb Bool.eqb
         Spec.recommended Spec.options];
    eexists; (split; [reflexivity|]);
    cbn [dict_set dict_get String.eqb Ascii.eqb Bool.eqb];
    same_product.
Qed.

Lemma float_of_int_converts (n : Z) :
  (Z.abs n < overflow_threshold)%Z ->
  Binary64.float_of_int n = Ok (Binary64.nearest_float n).
Proof.
  intro H. unfold Binary64.float_of_int.
  apply Z.ltb_lt in H. rewrite H. reflexivity.
Qed.

Lemma float_of_int_overflows (n : Z) :
  (overflow_threshold <= Z.abs n)%Z ->
  Binary64.float_of_int n = Raise OverflowError.
Proof.
  intro H. unfold Binary64.float_of_int.
  apply Z.ltb_ge in H. rewrite H. reflexivity.
Qed.

(** The threshold is where the conversion leaves the floats. *)
Example overflow_threshold_is_sharp :
  Binary64.nearest_float (overflow_threshold - 1) = 0x1.fffffffffffffp+1023
  /\ Binary64.nearest_float overflow_threshold = infinity.
Proof. split; vm_compute; reflexivity. Qed.

(** C1 (fails as stated).  A duration of [10^400] days is an integer too
    large to convert to a float: the first product by it raises. *)
Lemma huge_duration_raises :
  Binary64.calculate_comprehensive_budget 0 (10 ^ 400) 100 (Some "mid-range")
  = Raise OverflowError.
Proof. vm_compute. reflexivity. Qed.

(** C1 (amended).  For a duration [n] that converts to a float, that is
    with [|n| < 2^1024 - 2^970], and any distance [d], daily cost [c] and
    budget tier [t], the budget breakdown is computed without raising and
    its eleven monetary fields are those of the specification's steps in
    binary64 arithmetic: the recommended one-way transport cost doubled, the
    four per-day categories with the tier's multipliers, the 15%
    miscellaneous share, the 5% insurance, the 10% contingency, the total,
    and the per-day average, which is 0 when [n <= 0]; every field is
    rounded to 2 decimals.  For any other duration the call raises
    [OverflowError]. *)
Theorem budget_follows_steps_in_binary64
  (d : float) (n : Z) (c : float) (t : Spec.tier) :
  ((Z.abs n < overflow_threshold)%Z ->
   exists b,
     Binary64.calculate_comprehensive_budget d n c (Some (Spec.tier_name t))
     = Ok b
     /\ as_spec_breakdown b = Spec.synthesize d n c t)
  /\ ((overflow_threshold <= Z.abs n)%Z ->
      Binary64.calculate_comprehensive_budget d n c (Some (Spec.tier_name t))
      = Raise OverflowError).
Proof.
  destruct (recommended_cost_follows_table d) as (costs & E & R).
  unfold Binary64.calculate_comprehensive_budget.
  rewrite E. cbn [bind]. unfold subscript. rewrite R. cbn [bind].
  unfold Binary64.mul_int, Binary64.div_int.
  split; intro Hn.
  - rewrite (float_of_int_converts n Hn). cbn [bind].
    destruct (0 <? n)%Z eqn:Hpos.
    + assert (Hz : (n =? 0)%Z = false)
        by (apply Z.eqb_neq; apply Z.ltb_lt in Hpos; lia).
      rewrite Hz. cbn [bind]. eexists. split; [reflexivity|].
      unfold as_spec_breakdown, Spec.synthesize. rewrite Hpos.
      destruct t; reflexivity.
    + cbn [bind]. eexists. split; [reflexivity|].
      unfold as_spec_breakdown, Spec.synthesize. rewrite Hpos.
      destruct t; reflexivity.
  - rewrite (float_of_int_overflows n Hn). reflexivity.
Qed.

Lemma budget_follows_steps_in_binary64_witness :
  exists b,
    Binary64.calculate_comprehensive_budget 120 3 100 (Some "luxury") = Ok b
    /\ as_spec_breakdown b = Spec.synthesize 120 3 100 Spec.Luxury.
Proof.
  destruct (budget_follows_steps_in_binary64 120 3 100 Spec.Luxury) as [H _].
  apply H. reflexivity.
Defined.

(** The cents of binary64: 4 days at 100 a day and distance 0 come to
    493.19, where the exact value of the steps, 493.185, would round to
    493.18. *)
Example four_days_at_100 :
  exists b,
    Binary64.calculate_comprehensive_budget 0 4 100 (Some "mid-range") = Ok b
    /\ Binary64.total b = 493.19
    /\ Spec.total (Spec.synthesize 0 4 100 Spec.MidRange) = 493.19.
Proof.
  eexists. split; [vm_compute; reflexivity|]. split; vm_compute; reflexivity.
Qed.

End TransportBands.

(** ** The budget breakdown over the rationals *)

Lemma int_converts (n : Z) :
  (Z.abs n < overflow_threshold)%Z -> float_of_int n = Ok (inject_Z n).
Proof.
  intro H. unfold float_of_int. apply Z.ltb_lt in H. rewrite H. reflexivity.
Qed.

Lemma int_converted (n : Z) (x : Q) :
  float_of_int n = Ok x ->
  x = inject_Z n /\ (Z.abs n < overflow_threshold)%Z.
Proof.
  unfold float_of_int. destruct (Z.abs n <? overflow_threshold)%Z eqn:E;
    [|discriminate].
  intros [= <-]. split; [reflexivity | apply Z.ltb_lt; exact E].
Qed.

(** The transport table always has its entry ['recommended'], a number of
    cents. *)
Lemma transport_returns (d : Q) :
  exists costs z,
    calculate_transportation_cost d = Ok costs
    /\ dict_get "recommended" costs = Some (Qmake z 100).
Proof.
  unfold calculate_transportation_cost.
  destruct (Qltb d 50); [|destruct (Qltb d 300); [|destruct (Qltb d 1000);
    [|destruct (Qltb d 3000)]]];
    cbn; eexists; eexists; (split; reflexivity).
Qed.

Lemma pydiv_days (x : Q) (n : Z) :
  (0 <? n)%Z = true -> pydiv x (inject_Z n) = Ok (x / inject_Z n).
Proof.
  intro H. apply Z.ltb_lt in H. unfold pydiv.
  destruct (Qeq_bool (inject_Z n) 0) eqn:E; [|reflexivity].
  apply Qeq_bool_iff in E. unfold Qeq in E. cbn in E. lia.
Qed.

Lemma bind_ok {A B : Type} (m : result A) (k : A -> result B) (b : B) :
  bind m k = Ok b -> exists a, m = Ok a /\ k a = Ok b.
Proof.
  destruct m as [a|e]; cbn; [|discriminate]. intro H. exists a. auto.
Qed.

Lemma bind_raise {A B : Type} (m : result A) (k : A -> result B) (e : exn) :
  bind m k = Raise e -> m = Raise e \/ exists a, m = Ok a /\ k a = Raise e.
Proof.
  destruct m as [a|e']; cbn; intro H; [right; exists a; auto | left; congruence].
Qed.

(** A returned breakdown as a function of the recommended transport cost
    [r]; the duration was one that converts to a float. *)
Lemma budget_shape (d : Q) (n : Z) (c : Q) (t : option string)
  (costs : dict Q) (r : Q) (b : BudgetBreakdown) :
  calculate_transportation_cost d = Ok costs ->
  dict_get "recommended" costs = Some r ->
  calculate_comprehensive_budget d n c t = Ok b ->
  (Z.abs n < overflow_threshold)%Z
  /\ transportation_options b = costs
  /\ let am := dict_get_default accommodation_multipliers t 1.0 in
     let fm := dict_get_default food_multipliers t 1.0 in
     let N := inject_Z n in
     let sub := r * 2 + c * 0.4 * am * N + c * 0.35 * fm * N
                + c * 0.15 * am * N + c * 0.10 * N
                + (c * 0.35 * fm * N + c * 0.10 * N) * 0.15 in
     transportation b = round (r * 2) 2
     /\ accommodation b = round (c * 0.4 * am * N) 2
     /\ food b = round (c * 0.35 * fm * N) 2
     /\ local_transport b = round (c * 0.15 * am * N) 2
     /\ activities b = round (c * 0.10 * N) 2
     /\ miscellaneous b = round ((c * 0.35 * fm * N + c * 0.10 * N) * 0.15) 2
     /\ subtotal b = round sub 2
     /\ insurance b = round (sub * 0.05) 2
     /\ contingency b = round ((sub + sub * 0.05) * 0.10) 2
     /\ total b = round (sub + sub * 0.05 + (sub + sub * 0.05) * 0.10) 2.
Proof.
  intros E R. unfold calculate_comprehensive_budget.
  rewrite E. cbn [bind]. unfold subscript. rewrite R. cbn [bind].
  intro H. apply bind_ok in H. destruct H as (days & Hdays & H).
  apply int_converted in Hdays. destruct Hdays as [-> Hn].
  apply bind_ok in H. destruct H as (per_day & _ & H).
  injection H as <-.
  repeat split; assumption.
Qed.

(** The budget raises for one reason only: a duration too large to convert
    to a float.  The transport table always has its entry and the division
    is guarded. *)
Lemma budget_returns (d : Q) (n : Z) (c : Q) (t : option string) :
  (Z.abs n < overflow_threshold)%Z ->
  exists b, calculate_comprehensive_budget d n c t = Ok b.
Proof.
  intro Hn. destruct (transport_returns d) as (costs & z & E & R).
  unfold calculate_comprehensive_budget.
  rewrite E. cbn [bind]. unfold subscript. rewrite R. cbn [bind].
  rewrite (int_converts n Hn). cbn [bind].
  destruct (0 <? n)%Z eqn:Hpos.
  - rewrite (pydiv_days _ _ Hpos). cbn [bind]. eexists; reflexivity.
  - cbn [bind]. eexists; reflexivity.
Qed.

Lemma budget_raises (d : Q) (n : Z) (c : Q) (t : option string) (e : exn) :
  calculate_comprehensive_budget d n c t = Raise e ->
  e = OverflowError /\ (overflow_threshold <= Z.abs n)%Z.
Proof.
  intro H.
  destruct (Z_lt_le_dec (Z.abs n) overflow_threshold) as [Hn|Hn].
  - destruct (budget_returns d n c t Hn) as [b Hb]. congruence.
  - split; [|exact Hn].
    destruct (transport_returns d) as (costs & z & E & R).
    unfold calculate_comprehensive_budget in H.
    rewrite E in H. cbn [bind] in H. unfold subscript in H.
    rewrite R in H. cbn [bind] in H.
    unfold float_of_int in H. apply Z.ltb_ge in Hn. rewrite Hn in H.
    cbn [bind] in H. congruence.
Qed.

Lemma accommodation_multiplier_bounds (t : option string) :
  0.6 <= dict_get_default accommodation_multipliers t 1.0.
Proof.
  destruct t as [s|]; cbn; [|lra].
  repeat (destruct (String.eqb s _); [lra|]). lra.
Qed.

Lemma food_multiplier_bounds (t : option string) :
  0.7 <= dict_get_default food_multipliers t 1.0.
Proof.
  destruct t as [s|]; cbn; [|lra].
  repeat (destruct (String.eqb s _); [lra|]). lra.
Qed.

Lemma unknown_tier_multiplier (table : dict Q) (t : option string) :
  t <> Some "budget" -> t <> Some "mid-range" -> t <> Some "luxury" ->
  table = accommodation_multipliers \/ table = food_multipliers ->
  dict_get_default table t 1.0 = 1.0.
Proof.
  intros H1 H2 H3 Ht. destruct t as [s|]; [|reflexivity].
  assert (E1 : String.eqb s "budget" = false)
    by (apply String.eqb_neq; congruence).
  assert (E2 : String.eqb s "mid-range" = false)
    by (apply String.eqb_neq; congruence).
  assert (E3 : String.eqb s "luxury" = false)
    by (apply String.eqb_neq; congruence).
  destruct Ht as [-> | ->]; cbn; rewrite E1, E2, E3; reflexivity.
Qed.

(** C5 (fails as stated).  The tier ["deluxe"] is not rejected: the call
    returns, and returns the mid-range breakdown. *)
Lemma unknown_tier_is_not_rejected :
  ~ raises (calculate_comprehensive_budget 0 3 100 (Some "deluxe"))
  /\ calculate_comprehensive_budget 0 3 100 (Some "deluxe")
     = calculate_comprehensive_budget 0 3 100 (Some "mid-range").
Proof.
  split; [|reflexivity].
  intros [e He]. vm_compute in He. discriminate He.
Qed.

(** C5 (amended).  A budget tier outside [budget], [mid-range] and [luxury],
    or no tier at all, is not rejected: both multipliers default to 1.0 and
    the call does what the call for the mid-range tier does, returning the
    same breakdown. *)
Theorem unknown_tier_defaults_to_mid_range
  (d : Q) (n : Z) (c : Q) (t : option string) :
  t <> Some "budget" -> t <> Some "mid-range" -> t <> Some "luxury" ->
  calculate_comprehensive_budget d n c t
  = calculate_comprehensive_budget d n c (Some "mid-range").
Proof.
  intros H1 H2 H3.
  unfold calculate_comprehensive_budget.
  rewrite (unknown_tier_multiplier accommodation_multipliers t H1 H2 H3 (or_introl eq_refl)).
  rewrite (unknown_tier_multiplier food_multipliers t H1 H2 H3 (or_intror eq_refl)).
  reflexivity.
Qed.

Lemma unknown_tier_defaults_to_mid_range_witness :
  exists b,
    calculate_comprehensive_budget 250 4 80 (Some "deluxe") = Ok b
    /\ calculate_comprehensive_budget 250 4 80 (Some "mid-range") = Ok b.
Proof.
  destruct (calculate_comprehensive_budget 250 4 80 (Some "mid-range"))
    as [b|e] eqn:E; [|vm_compute in E; discriminate E].
  exists b. split; [|reflexivity].
  rewrite <- E.
  apply (unknown_tier_defaults_to_mid_range 250 4 80 (Some "deluxe"));
    discriminate.
Defined.

(** C7 (fails as stated).  The daily costs 100 and 100.001 give the same
    total, 369.89: the total is rounded to 2 decimals. *)
Lemma total_is_not_strictly_increasing :
  exists b1 b2,
    calculate_comprehensive_budget 0 3 100 (Some "mid-range") = Ok b1
    /\ calculate_comprehensive_budget 0 3 100.001 (Some "mid-range") = Ok b2
    /\ 100 < 100.001
    /\ ~ total b1 < total b2.
Proof.
  eexists; eexists.
  split; [vm_compute; reflexivity|].
  split; [vm_compute; reflexivity|].
  split; [reflexivity|]. cbn [total]. vm_compute. discriminate.
Qed.

(** C7 (amended).  The total for distance 0, 3 days, daily cost 100 and the
    mid-range tier is positive.  For a fixed distance, a duration [n > 0] and
    a fixed tier, the totals returned for two daily costs [c1 < c2] are in
    the same order: the total never decreases when the daily cost grows. *)
Theorem total_grows_with_daily_cost :
  (exists b,
     calculate_comprehensive_budget 0 3 100 (Some "mid-range") = Ok b
     /\ 0 < total b)
  /\ (forall (d : Q) (n : Z) (t : option string) (c1 c2 : Q)
             (b1 b2 : BudgetBreakdown),
        (0 < n)%Z -> c1 < c2 ->
        calculate_comprehensive_budget d n c1 t = Ok b1 ->
        calculate_comprehensive_budget d n c2 t = Ok b2 ->
        total b1 <= total b2).
Proof.
  split.
  - eexists. split; [vm_compute; reflexivity|]. reflexivity.
  - intros d n t c1 c2 b1 b2 Hn Hc E1 E2.
    pose proof (accommodation_multiplier_bounds t) as Ha.
    pose proof (food_multiplier_bounds t) as Hf.
    destruct (transport_returns d) as (costs & z & E & R).
    destruct (budget_shape _ _ _ _ _ _ _ E R E1)
      as (_ & _ & _ & _ & _ & _ & _ & _ & _ & _ & _ & T1).
    destruct (budget_shape _ _ _ _ _ _ _ E R E2)
      as (_ & _ & _ & _ & _ & _ & _ & _ & _ & _ & _ & T2).
    rewrite T1, T2. cbv zeta.
    assert (HN : 1 <= inject_Z n).
    { change 1 with (inject_Z 1). rewrite <- Zle_Qle. lia. }
    set (am := dict_get_default accommodation_multipliers t 1.0) in *.
    set (fm := dict_get_default food_multipliers t 1.0) in *.
    set (N := inject_Z n) in *.
    set (r := Qmake z 100).
    assert (P1 : 0 <= (c2 - c1) * am * N).
    { apply Qmult_le_0_compat; [|lra]. apply Qmult_le_0_compat; lra. }
    assert (P2 : 0 <= (c2 - c1) * fm * N).
    { apply Qmult_le_0_compat; [|lra]. apply Qmult_le_0_compat; lra. }
    assert (P3 : 0 <= (c2 - c1) * N) by (apply Qmult_le_0_compat; lra).
    apply round_mono. lra.
Qed.

Lemma total_grows_with_daily_cost_witness :
  exists b1 b2,
    calculate_comprehensive_budget 400 5 60 (Some "budget") = Ok b1
    /\ calculate_comprehensive_budget 400 5 75 (Some "budget") = Ok b2
    /\ total b1 <= total b2.
Proof.
  destruct total_grows_with_daily_cost as [_ H].
  destruct (calculate_comprehensive_budget 400 5 60 (Some "budget"))
    as [b1|e] eqn:E1; [|vm_compute in E1; discriminate E1].
  destruct (calculate_comprehensive_budget 400 5 75 (Some "budget"))
    as [b2|e] eqn:E2; [|vm_compute in E2; discriminate E2].
  exists b1, b2. split; [reflexivity|]. split; [reflexivity|].
  apply (H 400 5%Z (Some "budget") 60 75 b1 b2); [lia | lra | exact E1 | exact E2].
Defined.

(** ** Sorting *)

Section SortFacts.
Context {A K : Type} (ltb : K -> K -> bool) (key : A -> K) (reverse : bool).
Hypothesis ltb_asym : forall a b, ltb a b = true -> ltb b a = false.
Hypothesis ltb_negtrans :
  forall a b c, ltb a b = false -> ltb b c = false -> ltb a c = false.

(** [a] may stay in front of [b]. *)
Let keeps (a b : A) : Prop := precedes ltb key reverse b a = false.

(** [a] and [b] tie. *)
Let ties (a b : A) : bool :=
  negb (precedes ltb key reverse a b) && negb (precedes ltb key reverse b a).

Lemma precedes_asym (a b : A) :
  precedes ltb key reverse a b = true -> precedes ltb key reverse b a = false.
Proof. unfold precedes. destruct reverse; apply ltb_asym. Qed.

Lemma keeps_trans (a b c : A) : keeps a b -> keeps b c -> keeps a c.
Proof.
  unfold keeps, precedes. destruct reverse; intros H1 H2.
  - exact (ltb_negtrans _ _ _ H1 H2).
  - exact (ltb_negtrans _ _ _ H2 H1).
Qed.

Lemma insert_sorted_perm (x : A) (l : list A) :
  Permutation (insert_sorted ltb key reverse x l) (x :: l).
Proof.
  induction l as [|y l IH]; cbn; [reflexivity|].
  destruct (precedes ltb key reverse y x); [|reflexivity].
  rewrite IH. apply perm_swap.
Qed.

Lemma sort_perm (l : list A) : Permutation (sort ltb key reverse l) l.
Proof.
  induction l as [|x l IH]; cbn; [reflexivity|].
  rewrite insert_sorted_perm. apply perm_skip. exact IH.
Qed.

Lemma insert_sorted_keeps (x : A) (l : list A) :
  StronglySorted keeps l ->
  StronglySorted keeps (insert_sorted ltb key reverse x l).
Proof.
  induction 1 as [|y l Hs IH Hy]; cbn.
  - constructor; constructor.
  - destruct (precedes ltb key reverse y x) eqn:E.
    + constructor; [exact IH|].
      rewrite Forall_forall in *. intros z Hz.
      apply (Permutation_in _ (insert_sorted_perm x l)) in Hz.
      destruct Hz as [<- | Hz]; [|auto].
      apply precedes_asym. exact E.
    + constructor; [constructor; assumption|].
      constructor; [exact E|].
      rewrite Forall_forall in *. intros z Hz.
      apply keeps_trans with y; [exact E | auto].
Qed.

Lemma sort_sorted (l : list A) : StronglySorted keeps (sort ltb key reverse l).
Proof.
  induction l as [|x l IH]; cbn; [constructor|].
  apply insert_sorted_keeps. exact IH.
Qed.

Lemma insert_sorted_stable (a x : A) (l : list A) :
  filter (ties a) (insert_sorted ltb key reverse x l) = filter (ties a) (x :: l).
Proof.
  induction l as [|y l IH]; [reflexivity|].
  cbn [insert_sorted].
  destruct (precedes ltb key reverse y x) eqn:E; [|reflexivity].
  cbn [filter] in *. rewrite IH.
  destruct (ties a x) eqn:Tx, (ties a y) eqn:Ty; try reflexivity.
  exfalso. unfold ties in Tx, Ty.
  apply andb_true_iff in Tx, Ty.
  destruct Tx as [Tx _], Ty as [_ Ty].
  apply negb_true_iff in Tx, Ty.
  assert (keeps x y) as Hk by (apply keeps_trans with a; assumption).
  unfold keeps in Hk. congruence.
Qed.

Lemma sort_stable (a : A) (l : list A) :
  filter (ties a) (sort ltb key reverse l) = filter (ties a) l.
Proof.
  induction l as [|x l IH]; [reflexivity|].
  cbn [sort fold_right]. rewrite insert_sorted_stable.
  cbn [filter]. change (fold_right (insert_sorted ltb key reverse) [] l)
    with (sort ltb key reverse l). rewrite IH. reflexivity.
Qed.

End SortFacts.

Lemma ext_ltb_asym (a b : ext) : ext_ltb a b = true -> ext_ltb b a = false.
Proof.
  destruct a as [x|], b as [y|]; cbn; try congruence.
  rewrite Qltb_lt, Qltb_ge. lra.
Qed.

Lemma ext_ltb_negtrans (a b c : ext) :
  ext_ltb a b = false -> ext_ltb b c = false -> ext_ltb a c = false.
Proof.
  destruct a as [x|], b as [y|], c as [z|]; cbn; try congruence.
  rewrite !Qltb_ge. lra.
Qed.

Lemma ext_ltb_le (a b : ext) : ext_ltb b a = false <-> ext_le a b.
Proof.
  destruct a as [x|], b as [y|]; cbn; try rewrite Qltb_ge; intuition congruence.
Qed.

Lemma In_firstn {A : Type} (n : nat) (l : list A) (x : A) :
  In x (firstn n l) -> In x l.
Proof.
  revert n. induction l as [|y l IH]; intros [|n]; cbn; try tauto.
  intros [->|H]; [left; reflexivity | right; exact (IH n H)].
Qed.

Lemma firstn_sorted {A : Type} (R : A -> A -> Prop) (n : nat) (l : list A) :
  StronglySorted R l -> StronglySorted R (firstn n l).
Proof.
  intro H. revert n. induction H as [|x l Hs IH Hx]; intro n.
  - rewrite firstn_nil. constructor.
  - destruct n; cbn; constructor; [apply IH|].
    rewrite Forall_forall in *. intros y Hy. apply Hx.
    exact (In_firstn n l y Hy).
Qed.

(** ** The ranking loop *)

Lemma truthy_false (x : Q) : truthy x = false <-> x == 0.
Proof.
  unfold truthy. rewrite negb_false_iff. apply Qeq_bool_iff.
Qed.


Section RankFacts.
Context `{MathLib} `{SqlEngine}.
Variables (user_lat user_lon budget_min budget_max : option Q).
Variables (categories tags : option (list string)).
Variables (min_rating max_distance_km : option Q).
Variables (limit : Z) (sort_by user_currency : string) (trip_duration_days : Z).

Local Abbreviation distance_step' := (distance_step user_lat user_lon max_distance_km).
Local Abbreviation recommend' :=
  (recommend max_distance_km user_currency trip_duration_days).
Local Abbreviation recommendations_of' :=
  (recommendations_of user_lat user_lon max_distance_km user_currency
     trip_duration_days).
Local Abbreviation query_filter' :=
  (query_filter budget_min budget_max categories tags min_rating).
Local Abbreviation query_all' :=
  (query_all budget_min budget_max categories tags min_rating).
Local Abbreviation get_recommendations' :=
  (get_recommendations user_lat user_lon budget_min budget_max categories tags
     min_rating max_distance_km limit sort_by user_currency trip_duration_days).


Lemma distance_step_found (dest : Destination.t) (d : Q) :
  distance_step' dest = Ok (Some (Some d)) ->
  exists ulat ulon dlat dlon,
    user_lat = Some ulat /\ user_lon = Some ulon
    /\ Destination.latitude dest = Some dlat
    /\ Destination.longitude dest = Some dlon
    /\ truthy dlat = true /\ truthy dlon = true
    /\ calculate_distance ulat ulon dlat dlon = Ok d
    /\ (forall m, max_distance_km = Some m -> truthy m = true -> d <= m).
Proof.
  unfold distance_step.
  assert (O : forall b : bool,
             (if b then @Ok (option (option Q)) None else Ok (Some None))
             <> Ok (Some (Some d)))
    by (intros []; discriminate).
  destruct user_lat as [ulat|], user_lon as [ulon|],
    (Destination.latitude dest) as [dlat|],
    (Destination.longitude dest) as [dlon|];
    try (intro E; exfalso; exact (O _ E)).
  destruct (truthy dlat) eqn:T1, (truthy dlon) eqn:T2; cbn [andb];
    try (intro E; exfalso; exact (O _ E)).
  intro E. apply bind_ok in E. destruct E as (d' & Ed & E).
  assert (d' = d /\ forall m, max_distance_km = Some m -> truthy m = true -> d <= m)
    as [-> Hm].
  { destruct max_distance_km as [m|]; [|split; congruence].
    destruct (truthy m) eqn:Tm; cbn [andb] in E.
    - destruct (Qltb m d') eqn:L; [discriminate|].
      apply Qltb_ge in L. split; [congruence|].
      intros m' [= <-] _. congruence.
    - split; [congruence|]. intros m' [= <-]. congruence. }
  exists ulat, ulon, dlat, dlon. repeat split; assumption || reflexivity.
Qed.


(** What the recommendation copies from the destination and how it reports
    the distance. *)
Lemma recommend_fields (dest : Destination.t) (distance : option Q)
  (r : Recommendation.t) :
  recommend' dest distance = Ok r ->
  Recommendation.id r = Destination.id dest
  /\ Recommendation.latitude r = Destination.latitude dest
  /\ Recommendation.longitude r = Destination.longitude dest
  /\ Recommendation.average_cost_per_day r = Destination.average_cost_per_day dest
  /\ Recommendation.rating r = Destination.rating dest
  /\ Recommendation.distance_km r
     = match distance with
       | Some d => if truthy d then Some (round d 1) else None
       | None => None
       end
  /\ Recommendation.total_trip_cost r
     = option_map total (Recommendation.budget_breakdown r)
  /\ (distance = None -> Recommendation.budget_breakdown r = None).
Proof.
  unfold recommend. intro E.
  apply bind_ok in E. destruct E as (bb & Ebb & E).
  apply bind_ok in E. destruct E as (score & _ & E).
  injection E as <-. cbn. repeat split.
  intros ->. cbn in Ebb. congruence.
Qed.

Lemma recommendations_of_origin (destinations : list Destination.t)
  (recommendations : list Recommendation.t) :
  recommendations_of' destinations = Ok recommendations ->
  forall r, In r recommendations ->
  exists dest distance,
    In dest destinations
    /\ distance_step' dest = Ok (Some distance)
    /\ recommend' dest distance = Ok r.
Proof.
  revert recommendations.
  induction destinations as [|dest rest IH]; intros recs E r Hr.
  - injection E as <-. destruct Hr.
  - cbn [recommendations_of] in E.
    apply bind_ok in E. destruct E as (step & Es & E).
    destruct step as [distance|].
    + apply bind_ok in E. destruct E as (r0 & Er0 & E).
      apply bind_ok in E. destruct E as (later & El & E).
      injection E as <-. destruct Hr as [<- | Hr].
      * exists dest, distance. split; [left; reflexivity|]. auto.
      * destruct (IH later El r Hr) as (dest' & dist' & Hin & Hd & Hrec).
        exists dest', dist'. split; [right; exact Hin|]. auto.
    + destruct (IH recs E r Hr) as (dest' & dist' & Hin & Hd & Hrec).
      exists dest', dist'. split; [right; exact Hin|]. auto.
Qed.


Lemma In_slice_to {A : Type} (l : list A) (stop : Z) (x : A) :
  In x (slice_to l stop) -> In x l.
Proof.
  unfold slice_to. destruct (0 <=? stop)%Z; apply In_firstn.
Qed.

Lemma get_recommendations_origin (table : list Destination.t)
  (out : list Recommendation.t) :
  get_recommendations' table = Ok out ->
  forall r, In r out ->
  exists dest distance,
    In dest table
    /\ query_filter' dest = true
    /\ distance_step' dest = Ok (Some distance)
    /\ recommend' dest distance = Ok r.
Proof.
  unfold get_recommendations. intros E r Hr.
  apply bind_ok in E. destruct E as (recs & Erecs & E).
  injection E as <-.
  apply In_slice_to in Hr.
  apply (Permutation_in _ (sort_perm _ _ _ _)) in Hr.
  destruct (recommendations_of_origin _ _ Erecs r Hr)
    as (dest & distance & Hin & Hd & Hrec).
  exists dest, distance. unfold query_all in Hin.
  apply filter_In in Hin. destruct Hin as [Hin Hq]. auto.
Qed.

Lemma order_of_distance :
  order_of user_lat user_lon sort_by = ByDistance
  <-> sort_by = "distance" /\ truthy_opt user_lat = true
      /\ truthy_opt user_lon = true.
Proof.
  unfold order_of.
  destruct (String.eqb_spec sort_by "distance") as [->|N]; cbn.
  - destruct (truthy_opt user_lat), (truthy_opt user_lon); cbn;
      intuition congruence.
  - destruct (String.eqb sort_by "rating"), (String.eqb sort_by "cost");
      intuition congruence.
Qed.

Lemma order_of_rating :
  order_of user_lat user_lon sort_by = ByRating <-> sort_by = "rating".
Proof.
  unfold order_of.
  destruct (String.eqb_spec sort_by "distance") as [->|N]; cbn.
  - destruct (truthy_opt user_lat && truthy_opt user_lon); cbn;
      split; congruence.
  - destruct (String.eqb_spec sort_by "rating");
      [|destruct (String.eqb sort_by "cost")]; intuition congruence.
Qed.

Lemma order_of_cost :
  order_of user_lat user_lon sort_by = ByCost <-> sort_by = "cost".
Proof.
  unfold order_of.
  destruct (String.eqb_spec sort_by "distance") as [->|N]; cbn.
  - destruct (truthy_opt user_lat && truthy_opt user_lon); cbn;
      split; congruence.
  - destruct (String.eqb_spec sort_by "rating") as [->|N'];
      [split; congruence|].
    destruct (String.eqb_spec sort_by "cost"); intuition congruence.
Qed.

Lemma keeps_in_order (o : order) (a b : Recommendation.t) :
  precedes ext_ltb (sort_key o) (sort_reverse o) b a = false <-> in_order o a b.
Proof.
  unfold precedes, in_order. destruct o; cbn [sort_reverse sort_key].
  - apply ext_ltb_le.
  - cbn. apply Qltb_ge.
  - apply ext_ltb_le.
  - cbn. apply Qltb_ge.
Qed.

Lemma sorted_in_order (o : order) (l : list Recommendation.t) :
  StronglySorted (in_order o) (sort ext_ltb (sort_key o) (sort_reverse o) l).
Proof.
  pose proof (sort_sorted ext_ltb (sort_key o) (sort_reverse o)
                ext_ltb_asym ext_ltb_negtrans l) as Hs.
  induction Hs as [|x l' Hs IH Hx]; constructor; [exact IH|].
  rewrite Forall_forall in *. intros y Hy. apply keeps_in_order. auto.
Qed.

Lemma sort_keeps_ties (o : order) (r : Recommendation.t)
  (l : list Recommendation.t) :
  filter (same_rank o r) (sort ext_ltb (sort_key o) (sort_reverse o) l)
  = filter (same_rank o r) l.
Proof.
  pose proof (sort_stable ext_ltb (sort_key o) (sort_reverse o)
                ext_ltb_negtrans r l) as Hst.
  assert (Ext : forall x,
             same_rank o r x
             = negb (precedes ext_ltb (sort_key o) (sort_reverse o) r x)
               && negb (precedes ext_ltb (sort_key o) (sort_reverse o) x r)).
  { intro x. unfold same_rank, precedes.
    destruct (sort_reverse o); [apply andb_comm | reflexivity]. }
  rewrite (filter_ext _ _ Ext), (filter_ext _ _ Ext). exact Hst.
Qed.

End RankFacts.
Lemma Qltb_comp (x y z : Q) : x == y -> Qltb x z = Qltb y z.
Proof.
  intro E. destruct (Qltb y z) eqn:L.
  - apply Qltb_lt. apply Qltb_lt in L. lra.
  - apply Qltb_ge. apply Qltb_ge in L. lra.
Qed.

Lemma transport_at_zero_distance (d : Q) :
  d == 0 -> calculate_transportation_cost d = calculate_transportation_cost 0.
Proof.
  intro E. unfold calculate_transportation_cost.
  rewrite (Qltb_comp d 0 50 E). change (Qltb 0 50) with true. cbn.
  rewrite (round_comp (d * 0.50) (0 * 0.50)) by (rewrite E; reflexivity).
  rewrite (round_comp (d * 1.50) (0 * 1.50)) by (rewrite E; reflexivity).
  reflexivity.
Qed.

Lemma budget_at_zero_distance (d : Q) (n : Z) (c : Q) (t : option string) :
  d == 0 ->
  calculate_comprehensive_budget d n c t = calculate_comprehensive_budget 0 n c t.
Proof.
  intro E. unfold calculate_comprehensive_budget.
  rewrite (transport_at_zero_distance d E). reflexivity.
Qed.

(** ** The distance of a point to itself *)

Section SamePoint.
Context `{MathLib}.
Hypothesis sin_0 : forall x, x == 0 -> sin x == 0.
Hypothesis sqrt_0 : forall x, x == 0 -> sqrt x == 0.
Hypothesis atan2_0 : forall y x, y == 0 -> atan2 y x == 0.

(** With a C library that maps 0 to 0, a point is at distance 0 from
    itself. *)
Lemma haversine_same_point (R lat lon : Q) :
  exists d, haversine R lat lon lat lon = Ok d /\ d == 0.
Proof.
  unfold haversine.
  set (a := sin ((radians lat - radians lat) / 2) ^ 2
            + cos (radians lat) * cos (radians lat)
              * sin ((radians lon - radians lon) / 2) ^ 2).
  assert (Ha : a == 0).
  { unfold a.
    rewrite (sin_0 ((radians lat - radians lat) / 2)) by field.
    rewrite (sin_0 ((radians lon - radians lon) / 2)) by field.
    ring. }
  unfold math_sqrt.
  assert (E1 : Qltb a 0 = false) by (apply Qltb_ge; lra).
  assert (E2 : Qltb (1 - a) 0 = false) by (apply Qltb_ge; lra).
  rewrite E1, E2. cbn [bind]. eexists. split; [reflexivity|].
  rewrite (atan2_0 (sqrt a)) by (apply sqrt_0; exact Ha). ring.
Qed.

End SamePoint.

(** ** The ranking: claims *)

Section Ranking.
Context `{MathLib} `{SqlEngine}.
Variables (user_lat user_lon budget_min budget_max : option Q).
Variables (categories tags : option (list string)).
Variables (min_rating max_distance_km : option Q).
Variables (limit : Z) (sort_by user_currency : string) (trip_duration_days : Z).


(** C4 (amended).  For [limit >= 0] the list returned has at most [limit]
    elements; each of them is the recommendation of a row of the table that
    passes the query filters and the distance filter; the list is the prefix
    of length [limit] of the stable sort of all the recommendations of the
    filtered rows, so that scoring and sorting run over the full set before
    the cut and ties keep the input order.  The order is: the reported
    distance, ascending, a missing or zero distance last, when [sort_by] is
    ['distance'] and both user coordinates are present and non-zero; the
    rating, descending, a missing rating as 0, for ['rating']; the average
    cost per day, ascending, a missing or zero cost last, for ['cost']; the
    reported score, descending, in every other case. *)
Theorem ranking_is_sorted_then_capped
  (table : list Destination.t) (out : list Recommendation.t) :
  (0 <= limit)%Z ->
  get_recommendations user_lat user_lon budget_min budget_max categories tags
    min_rating max_distance_km limit sort_by user_currency trip_duration_days
    table = Ok out ->
  (List.length out <= Z.to_nat limit)%nat
  /\ (forall r, In r out ->
      exists dest distance,
        In dest table
        /\ query_filter budget_min budget_max categories tags min_rating dest = true
        /\ distance_step user_lat user_lon max_distance_km dest = Ok (Some distance)
        /\ (forall d m, distance = Some d -> max_distance_km = Some m ->
                        truthy m = true -> d <= m)
        /\ recommend max_distance_km user_currency trip_duration_days dest distance
           = Ok r)
  /\ StronglySorted (in_order (order_of user_lat user_lon sort_by)) out
  /\ (exists scored,
        recommendations_of user_lat user_lon max_distance_km user_currency
          trip_duration_days
          (query_all budget_min budget_max categories tags min_rating table)
        = Ok scored
        /\ Permutation (sort_recommendations user_lat user_lon sort_by scored) scored
        /\ StronglySorted (in_order (order_of user_lat user_lon sort_by))
             (sort_recommendations user_lat user_lon sort_by scored)
        /\ (forall r,
              filter (same_rank (order_of user_lat user_lon sort_by) r)
                (sort_recommendations user_lat user_lon sort_by scored)
              = filter (same_rank (order_of user_lat user_lon sort_by) r) scored)
        /\ out = firstn (Z.to_nat limit)
                   (sort_recommendations user_lat user_lon sort_by scored))
  /\ (order_of user_lat user_lon sort_by = ByDistance
      <-> sort_by = "distance" /\ truthy_opt user_lat = true
          /\ truthy_opt user_lon = true)
  /\ (order_of user_lat user_lon sort_by = ByRating <-> sort_by = "rating")
  /\ (order_of user_lat user_lon sort_by = ByCost <-> sort_by = "cost").
Proof.
  intros Hlimit E.
  pose proof (get_recommendations_origin _ _ _ _ _ _ _ _ _ _ _ _ _ _ E) as Horigin.
  unfold get_recommendations in E.
  apply bind_ok in E. destruct E as (scored & Escored & E).
  injection E as <-.
  assert (Hslice : slice_to (sort_recommendations user_lat user_lon sort_by scored) limit
                   = firstn (Z.to_nat limit)
                       (sort_recommendations user_lat user_lon sort_by scored)).
  { unfold slice_to. apply Z.leb_le in Hlimit. rewrite Hlimit. reflexivity. }
  rewrite Hslice in *.
  split; [apply firstn_le_length|].
  split.
  { intros r Hr. destruct (Horigin r Hr) as (dest & distance & Hin & Hq & Hd & Hrec).
    exists dest, distance. repeat split; try assumption.
    intros d m -> Hm Tm.
    destruct (distance_step_found _ _ _ _ _ Hd)
      as (? & ? & ? & ? & _ & _ & _ & _ & _ & _ & _ & Hb).
    exact (Hb m Hm Tm). }
  split; [apply firstn_sorted; apply sorted_in_order|].
  split.
  { exists scored. split; [exact Escored|].
    split; [apply sort_perm|].
    split; [apply sorted_in_order|].
    split; [intro r; apply sort_keeps_ties | reflexivity]. }
  split; [apply order_of_distance|].
  split; [apply order_of_rating | apply order_of_cost].
Qed.


(** C10.  When the distance computed for a destination is exactly 0, its
    recommendation reports [distance_km] as null, the budget breakdown and the
    total trip cost are those of distance 0 (for a destination that has a
    daily cost), and the key of the order by distance is [+infinity]. *)
Theorem zero_distance_is_reported_as_null
  (dest : Destination.t) (d : Q) (r : Recommendation.t) :
  distance_step user_lat user_lon max_distance_km dest = Ok (Some (Some d)) ->
  d == 0 ->
  recommend max_distance_km user_currency trip_duration_days dest (Some d) = Ok r ->
  Recommendation.distance_km r = None
  /\ (forall cost,
        Destination.average_cost_per_day dest = Some cost -> truthy cost = true ->
        exists b,
          calculate_comprehensive_budget 0 trip_duration_days cost
            (Some (str_or (Destination.budget_tier dest) "mid-range")) = Ok b
          /\ Recommendation.budget_breakdown r = Some b
          /\ Recommendation.total_trip_cost r = Some (total b))
  /\ sort_key ByDistance r = Inf.
Proof.
  intros _ Hd Hrec.
  pose proof (recommend_fields _ _ _ _ _ _ Hrec)
    as (_ & _ & _ & _ & _ & Edist & Etotal & _).
  apply truthy_false in Hd. rewrite Hd in Edist.
  split; [exact Edist|].
  split; [|cbn; rewrite Edist; reflexivity].
  intros cost Ecost Tcost.
  unfold recommend in Hrec. rewrite Ecost, Tcost in Hrec.
  apply bind_ok in Hrec. destruct Hrec as (bb & Ebb & Hrec).
  apply bind_ok in Ebb. destruct Ebb as (b & Eb & Ebb).
  injection Ebb as <-.
  apply bind_ok in Hrec. destruct Hrec as (score & _ & Hrec).
  injection Hrec as <-. cbn.
  exists b. split; [|split; reflexivity].
  rewrite <- Eb. symmetry. apply budget_at_zero_distance.
  apply truthy_false. exact Hd.
Qed.

End Ranking.

(** ** The ranking on the sample destinations *)



(** C4 (fails as stated).  With [sort_by = 'distance'] and no user
    coordinates no recommendation has a distance, so all of them tie, and yet
    Hampi comes out in front of Mysore, against the order of the table: the
    list is ordered by score. *)
Lemma distance_order_falls_back_to_score :
  exists r1 r2,
    @get_recommendations small_angle_math substring_like
      None None None None None None None None 10 "distance" "USD" 3
      [mysore; hampi] = Ok [r2; r1]
    /\ Recommendation.id r1 = Destination.id mysore
    /\ Recommendation.id r2 = Destination.id hampi
    /\ Recommendation.distance_km r1 = None
    /\ Recommendation.distance_km r2 = None.
Proof.
  eexists; eexists. split; [vm_compute; reflexivity|]. repeat split.
Qed.

Lemma ranking_is_sorted_then_capped_witness :
  exists out,
    @get_recommendations small_angle_math substring_like
      (Some 12.9716) (Some 77.5946) (Some 25) None None (Some ["food"]) None None
      2 "cost" "USD" 3
      [mysore; hampi; unmapped; null_island; bengaluru] = Ok out
    /\ (List.length out <= 2)%nat
    /\ StronglySorted (in_order ByCost) out.
Proof.
  destruct (@get_recommendations small_angle_math substring_like
              (Some 12.9716) (Some 77.5946) (Some 25) None None (Some ["food"])
              None None 2 "cost" "USD" 3
              [mysore; hampi; unmapped; null_island; bengaluru])
    as [out|e] eqn:E; [|vm_compute in E; discriminate E].
  exists out. split; [reflexivity|].
  destruct (@ranking_is_sorted_then_capped small_angle_math substring_like
              (Some 12.9716) (Some 77.5946) (Some 25) None None (Some ["food"])
              None None 2 "cost" "USD" 3 _ out ltac:(lia) E)
    as (Hlen & _ & Hsorted & _).
  split; [exact Hlen | exact Hsorted].
Defined.



Lemma zero_distance_is_reported_as_null_witness :
  exists d r,
    @distance_step small_angle_math (Some 12.9716) (Some 77.5946) None bengaluru
    = Ok (Some (Some d))
    /\ d == 0
    /\ recommend None "USD" 3 bengaluru (Some d) = Ok r
    /\ Recommendation.distance_km r = None
    /\ sort_key ByDistance r = Inf.
Proof.
  destruct (@distance_step small_angle_math (Some 12.9716) (Some 77.5946) None
              bengaluru) as [[[d|]|]|e] eqn:Ed;
    try (vm_compute in Ed; discriminate Ed).
  assert (Hd : d == 0) by (vm_compute in Ed; injection Ed as <-; reflexivity).
  destruct (recommend None "USD" 3 bengaluru (Some d)) as [r|e] eqn:Er.
  - exists d, r. split; [reflexivity|]. split; [exact Hd|].
    split; [exact Er|].
    destruct (@zero_distance_is_reported_as_null small_angle_math
                (Some 12.9716) (Some 77.5946) None "USD" 3 bengaluru d r Ed Hd Er)
      as (Hnull & _ & Hkey).
    split; [exact Hnull | exact Hkey].
  - exfalso. unfold recommend in Er. cbn in Er.
    destruct (budget_returns d 3 50 (Some "mid-range") eq_refl) as [b Hb].
    rewrite Hb in Er. cbn in Er. discriminate Er.
Defined.

(** The end-to-end scenario of the specification: the two best scores, in
    that order. *)
Example scenario_top_two :
  exists r1 r2,
    @get_recommendations small_angle_math substring_like
      None None None None None None None None 2 "popularity" "USD" 3
      scenario_table = Ok [r1; r2]
    /\ Recommendation.id r1 = 1%Z /\ Recommendation.recommendation_score r1 == 6.3
    /\ Recommendation.id r2 = 2%Z /\ Recommendation.recommendation_score r2 == 6.1.
Proof.
  eexists; eexists. split; [vm_compute; reflexivity|]. repeat split.
Qed.

(** ** The trip-cost path *)

Lemma round_int_inject (k : Z) : round_int (inject_Z k) = k.
Proof.
  unfold round_int. rewrite Qfloor_Z.
  destruct (Qcompare_spec (inject_Z k - inject_Z k) 0.5) as [E|E|E];
    [exfalso; lra | reflexivity | exfalso; lra].
Qed.

Lemma int_truediv_returned (a b : Z) (q : Q) :
  int_truediv a b = Ok q -> q = inject_Z a / inject_Z b.
Proof.
  unfold int_truediv. destruct (b =? 0)%Z; [discriminate|].
  destruct (Qle_bool _ _); [discriminate|]. congruence.
Qed.

Section TripCosts.
Import CostCalculationService.

(** The daily rate of a category: its base rate scaled by the destination's
    cost-of-living index and by the budget multiplier, rounded to a whole
    amount. *)
Lemma daily_costs_are_scaled_base_rates (destination budget : string) :
  let index := get_destination_cost_index destination in
  let multiplier := dict_get_default BUDGET_MULTIPLIERS (Some (lower budget)) 1.0 in
  let rate := fun base : Z => round_int (inject_Z base * index * multiplier) in
  calculate_daily_costs destination budget
  = [("accommodation", rate 2000%Z); ("food", rate 800%Z);
     ("local_transport", rate 400%Z); ("activities", rate 500%Z);
     ("total", (0 + rate 2000 + rate 800 + rate 400 + rate 500)%Z)].
Proof. reflexivity. Qed.

(** What a returned result holds, in terms of the daily rates. *)
Lemma trip_costs_shape `{MathLib}
  (destination : string) (duration_days : Z) (budget : string) (travelers : Z)
  (user_latitude user_longitude dest_latitude dest_longitude : option Q)
  (r : TripCosts.t) :
  calculate_trip_costs destination duration_days budget travelers
    user_latitude user_longitude dest_latitude dest_longitude = Ok r ->
  let index := get_destination_cost_index destination in
  let multiplier := dict_get_default BUDGET_MULTIPLIERS (Some (lower budget)) 1.0 in
  let rate := fun base : Z => round_int (inject_Z base * index * multiplier) in
  let b := TripCosts.cost_breakdown r in
  let categories :=
    (CostBreakdown.accommodation b + CostBreakdown.food b
     + CostBreakdown.transportation_local b + CostBreakdown.activities b)%Z in
  CostBreakdown.accommodation b
  = (rate 2000 * Z.max 1 (duration_days - 1) * travelers)%Z
  /\ CostBreakdown.food b = (rate 800 * duration_days * travelers)%Z
  /\ CostBreakdown.transportation_local b = (rate 400 * duration_days * travelers)%Z
  /\ CostBreakdown.activities b = (rate 500 * duration_days * travelers)%Z
  /\ CostBreakdown.miscellaneous b = round_int (inject_Z categories * 0.1)
  /\ CostBreakdown.total b
     = (categories + CostBreakdown.transportation_to_destination b
        + CostBreakdown.miscellaneous b)%Z
  /\ (truthy_opt user_latitude && truthy_opt user_longitude
      && truthy_opt dest_latitude && truthy_opt dest_longitude = false ->
      CostBreakdown.transportation_to_destination b = 0%Z
      /\ TripCosts.transportation_details r = None
      /\ TripCosts.distance_km r = None)
  /\ TripCosts.per_person_cost r
     = (if (0 <? travelers)%Z
        then round_int (inject_Z (CostBreakdown.total b) / inject_Z travelers)
        else 0%Z).
Proof.
  intros E index multiplier rate b categories.
  unfold calculate_trip_costs in E.
  rewrite daily_costs_are_scaled_base_rates in E.
  fold index multiplier rate in E.
  change (subscript _ "accommodation") with (Ok (rate 2000%Z)) in E.
  change (subscript _ "food") with (Ok (rate 800%Z)) in E.
  change (subscript _ "local_transport") with (Ok (rate 400%Z)) in E.
  change (subscript _ "activities") with (Ok (rate 500%Z)) in E.
  cbn [bind] in E.
  apply bind_ok in E. destruct E as ([[to_dest details] distance] & Et & E).
  apply bind_ok in E. destruct E as (sum & Es & E).
  apply int_converted in Es. destruct Es as [-> _].
  apply bind_ok in E. destruct E as (per_person & Ep & E).
  injection E as <-. subst categories b. cbn.
  do 6 (split; [reflexivity|]). split.
  - intro Hc.
    assert (Ez : (to_dest, details, distance) = (0%Z, None, None)).
    { destruct user_latitude as [ulat|], user_longitude as [ulon|],
        dest_latitude as [dlat|], dest_longitude as [dlon|];
        cbn in Hc; try rewrite Hc in Et; congruence. }
    injection Ez as -> -> ->. repeat split.
  - destruct (0 <? travelers)%Z; [|congruence].
    apply bind_ok in Ep. destruct Ep as (q & Eq & Ep).
    apply int_truediv_returned in Eq. congruence.
Qed.

(** C8.  The trip-cost path bills the accommodation per night over
    [max(1, duration_days - 1)] nights and food, local transport and
    activities per day over the whole duration (each times the number of
    travellers); the daily rates are the fixed base rates 2000, 800, 400 and
    500 scaled by the destination's cost-of-living index and the budget
    multiplier; the miscellaneous amount is 10% of the sum of the four
    categories, rounded to a whole amount, as long as that sum stays below
    [10^15] in magnitude; the total is the four categories, the transport to
    the destination and the miscellaneous amount, with no insurance and no
    contingency. *)
Theorem trip_costs_breakdown `{MathLib}
  (destination : string) (duration_days : Z) (budget : string) (travelers : Z)
  (user_latitude user_longitude dest_latitude dest_longitude : option Q)
  (r : TripCosts.t) :
  calculate_trip_costs destination duration_days budget travelers
    user_latitude user_longitude dest_latitude dest_longitude = Ok r ->
  let index := get_destination_cost_index destination in
  let multiplier := dict_get_default BUDGET_MULTIPLIERS (Some (lower budget)) 1.0 in
  let rate := fun base : Z => round_int (inject_Z base * index * multiplier) in
  let b := TripCosts.cost_breakdown r in
  let nights := Z.max 1 (duration_days - 1) in
  let categories :=
    (CostBreakdown.accommodation b + CostBreakdown.food b
     + CostBreakdown.transportation_local b + CostBreakdown.activities b)%Z in
  CostBreakdown.accommodation b = (rate 2000 * nights * travelers)%Z
  /\ CostBreakdown.food b = (rate 800 * duration_days * travelers)%Z
  /\ CostBreakdown.transportation_local b = (rate 400 * duration_days * travelers)%Z
  /\ CostBreakdown.activities b = (rate 500 * duration_days * travelers)%Z
  /\ ((Z.abs categories < 10 ^ 15)%Z ->
      CostBreakdown.miscellaneous b = round_int (inject_Z categories * 0.1))
  /\ CostBreakdown.total b
     = (CostBreakdown.accommodation b + CostBreakdown.food b
        + CostBreakdown.transportation_local b + CostBreakdown.activities b
        + CostBreakdown.transportation_to_destination b
        + CostBreakdown.miscellaneous b)%Z
  /\ (user_latitude = None -> CostBreakdown.transportation_to_destination b = 0%Z).
Proof.
  intros E index multiplier rate b nights categories.
  destruct (trip_costs_shape _ _ _ _ _ _ _ _ _ E)
    as (Ha & Hf & Hl & Hact & Hm & Ht & Hz & _).
  repeat split; try assumption.
  - intros _. exact Hm.
  - intros ->. apply Hz. reflexivity.
Qed.

Lemma trip_costs_breakdown_witness :
  exists r,
    @calculate_trip_costs small_angle_math "Tokyo" 5 "luxury" 2
      None None None None = Ok r
    /\ CostBreakdown.accommodation (TripCosts.cost_breakdown r) = 72000%Z
    /\ CostBreakdown.miscellaneous (TripCosts.cost_breakdown r) = 14850%Z
    /\ CostBreakdown.total (TripCosts.cost_breakdown r) = 163350%Z.
Proof.
  destruct (@calculate_trip_costs small_angle_math "Tokyo" 5 "luxury" 2
              None None None None) as [r|e] eqn:E;
    [|vm_compute in E; discriminate E].
  exists r. split; [reflexivity|].
  destruct (@trip_costs_breakdown small_angle_math "Tokyo" 5 "luxury" 2
              None None None None r E) as (Ha & Hf & Hl & Hact & Hm & Ht & Hz).
  assert (Hb : (Z.abs (CostBreakdown.accommodation (TripCosts.cost_breakdown r)
                       + CostBreakdown.food (TripCosts.cost_breakdown r)
                       + CostBreakdown.transportation_local (TripCosts.cost_breakdown r)
                       + CostBreakdown.activities (TripCosts.cost_breakdown r))
                < 10 ^ 15)%Z)
    by (rewrite Ha, Hf, Hl, Hact; vm_compute; reflexivity).
  rewrite Ht, (Hm Hb), Ha, Hf, Hl, Hact, (Hz eq_refl).
  repeat split; vm_compute; reflexivity.
Defined.

End TripCosts.

(** ** The distance between antipodal points *)

Section Antipodes.
Import PrimFloat.

(** C6 (the code fails it).  In binary64 arithmetic the term [a] of the
    Haversine formula for the points (8, 0) and (-8, 180) is
    [1.0000000000000002], so [1 - a] is negative and [math.sqrt] raises: the
    distance is not defined for every pair of points. *)
Theorem antipodal_points_raise :
  @Binary64.haversine_term Binary64.libm_samples
    (Binary64.radians 8) (Binary64.radians (-8))
    (Binary64.radians (-8) - Binary64.radians 8)
    (Binary64.radians 180 - Binary64.radians 0)
  = 0x1.0000000000001p+0%float
  /\ @Binary64.calculate_distance Binary64.libm_samples
       8%float 0%float (-8)%float 180%float
     = Raise (ValueError "math domain error").
Proof. split; vm_compute; reflexivity. Qed.

End Antipodes.

(* ================================================================== *)
(** * Further properties *)

(** ** Transport costs *)

Ltac band d :=
  destruct (Qltb d 50) eqn:?Hb; [|
  destruct (Qltb d 300) eqn:?Hb; [|
  destruct (Qltb d 1000) eqn:?Hb; [|
  destruct (Qltb d 3000) eqn:?Hb]]];
  repeat match goal with
  | H : Qltb _ _ = true |- _ => apply Qltb_lt in H
  | H : Qltb _ _ = false |- _ => apply Qltb_ge in H
  end.

Lemma round_nonneg (x : Q) (n : nat) : 0 <= x -> 0 <= round x n.
Proof.
  intro H. apply Qle_trans with (round 0 n); [|apply round_mono; exact H].
  unfold round, Qle. cbn. lia.
Qed.

(** X1.  For a distance [d >= 0] the transport table is built without
    raising and none of its entries is negative. *)
Theorem transport_costs_are_nonnegative (d : Q) :
  0 <= d ->
  exists costs,
    calculate_transportation_cost d = Ok costs
    /\ Forall (fun entry => 0 <= snd entry) costs.
Proof.
  intro Hd. unfold calculate_transportation_cost.
  band d; cbn; eexists; (split; [reflexivity|]);
    repeat constructor; cbn; apply round_nonneg; lra.
Qed.

Lemma transport_costs_are_nonnegative_witness :
  exists costs,
    calculate_transportation_cost 725.5 = Ok costs
    /\ Forall (fun entry => 0 <= snd entry) costs.
Proof. apply (transport_costs_are_nonnegative 725.5). lra. Defined.

(** X2.  The recommended one-way cost never decreases with the distance as
    long as both distances lie below 1000 km or both lie at or above it; but
    it drops across that boundary: 274.75 at 999 km against 250 at 1000 km. *)
Theorem recommended_cost_is_monotone_but_for_1000 :
  (forall (d1 d2 : Q) costs1 costs2 r1 r2,
     calculate_transportation_cost d1 = Ok costs1 ->
     calculate_transportation_cost d2 = Ok costs2 ->
     dict_get "recommended" costs1 = Some r1 ->
     dict_get "recommended" costs2 = Some r2 ->
     d1 <= d2 -> d2 < 1000 \/ 1000 <= d1 ->
     r1 <= r2)
  /\ (exists costs1 costs2 r1 r2,
        calculate_transportation_cost 999 = Ok costs1
        /\ calculate_transportation_cost 1000 = Ok costs2
        /\ dict_get "recommended" costs1 = Some r1
        /\ dict_get "recommended" costs2 = Some r2
        /\ r1 == 274.75 /\ r2 == 250).
Proof.
  split.
  - intros d1 d2 costs1 costs2 r1 r2 E1 E2 R1 R2 Hle Hside.
    unfold calculate_transportation_cost in E1, E2.
    band d1; band d2; cbn in E1, E2;
      injection E1 as <-; injection E2 as <-;
      cbn in R1, R2; injection R1 as <-; injection R2 as <-;
      try (exfalso; lra); apply round_mono; lra.
  - do 4 eexists. repeat split; vm_compute; reflexivity.
Qed.

Lemma recommended_cost_is_monotone_but_for_1000_witness :
  exists costs1 costs2 r1 r2,
    calculate_transportation_cost 120 = Ok costs1
    /\ calculate_transportation_cost 640 = Ok costs2
    /\ dict_get "recommended" costs1 = Some r1
    /\ dict_get "recommended" costs2 = Some r2
    /\ r1 <= r2.
Proof.
  destruct recommended_cost_is_monotone_but_for_1000 as [H _].
  do 4 eexists.
  split; [vm_compute; reflexivity|].
  split; [vm_compute; reflexivity|].
  split; [vm_compute; reflexivity|].
  split; [vm_compute; reflexivity|].
  apply (H 120 640 _ _ _ _ eq_refl eq_refl eq_refl eq_refl); [lra | left; lra].
Defined.

(** ** The budget breakdown: what the displayed fields keep *)

(** X4.  The double rounding of the transport loses nothing: in a returned
    breakdown the transportation field is exactly twice the recommended
    one-way cost of the table stored beside it. *)
Theorem transportation_is_twice_recommended
  (d : Q) (n : Z) (c : Q) (t : option string) (b : BudgetBreakdown) :
  calculate_comprehensive_budget d n c t = Ok b ->
  exists r,
    dict_get "recommended" (transportation_options b) = Some r
    /\ transportation b == 2 * r.
Proof.
  intro Eb. destruct (transport_returns d) as (costs & z & E & R).
  destruct (budget_shape _ _ _ _ _ _ _ E R Eb) as (_ & Eo & Ht & _).
  exists (Qmake z 100). rewrite Eo. split; [exact R|].
  rewrite Ht.
  unfold round. change (Z.to_pos (10 ^ Z.of_nat 2)) with 100%positive.
  rewrite (round_int_comp _ (inject_Z (z * 2))).
  - rewrite round_int_inject. unfold Qeq, Qmult, inject_Z.
    cbn [Qnum Qden]. lia.
  - change (inject_Z (10 ^ Z.of_nat 2)) with 100.
    unfold Qeq, Qmult, inject_Z. cbn [Qnum Qden]. lia.
Qed.

Lemma transportation_is_twice_recommended_witness :
  exists b r,
    calculate_comprehensive_budget 640 3 100 (Some "budget") = Ok b
    /\ dict_get "recommended" (transportation_options b) = Some r
    /\ transportation b == 2 * r.
Proof.
  destruct (calculate_comprehensive_budget 640 3 100 (Some "budget"))
    as [b|e] eqn:E; [|vm_compute in E; discriminate E].
  destruct (transportation_is_twice_recommended 640 3 100 (Some "budget") b E)
    as (r & Hr & Ht).
  exists b, r. auto.
Defined.

(** X5.  For a daily cost [c >= 0] and a duration [n >= 0] the returned
    breakdowns of the three tiers are ordered: the budget tier never costs
    more than the mid-range tier, nor the mid-range tier more than the luxury
    tier, in accommodation, food and total. *)
Theorem tiers_are_ordered (d : Q) (n : Z) (c : Q)
  (low mid high : BudgetBreakdown) :
  0 <= c -> (0 <= n)%Z ->
  calculate_comprehensive_budget d n c (Some "budget") = Ok low ->
  calculate_comprehensive_budget d n c (Some "mid-range") = Ok mid ->
  calculate_comprehensive_budget d n c (Some "luxury") = Ok high ->
  accommodation low <= accommodation mid <= accommodation high
  /\ food low <= food mid <= food high
  /\ total low <= total mid <= total high.
Proof.
  intros Hc Hn E1 E2 E3.
  assert (HN : 0 <= inject_Z n).
  { change 0 with (inject_Z 0). rewrite <- Zle_Qle. exact Hn. }
  assert (P : 0 <= c * inject_Z n) by (apply Qmult_le_0_compat; assumption).
  destruct (transport_returns d) as (costs & z & E & R).
  destruct (budget_shape _ _ _ _ _ _ _ E R E1)
    as (_ & _ & _ & A1 & F1 & _ & _ & _ & _ & _ & _ & T1).
  destruct (budget_shape _ _ _ _ _ _ _ E R E2)
    as (_ & _ & _ & A2 & F2 & _ & _ & _ & _ & _ & _ & T2).
  destruct (budget_shape _ _ _ _ _ _ _ E R E3)
    as (_ & _ & _ & A3 & F3 & _ & _ & _ & _ & _ & _ & T3).
  rewrite A1, A2, A3, F1, F2, F3, T1, T2, T3. cbn.
  set (N := inject_Z n) in *.
  set (r := Qmake z 100).
  repeat split; apply round_mono; lra.
Qed.

Lemma tiers_are_ordered_witness :
  exists low mid high,
    calculate_comprehensive_budget 800 7 90 (Some "budget") = Ok low
    /\ calculate_comprehensive_budget 800 7 90 (Some "mid-range") = Ok mid
    /\ calculate_comprehensive_budget 800 7 90 (Some "luxury") = Ok high
    /\ total low <= total mid <= total high.
Proof.
  destruct (calculate_comprehensive_budget 800 7 90 (Some "budget"))
    as [low|e] eqn:E1; [|vm_compute in E1; discriminate E1].
  destruct (calculate_comprehensive_budget 800 7 90 (Some "mid-range"))
    as [mid|e] eqn:E2; [|vm_compute in E2; discriminate E2].
  destruct (calculate_comprehensive_budget 800 7 90 (Some "luxury"))
    as [high|e] eqn:E3; [|vm_compute in E3; discriminate E3].
  exists low, mid, high. do 3 (split; [reflexivity|]).
  apply (tiers_are_ordered 800 7 90 low mid high); [lra | lia | | |]; assumption.
Defined.

(** X6.  For a daily cost [c >= 0] a longer stay never has a smaller total,
    whatever the distance and the tier, whenever both breakdowns are
    returned. *)
Theorem total_grows_with_duration
  (d : Q) (n1 n2 : Z) (c : Q) (t : option string) (b1 b2 : BudgetBreakdown) :
  0 <= c -> (n1 <= n2)%Z ->
  calculate_comprehensive_budget d n1 c t = Ok b1 ->
  calculate_comprehensive_budget d n2 c t = Ok b2 ->
  total b1 <= total b2.
Proof.
  intros Hc Hn E1 E2.
  assert (HN : 0 <= inject_Z n2 - inject_Z n1).
  { rewrite Zle_Qle in Hn. lra. }
  pose proof (accommodation_multiplier_bounds t) as Ha.
  pose proof (food_multiplier_bounds t) as Hf.
  destruct (transport_returns d) as (costs & z & E & R).
  destruct (budget_shape _ _ _ _ _ _ _ E R E1)
    as (_ & _ & _ & _ & _ & _ & _ & _ & _ & _ & _ & T1).
  destruct (budget_shape _ _ _ _ _ _ _ E R E2)
    as (_ & _ & _ & _ & _ & _ & _ & _ & _ & _ & _ & T2).
  rewrite T1, T2. cbv zeta.
  set (am := dict_get_default accommodation_multipliers t 1.0) in *.
  set (fm := dict_get_default food_multipliers t 1.0) in *.
  set (N1 := inject_Z n1) in *. set (N2 := inject_Z n2) in *.
  assert (P1 : 0 <= c * am * (N2 - N1)).
  { apply Qmult_le_0_compat; [|exact HN]. apply Qmult_le_0_compat; lra. }
  assert (P2 : 0 <= c * fm * (N2 - N1)).
  { apply Qmult_le_0_compat; [|exact HN]. apply Qmult_le_0_compat; lra. }
  assert (P3 : 0 <= c * (N2 - N1)) by (apply Qmult_le_0_compat; lra).
  apply round_mono. lra.
Qed.

Lemma total_grows_with_duration_witness :
  exists b1 b2,
    calculate_comprehensive_budget 1500 2 120 (Some "luxury") = Ok b1
    /\ calculate_comprehensive_budget 1500 9 120 (Some "luxury") = Ok b2
    /\ total b1 <= total b2.
Proof.
  destruct (calculate_comprehensive_budget 1500 2 120 (Some "luxury"))
    as [b1|e] eqn:E1; [|vm_compute in E1; discriminate E1].
  destruct (calculate_comprehensive_budget 1500 9 120 (Some "luxury"))
    as [b2|e] eqn:E2; [|vm_compute in E2; discriminate E2].
  exists b1, b2. do 2 (split; [reflexivity|]).
  apply (total_grows_with_duration 1500 2 9 120 (Some "luxury") b1 b2);
    [lra | lia | |]; assumption.
Defined.

(** ** The ranking: errors, limits and filters *)

Section RankingMore.
Context `{MathLib} `{SqlEngine}.
Variables (user_lat user_lon budget_min budget_max : option Q).
Variables (categories tags : option (list string)).
Variables (min_rating max_distance_km : option Q).
Variables (sort_by user_currency : string) (trip_duration_days : Z).

(** Once the distance is settled, the rest of the loop body raises for one
    reason only: a budget is computed, for a destination that has a distance
    and a daily cost, and the duration is too large to convert to a float. *)
Lemma recommend_raises (dest : Destination.t) (distance : option Q) (e : exn) :
  recommend max_distance_km user_currency trip_duration_days dest distance
  = Raise e ->
  e = OverflowError
  /\ (overflow_threshold <= Z.abs trip_duration_days)%Z
  /\ exists d cost,
       distance = Some d
       /\ Destination.average_cost_per_day dest = Some cost
       /\ truthy cost = true.
Proof.
  unfold recommend. intro E.
  apply bind_raise in E. destruct E as [E | (bb & _ & E)].
  - destruct distance as [d|]; [|discriminate].
    destruct (Destination.average_cost_per_day dest) as [cost|];
      [|discriminate].
    destruct (truthy cost) eqn:Tc; [|discriminate].
    apply bind_raise in E. destruct E as [E | (b & _ & E)]; [|discriminate].
    apply budget_raises in E. destruct E as [-> Hn].
    split; [reflexivity|]. split; [exact Hn|].
    exists d, cost. auto.
  - exfalso. apply bind_raise in E. destruct E as [E | (score & _ & E)];
      [|discriminate].
    destruct distance as [d|]; [|discriminate].
    destruct max_distance_km as [m|]; [|discriminate].
    destruct (truthy m) eqn:Tm; [|discriminate].
    unfold pydiv in E. unfold truthy in Tm. apply negb_true_iff in Tm.
    rewrite Tm in E. discriminate.
Qed.

Lemma distance_step_raises (dest : Destination.t) (e : exn) :
  distance_step user_lat user_lon max_distance_km dest = Raise e ->
  exists ulat ulon dlat dlon,
    user_lat = Some ulat /\ user_lon = Some ulon
    /\ Destination.latitude dest = Some dlat
    /\ Destination.longitude dest = Some dlon
    /\ calculate_distance ulat ulon dlat dlon = Raise e.
Proof.
  unfold distance_step.
  assert (O : forall b : bool,
             (if b then @Ok (option (option Q)) None else Ok (Some None))
             <> Raise e)
    by (intros []; discriminate).
  destruct user_lat as [ulat|], user_lon as [ulon|],
    (Destination.latitude dest) as [dlat|],
    (Destination.longitude dest) as [dlon|];
    try (intro E; exfalso; exact (O _ E)).
  destruct (truthy dlat && truthy dlon);
    try (intro E; exfalso; exact (O _ E)).
  intro E. apply bind_raise in E. destruct E as [E | (d & _ & E)].
  - exists ulat, ulon, dlat, dlon. auto.
  - exfalso. destruct max_distance_km as [m|]; [|discriminate].
    destruct (truthy m && Qltb m d); discriminate.
Qed.

(** Where an exception of the loop comes from: the distance of a row, or
    the budget of a row that has a distance and a daily cost. *)
Lemma recommendations_of_raise_origin (dests : list Destination.t) (e : exn) :
  recommendations_of user_lat user_lon max_distance_km user_currency
    trip_duration_days dests = Raise e ->
  (exists dest ulat ulon dlat dlon,
     In dest dests
     /\ user_lat = Some ulat /\ user_lon = Some ulon
     /\ Destination.latitude dest = Some dlat
     /\ Destination.longitude dest = Some dlon
     /\ calculate_distance ulat ulon dlat dlon = Raise e)
  \/ (e = OverflowError
      /\ (overflow_threshold <= Z.abs trip_duration_days)%Z
      /\ exists dest d cost,
           In dest dests
           /\ distance_step user_lat user_lon max_distance_km dest
              = Ok (Some (Some d))
           /\ Destination.average_cost_per_day dest = Some cost
           /\ truthy cost = true).
Proof.
  induction dests as [|dest rest IH]; intro E; [discriminate|].
  cbn [recommendations_of] in E.
  assert (Hrest :
            recommendations_of user_lat user_lon max_distance_km
              user_currency trip_duration_days rest = Raise e ->
            (exists dest0 ulat ulon dlat dlon,
               In dest0 (dest :: rest)
               /\ user_lat = Some ulat /\ user_lon = Some ulon
               /\ Destination.latitude dest0 = Some dlat
               /\ Destination.longitude dest0 = Some dlon
               /\ calculate_distance ulat ulon dlat dlon = Raise e)
            \/ (e = OverflowError
                /\ (overflow_threshold <= Z.abs trip_duration_days)%Z
                /\ exists dest0 d cost,
                     In dest0 (dest :: rest)
                     /\ distance_step user_lat user_lon max_distance_km dest0
                        = Ok (Some (Some d))
                     /\ Destination.average_cost_per_day dest0 = Some cost
                     /\ truthy cost = true)).
  { intro Er. destruct (IH Er)
      as [(d0 & ulat & ulon & dlat & dlon & Hin & Hd)
         | (He & Hn & d0 & d & cost & Hin & Hd)].
    - left. exists d0, ulat, ulon, dlat, dlon. split; [right; exact Hin | exact Hd].
    - right. split; [exact He|]. split; [exact Hn|].
      exists d0, d, cost. split; [right; exact Hin | exact Hd]. }
  apply bind_raise in E. destruct E as [E | (step & Es & E)].
  - left. destruct (distance_step_raises dest e E)
      as (ulat & ulon & dlat & dlon & Hd).
    exists dest, ulat, ulon, dlat, dlon. split; [left; reflexivity | exact Hd].
  - destruct step as [distance|]; [|exact (Hrest E)].
    apply bind_raise in E. destruct E as [E | (r & _ & E)].
    + right. apply recommend_raises in E.
      destruct E as (He & Hn & d & cost & -> & Hcost & Tc).
      split; [exact He|]. split; [exact Hn|].
      exists dest, d, cost. split; [left; reflexivity|]. auto.
    + apply bind_raise in E. destruct E as [E | (? & _ & E)];
        [exact (Hrest E) | discriminate].
Qed.

(** X7.  The ranking can raise in two ways only: an exception raised by the
    distance computation for one of the rows that pass the query filters, or
    [OverflowError] from the budget of such a row, one that has a distance
    and a daily cost, when the duration is too large to convert to a float.
    The budget's dictionary access and the divisions of the scoring never
    fail. *)
Theorem ranking_raises_from_distance_or_duration
  (limit : Z) (table : list Destination.t) (e : exn) :
  get_recommendations user_lat user_lon budget_min budget_max categories tags
    min_rating max_distance_km limit sort_by user_currency trip_duration_days
    table = Raise e ->
  (exists dest ulat ulon dlat dlon,
     In dest table
     /\ query_filter budget_min budget_max categories tags min_rating dest = true
     /\ user_lat = Some ulat /\ user_lon = Some ulon
     /\ Destination.latitude dest = Some dlat
     /\ Destination.longitude dest = Some dlon
     /\ calculate_distance ulat ulon dlat dlon = Raise e)
  \/ (e = OverflowError
      /\ (overflow_threshold <= Z.abs trip_duration_days)%Z
      /\ exists dest d cost,
           In dest table
           /\ query_filter budget_min budget_max categories tags min_rating dest
              = true
           /\ distance_step user_lat user_lon max_distance_km dest
              = Ok (Some (Some d))
           /\ Destination.average_cost_per_day dest = Some cost
           /\ truthy cost = true).
Proof.
  unfold get_recommendations. intro E.
  apply bind_raise in E. destruct E as [E | (recs & _ & E)]; [|discriminate].
  destruct (recommendations_of_raise_origin _ e E)
    as [(dest & ulat & ulon & dlat & dlon & Hin & Hd)
       | (He & Hn & dest & d & cost & Hin & Hd)];
    unfold query_all in Hin; apply filter_In in Hin; destruct Hin as [Hin Hq].
  - left. exists dest, ulat, ulon, dlat, dlon. auto.
  - right. split; [exact He|]. split; [exact Hn|].
    exists dest, d, cost. auto.
Qed.

(** X8.  Without the user's coordinates the ranking always returns, and no
    recommendation carries a distance, a budget breakdown or a trip cost. *)
Theorem ranking_without_user_location
  (limit : Z) (table : list Destination.t) :
  user_lat = None \/ user_lon = None ->
  exists out,
    get_recommendations user_lat user_lon budget_min budget_max categories tags
      min_rating max_distance_km limit sort_by user_currency trip_duration_days
      table = Ok out
    /\ forall r, In r out ->
         Recommendation.distance_km r = None
         /\ Recommendation.budget_breakdown r = None
         /\ Recommendation.total_trip_cost r = None.
Proof.
  intro Hu.
  destruct (get_recommendations user_lat user_lon budget_min budget_max
              categories tags min_rating max_distance_km limit sort_by
              user_currency trip_duration_days table) as [out|e] eqn:E.
  - exists out. split; [reflexivity|]. intros r Hr.
    destruct (get_recommendations_origin _ _ _ _ _ _ _ _ _ _ _ _ _ _ E r Hr)
      as (dest & distance & _ & _ & Hd & Hrec).
    assert (distance = None) as ->.
    { destruct distance as [d|]; [|reflexivity].
      destruct (distance_step_found _ _ _ _ _ Hd) as (? & ? & _ & _ & E1 & E2 & _).
      destruct Hu; congruence. }
    apply recommend_fields in Hrec.
    destruct Hrec as (_ & _ & _ & _ & _ & Edist & Etot & Ebb).
    rewrite Etot, (Ebb eq_refl). auto.
  - exfalso. unfold get_recommendations in E.
    apply bind_raise in E. destruct E as [E | (recs & _ & E)]; [|discriminate].
    destruct (recommendations_of_raise_origin _ e E)
      as [(? & ? & ? & ? & ? & _ & E1 & E2 & _)
         | (_ & _ & dest & d & cost & _ & Hd & _)].
    + destruct Hu; congruence.
    + destruct (distance_step_found _ _ _ _ _ Hd) as (? & ? & _ & _ & E1 & E2 & _).
      destruct Hu; congruence.
Qed.

(** X9.  Raising the limit only appends: for [0 <= k <= m] the list returned
    with limit [k] is the first [k] elements of the list returned with limit
    [m]. *)
Theorem smaller_limit_is_a_prefix
  (k m : Z) (table : list Destination.t) (out_k out_m : list Recommendation.t) :
  (0 <= k <= m)%Z ->
  get_recommendations user_lat user_lon budget_min budget_max categories tags
    min_rating max_distance_km k sort_by user_currency trip_duration_days
    table = Ok out_k ->
  get_recommendations user_lat user_lon budget_min budget_max categories tags
    min_rating max_distance_km m sort_by user_currency trip_duration_days
    table = Ok out_m ->
  out_k = firstn (Z.to_nat k) out_m.
Proof.
  intros Hkm Ek Em. unfold get_recommendations in Ek, Em.
  apply bind_ok in Ek. destruct Ek as (recs & Er & Ek).
  rewrite Er in Em. cbn [bind] in Em.
  injection Ek as <-. injection Em as <-.
  unfold slice_to.
  assert (Hk : (0 <=? k)%Z = true) by (apply Z.leb_le; lia).
  assert (Hm : (0 <=? m)%Z = true) by (apply Z.leb_le; lia).
  rewrite Hk, Hm, firstn_firstn.
  f_equal. lia.
Qed.

Lemma recommendations_of_uncapped_length (dests : list Destination.t)
  (recs : list Recommendation.t) :
  max_distance_km = None ->
  recommendations_of user_lat user_lon max_distance_km user_currency
    trip_duration_days dests = Ok recs ->
  List.length recs = List.length dests.
Proof.
  intros Hmax. revert recs.
  induction dests as [|dest rest IH]; intros recs E.
  - injection E as <-. reflexivity.
  - cbn [recommendations_of] in E.
    apply bind_ok in E. destruct E as (step & Es & E).
    destruct step as [distance|].
    + apply bind_ok in E. destruct E as (r & _ & E).
      apply bind_ok in E. destruct E as (later & El & E).
      injection E as <-. cbn. f_equal. exact (IH later El).
    + exfalso. unfold distance_step in Es. rewrite Hmax in Es. cbn in Es.
      destruct user_lat, user_lon, (Destination.latitude dest) as [dlat|],
        (Destination.longitude dest) as [dlon|]; try discriminate.
      destruct (truthy dlat && truthy dlon); [|discriminate].
      apply bind_ok in Es. destruct Es as (? & _ & Es). discriminate.
Qed.

(** X10.  Without a distance cap no candidate is lost on the way: for
    [limit >= 0] the number of recommendations returned is the number of rows
    that pass the query filters, cut to [limit]. *)
Theorem uncapped_ranking_keeps_every_candidate
  (limit : Z) (table : list Destination.t) (out : list Recommendation.t) :
  max_distance_km = None -> (0 <= limit)%Z ->
  get_recommendations user_lat user_lon budget_min budget_max categories tags
    min_rating max_distance_km limit sort_by user_currency trip_duration_days
    table = Ok out ->
  List.length out
  = Nat.min (Z.to_nat limit)
      (List.length (query_all budget_min budget_max categories tags min_rating table)).
Proof.
  intros Hmax Hlimit E. unfold get_recommendations in E.
  apply bind_ok in E. destruct E as (recs & Er & E). injection E as <-.
  unfold slice_to. apply Z.leb_le in Hlimit. rewrite Hlimit.
  rewrite length_firstn. f_equal.
  unfold sort_recommendations.
  rewrite (Permutation_length (sort_perm _ _ _ _)).
  exact (recommendations_of_uncapped_length _ _ Hmax Er).
Qed.

(** X11.  A budget range whose lower bound exceeds its upper bound is not an
    error: the ranking returns the empty list. *)
Theorem inverted_budget_range_is_empty
  (lo hi : Q) (limit : Z) (table : list Destination.t) :
  budget_min = Some lo -> budget_max = Some hi -> hi < lo ->
  get_recommendations user_lat user_lon budget_min budget_max categories tags
    min_rating max_distance_km limit sort_by user_currency trip_duration_days
    table = Ok [].
Proof.
  intros Hmin Hmax Hlt. unfold get_recommendations.
  assert (Hq : query_all budget_min budget_max categories tags min_rating table = []).
  { unfold query_all. induction table as [|dest rest IH]; [reflexivity|].
    cbn [filter]. rewrite IH.
    assert (Hf : query_filter budget_min budget_max categories tags min_rating dest
                 = false).
    { unfold query_filter. rewrite Hmin, Hmax.
      destruct (Destination.average_cost_per_day dest) as [cost|]; cbn;
        [|reflexivity].
      destruct (Qle_bool lo cost) eqn:E1; [|reflexivity].
      destruct (Qle_bool cost hi) eqn:E2; [|reflexivity].
      apply Qle_bool_iff in E1, E2. exfalso. lra. }
    rewrite Hf. reflexivity. }
  rewrite Hq. cbn. unfold slice_to. destruct (0 <=? limit)%Z; cbn;
    rewrite ?firstn_nil; reflexivity.
Qed.

(** X12.  The distance reported for a recommendation never exceeds the cap
    (both rounded to one decimal), when the cap is set and not 0. *)
Theorem reported_distance_is_within_cap
  (limit : Z) (table : list Destination.t) (out : list Recommendation.t)
  (cap : Q) (r : Recommendation.t) (km : Q) :
  max_distance_km = Some cap -> truthy cap = true ->
  get_recommendations user_lat user_lon budget_min budget_max categories tags
    min_rating max_distance_km limit sort_by user_currency trip_duration_days
    table = Ok out ->
  In r out -> Recommendation.distance_km r = Some km ->
  km <= round cap 1.
Proof.
  intros Hmax Tcap E Hr Hkm.
  destruct (get_recommendations_origin _ _ _ _ _ _ _ _ _ _ _ _ _ _ E r Hr)
    as (dest & distance & _ & _ & Hd & Hrec).
  apply recommend_fields in Hrec.
  destruct Hrec as (_ & _ & _ & _ & _ & Edist & _).
  rewrite Hkm in Edist.
  destruct distance as [d|]; [|discriminate].
  destruct (truthy d); [|discriminate].
  injection Edist as ->.
  destruct (distance_step_found _ _ _ _ _ Hd)
    as (? & ? & ? & ? & _ & _ & _ & _ & _ & _ & _ & Hb).
  apply round_mono. exact (Hb cap Hmax Tcap).
Qed.

End RankingMore.

(** The theorem on a request for [10^400] days: Mysore has its
    coordinates and a daily cost, its distance is computed, and its budget
    raises. *)
Lemma ranking_raises_from_distance_or_duration_witness :
  exists dest d cost,
    @get_recommendations small_angle_math substring_like
      (Some 12.9716) (Some 77.5946) None None None None None None 10
      "popularity" "USD" (10 ^ 400) [mysore] = Raise OverflowError
    /\ In dest [mysore]
    /\ @distance_step small_angle_math (Some 12.9716) (Some 77.5946) None dest
       = Ok (Some (Some d))
    /\ Destination.average_cost_per_day dest = Some cost.
Proof.
  destruct (@get_recommendations small_angle_math substring_like
              (Some 12.9716) (Some 77.5946) None None None None None None 10
              "popularity" "USD" (10 ^ 400) [mysore]) as [out|e] eqn:E;
    [vm_compute in E; discriminate E|].
  destruct (@ranking_raises_from_distance_or_duration
              small_angle_math substring_like
              (Some 12.9716) (Some 77.5946) None None None None None None
              "popularity" "USD" (10 ^ 400)%Z 10 [mysore] e E)
    as [(dest & ulat & ulon & dlat & dlon & Hin & _ & Hu1 & Hu2 & Hlat & Hlon & Hd)
       | (He & _ & dest & d & cost & Hin & _ & Hd & Hcost & _)].
  - exfalso. destruct Hin as [<- | []].
    injection Hu1 as <-. injection Hu2 as <-.
    injection Hlat as <-. injection Hlon as <-.
    vm_compute in Hd. discriminate Hd.
  - exists dest, d, cost. rewrite He. auto.
Defined.

Lemma ranking_without_user_location_witness :
  exists out,
    @get_recommendations small_angle_math substring_like
      None (Some 77.5946) None None None None None (Some 500) 10 "rating" "USD" 3
      [mysore; hampi; bengaluru] = Ok out
    /\ forall r, In r out ->
         Recommendation.distance_km r = None
         /\ Recommendation.budget_breakdown r = None
         /\ Recommendation.total_trip_cost r = None.
Proof.
  apply (@ranking_without_user_location small_angle_math substring_like
           None (Some 77.5946) None None None None None (Some 500) "rating" "USD"
           3 10 [mysore; hampi; bengaluru]).
  left. reflexivity.
Defined.

Lemma smaller_limit_is_a_prefix_witness :
  exists out_1 out_3,
    @get_recommendations small_angle_math substring_like
      (Some 12.9716) (Some 77.5946) None None None None None None 1 "rating"
      "USD" 3 [mysore; hampi; unmapped; null_island; bengaluru] = Ok out_1
    /\ @get_recommendations small_angle_math substring_like
         (Some 12.9716) (Some 77.5946) None None None None None None 3 "rating"
         "USD" 3 [mysore; hampi; unmapped; null_island; bengaluru] = Ok out_3
    /\ out_1 = firstn 1 out_3.
Proof.
  destruct (@get_recommendations small_angle_math substring_like
              (Some 12.9716) (Some 77.5946) None None None None None None 1
              "rating" "USD" 3 [mysore; hampi; unmapped; null_island; bengaluru])
    as [out_1|e] eqn:E1; [|vm_compute in E1; discriminate E1].
  destruct (@get_recommendations small_angle_math substring_like
              (Some 12.9716) (Some 77.5946) None None None None None None 3
              "rating" "USD" 3 [mysore; hampi; unmapped; null_island; bengaluru])
    as [out_3|e] eqn:E3; [|vm_compute in E3; discriminate E3].
  exists out_1, out_3. split; [reflexivity|]. split; [reflexivity|].
  apply (@smaller_limit_is_a_prefix small_angle_math substring_like
           (Some 12.9716) (Some 77.5946) None None None None None None "rating"
           "USD" 3 1 3 _ out_1 out_3 ltac:(lia) E1 E3).
Defined.

Lemma uncapped_ranking_keeps_every_candidate_witness :
  exists out,
    @get_recommendations small_angle_math substring_like
      (Some 12.9716) (Some 77.5946) (Some 25) None None None None None 10 "cost"
      "USD" 3 [mysore; hampi; unmapped; null_island; bengaluru] = Ok out
    /\ List.length out = 4%nat.
Proof.
  destruct (@get_recommendations small_angle_math substring_like
              (Some 12.9716) (Some 77.5946) (Some 25) None None None None None
              10 "cost" "USD" 3 [mysore; hampi; unmapped; null_island; bengaluru])
    as [out|e] eqn:E; [|vm_compute in E; discriminate E].
  exists out. split; [reflexivity|].
  rewrite (@uncapped_ranking_keeps_every_candidate small_angle_math substring_like
             (Some 12.9716) (Some 77.5946) (Some 25) None None None None None
             "cost" "USD" 3 10 _ out eq_refl ltac:(lia) E).
  reflexivity.
Defined.

Lemma inverted_budget_range_is_empty_witness :
  @get_recommendations small_angle_math substring_like
    (Some 12.9716) (Some 77.5946) (Some 80) (Some 20) None None None None 10
    "cost" "USD" 3 [mysore; hampi; bengaluru] = Ok [].
Proof.
  apply (@inverted_budget_range_is_empty small_angle_math substring_like
           (Some 12.9716) (Some 77.5946) (Some 80) (Some 20) None None None None
           "cost" "USD" 3 80 20 10 [mysore; hampi; bengaluru] eq_refl eq_refl).
  reflexivity.
Defined.

Lemma reported_distance_is_within_cap_witness :
  exists out r km,
    @get_recommendations small_angle_math substring_like
      (Some 12.9716) (Some 77.5946) None None None None None (Some 200) 10
      "distance" "USD" 3 [mysore; hampi; bengaluru] = Ok out
    /\ In r out
    /\ Recommendation.distance_km r = Some km
    /\ km <= round 200 1.
Proof.
  destruct (@get_recommendations small_angle_math substring_like
              (Some 12.9716) (Some 77.5946) None None None None None (Some 200)
              10 "distance" "USD" 3 [mysore; hampi; bengaluru])
    as [out|e] eqn:E; [|vm_compute in E; discriminate E].
  pose proof (@reported_distance_is_within_cap small_angle_math substring_like
                (Some 12.9716) (Some 77.5946) None None None None None (Some 200)
                "distance" "USD" 3 10 [mysore; hampi; bengaluru] out 200) as Hcap.
  assert (E' := E). vm_compute in E'. injection E' as <-.
  eexists; eexists; eexists. split; [reflexivity|].
  split; [left; reflexivity|]. split; [reflexivity|].
  eapply (Hcap _ _ eq_refl eq_refl E); [left; reflexivity | reflexivity].
Defined.

(** ** The popularity job *)

Section PopularityJob.
Import RecommendationJobs.

Lemma popularity_of_set_popularity (dest : Destination.t) :
  popularity_of (set_popularity dest) = popularity_of dest.
Proof. reflexivity. Qed.

(** X13.  The job is idempotent and touches the popularity score alone: a
    second run leaves the table of the first run as it is, and every row
    keeps the columns the ranking filters and scores by. *)
Theorem popularity_job_is_idempotent (table : list Destination.t) :
  update_popularity_scores (fst (update_popularity_scores table))
  = update_popularity_scores table
  /\ Forall2
       (fun before after =>
          Destination.id after = Destination.id before
          /\ Destination.rating after = Destination.rating before
          /\ Destination.review_count after = Destination.review_count before
          /\ Destination.average_cost_per_day after
             = Destination.average_cost_per_day before
          /\ Destination.latitude after = Destination.latitude before
          /\ Destination.longitude after = Destination.longitude before
          /\ Destination.category after = Destination.category before
          /\ Destination.tags after = Destination.tags before
          /\ Destination.popularity_score after = Some (popularity_of before))
       table (fst (update_popularity_scores table)).
Proof.
  unfold update_popularity_scores. cbn [fst]. split.
  - rewrite length_map. f_equal. rewrite map_map.
    apply map_ext. intro dest. unfold set_popularity at 1.
    rewrite popularity_of_set_popularity. reflexivity.
  - induction table as [|dest rest IH]; cbn; constructor;
      [repeat split | exact IH].
Qed.

(** X14.  The review part of the score saturates: from 100 reviews on the
    score no longer depends on the number of reviews.  Two destinations
    with the same rating and at least 100 reviews each get the same
    score. *)
Theorem popularity_saturates_at_100_reviews
  (dest1 dest2 : Destination.t) (reviews1 reviews2 : Z) :
  Destination.rating dest1 = Destination.rating dest2 ->
  Destination.review_count dest1 = Some reviews1 -> (100 <= reviews1)%Z ->
  Destination.review_count dest2 = Some reviews2 -> (100 <= reviews2)%Z ->
  popularity_of dest1 == popularity_of dest2.
Proof.
  intros Hrating Hr1 Hge1 Hr2 Hge2.
  assert (Hcap : forall reviews : Z, (100 <= reviews)%Z ->
                   pymin (inject_Z reviews / 100) 1.0 == 1).
  { intros reviews Hge.
    assert (H1 : 1 <= inject_Z reviews / 100).
    { apply Qle_shift_div_l; [reflexivity|].
      rewrite Zle_Qle in Hge. change (inject_Z 100) with 100 in Hge. lra. }
    unfold pymin. destruct (Qltb 1.0 (inject_Z reviews / 100)) eqn:L.
    - reflexivity.
    - apply Qltb_ge in L. lra. }
  unfold popularity_of, RecommendationService.review_count_or_0.
  rewrite Hrating, Hr1, Hr2, (Hcap reviews1 Hge1), (Hcap reviews2 Hge2).
  reflexivity.
Qed.

Lemma popularity_saturates_at_100_reviews_witness :
  popularity_of (scenario 2 5 5 200) == popularity_of (scenario 8 1 5 100).
Proof.
  apply (popularity_saturates_at_100_reviews
           (scenario 2 5 5 200) (scenario 8 1 5 100) 200 100);
    reflexivity || lia.
Defined.

(** X15.  For a rating between 1 and 5 and a review count that is not
    negative, the score lies between 0.7 and 3.0; with no rating it lies
    between 1.7 and 2.0. *)
Theorem popularity_bounds (dest : Destination.t) :
  (0 <= RecommendationService.review_count_or_0 dest)%Z ->
  (forall rating, Destination.rating dest = Some rating ->
     1 <= rating <= 5 -> 0.7 <= popularity_of dest <= 3.0)
  /\ (Destination.rating dest = None -> 1.7 <= popularity_of dest <= 2.0).
Proof.
  intro Hn. unfold popularity_of.
  set (reviews := RecommendationService.review_count_or_0 dest) in *.
  assert (H0 : 0 <= inject_Z reviews / 100).
  { apply Qle_shift_div_l; [reflexivity|].
    rewrite Zle_Qle in Hn. change (inject_Z 0) with 0 in Hn. lra. }
  assert (Hmin : 0 <= pymin (inject_Z reviews / 100) 1.0 <= 1).
  { unfold pymin. destruct (Qltb 1.0 (inject_Z reviews / 100)) eqn:L.
    - lra.
    - apply Qltb_ge in L. lra. }
  split.
  - intros rating -> [Hlo Hhi]. unfold or_default.
    assert (T : truthy rating = true).
    { unfold truthy. apply negb_true_iff.
      destruct (Qeq_bool rating 0) eqn:E; [|reflexivity].
      apply Qeq_bool_iff in E. lra. }
    rewrite T. lra.
  - intros ->. cbn [or_default]. lra.
Qed.

Lemma popularity_bounds_witness :
  0.7 <= popularity_of (scenario 1 10 4 50) <= 3.0.
Proof.
  destruct (popularity_bounds (scenario 1 10 4 50)) as [H _]; [cbn; lia|].
  apply (H 4 eq_refl). lra.
Defined.

End PopularityJob.

(** ** Strings: lower case and blanks *)

Lemma lower_char_idem (c : ascii) : lower_char (lower_char c) = lower_char c.
Proof. destruct c as [[] [] [] [] [] [] [] []]; reflexivity. Qed.

Lemma is_space_lower_char (c : ascii) : is_space (lower_char c) = is_space c.
Proof. destruct c as [[] [] [] [] [] [] [] []]; reflexivity. Qed.

Lemma lower_idem (s : string) : lower (lower s) = lower s.
Proof.
  induction s as [|c s IH]; cbn; [reflexivity|].
  rewrite lower_char_idem, IH. reflexivity.
Qed.

Lemma lower_lstrip (s : string) : lower (lstrip s) = lstrip (lower s).
Proof.
  induction s as [|c s IH]; cbn; [reflexivity|].
  rewrite is_space_lower_char. destruct (is_space c); [exact IH | reflexivity].
Qed.

Lemma lower_rstrip (s : string) : lower (rstrip s) = rstrip (lower s).
Proof.
  induction s as [|c s IH]; cbn; [reflexivity|].
  rewrite <- IH, is_space_lower_char.
  destruct (rstrip s) as [|c' r]; cbn; [destruct (is_space c)|]; reflexivity.
Qed.

Lemma lower_strip (s : string) : lower (strip s) = strip (lower s).
Proof. unfold strip. rewrite lower_rstrip, lower_lstrip. reflexivity. Qed.

Lemma rstrip_cons (c : ascii) (s : string) :
  rstrip (String c s)
  = match rstrip s with
    | EmptyString => if is_space c then EmptyString else String c EmptyString
    | r => String c r
    end.
Proof. reflexivity. Qed.

Lemma rstrip_idem (s : string) : rstrip (rstrip s) = rstrip s.
Proof.
  induction s as [|c s IH]; [reflexivity|].
  rewrite rstrip_cons.
  destruct (rstrip s) as [|c' r] eqn:E.
  - destruct (is_space c) eqn:Sc; [reflexivity|].
    rewrite rstrip_cons. cbn. rewrite Sc. reflexivity.
  - rewrite rstrip_cons, IH. reflexivity.
Qed.

Lemma lstrip_head (s : string) :
  lstrip s = EmptyString
  \/ exists c r, lstrip s = String c r /\ is_space c = false.
Proof.
  induction s as [|c s IH]; cbn; [left; reflexivity|].
  destruct (is_space c) eqn:Sc; [exact IH|]. right. exists c, s. auto.
Qed.

Lemma strip_idem (s : string) : strip (strip s) = strip s.
Proof.
  unfold strip. destruct (lstrip_head s) as [-> | (c & r & -> & Sc)];
    [reflexivity|].
  assert (E : rstrip (String c r) = String c (rstrip r)).
  { cbn. destruct (rstrip r); [rewrite Sc|]; reflexivity. }
  rewrite E. cbn [lstrip]. rewrite Sc. rewrite <- E. apply rstrip_idem.
Qed.

(** ** The cost of living and the daily rates *)

Section CostService.
Import CostCalculationService.

Lemma dict_get_In {V : Type} (k : string) (d : dict V) (v : V) :
  dict_get k d = Some v -> In (k, v) d.
Proof.
  induction d as [|[k' v'] d IH]; cbn; [discriminate|].
  destruct (String.eqb_spec k k') as [->|N].
  - intros [= ->]. left. reflexivity.
  - intro H. right. exact (IH H).
Qed.

Lemma cost_table_bounds :
  Forall (fun entry => (65 <= snd entry <= 200)%Z) COST_OF_LIVING_INDEX.
Proof. repeat constructor; cbn; lia. Qed.

(** The index is an entry of the table over 100, or the default. *)
Lemma cost_index_is_an_entry (destination : string) :
  get_destination_cost_index destination = 1.0
  \/ exists city index,
       In (city, index) COST_OF_LIVING_INDEX
       /\ get_destination_cost_index destination = inject_Z index / 100.0.
Proof.
  unfold get_destination_cost_index.
  destruct (dict_get _ COST_OF_LIVING_INDEX) as [index|] eqn:E.
  - right. eexists; exists index. split; [|reflexivity].
    apply dict_get_In in E. exact E.
  - destruct (find _ COST_OF_LIVING_INDEX) as [[city index]|] eqn:F.
    + right. exists city, index. split; [|reflexivity].
      apply find_some in F. exact (proj1 F).
    + left. reflexivity.
Qed.

Lemma cost_index_nonneg (destination : string) :
  0 <= get_destination_cost_index destination.
Proof.
  destruct (cost_index_is_an_entry destination)
    as [-> | (city & index & Hin & ->)]; [lra|].
  pose proof cost_table_bounds as Hb. rewrite Forall_forall in Hb.
  specialize (Hb _ Hin). cbn [snd] in Hb. destruct Hb as [Hlo _].
  rewrite Zle_Qle in Hlo. change (inject_Z 65) with 65 in Hlo.
  apply Qle_shift_div_l; lra.
Qed.

(** X16.  Whatever the destination string, the cost-of-living index lies
    between 0.65 and 2.0; a destination that matches no city gets 1.0, which
    is inside the range. *)
Theorem cost_index_bounds (destination : string) :
  0.65 <= get_destination_cost_index destination <= 2.0.
Proof.
  pose proof cost_table_bounds as Hb. rewrite Forall_forall in Hb.
  assert (Hi : forall index : Z, (65 <= index <= 200)%Z ->
                 0.65 <= inject_Z index / 100.0 <= 2.0).
  { intros index [Hlo Hhi]. rewrite Zle_Qle in Hlo, Hhi.
    change (inject_Z 65) with 65 in Hlo. change (inject_Z 200) with 200 in Hhi.
    split; [apply Qle_shift_div_l | apply Qle_shift_div_r]; lra. }
  unfold get_destination_cost_index.
  destruct (dict_get _ COST_OF_LIVING_INDEX) as [index|] eqn:E.
  - apply Hi. apply dict_get_In in E. exact (Hb _ E).
  - destruct (find _ COST_OF_LIVING_INDEX) as [[city index]|] eqn:F.
    + apply Hi. apply find_some in F. exact (Hb _ (proj1 F)).
    + lra.
Qed.

(** X17.  The index does not depend on the letter case of the destination
    nor on blanks around it. *)
Theorem cost_index_ignores_case_and_blanks (destination : string) :
  get_destination_cost_index (lower destination)
  = get_destination_cost_index destination
  /\ get_destination_cost_index (strip destination)
     = get_destination_cost_index destination.
Proof.
  unfold get_destination_cost_index. split.
  - rewrite lower_idem. reflexivity.
  - rewrite lower_strip, strip_idem. reflexivity.
Qed.

Lemma daily_rate_mono (base : Z) (index m1 m2 : Q) :
  (0 <= base)%Z -> 0 <= index -> m1 <= m2 ->
  (round_int (inject_Z base * index * m1)
   <= round_int (inject_Z base * index * m2))%Z.
Proof.
  intros Hb Hi Hm. apply round_int_mono.
  assert (0 <= inject_Z base).
  { change 0 with (inject_Z 0). rewrite <- Zle_Qle. exact Hb. }
  assert (0 <= inject_Z base * index * (m2 - m1)).
  { apply Qmult_le_0_compat; [apply Qmult_le_0_compat; assumption | lra]. }
  lra.
Qed.

(** X18.  For every destination and every entry of the daily costs (the four
    categories and their total) the budget level is not dearer than the
    mid-range level, nor the mid-range level than the luxury level. *)
Theorem daily_costs_are_ordered_by_level
  (destination entry : string) (low mid high : Z) :
  dict_get entry (calculate_daily_costs destination "budget") = Some low ->
  dict_get entry (calculate_daily_costs destination "mid-range") = Some mid ->
  dict_get entry (calculate_daily_costs destination "luxury") = Some high ->
  (low <= mid <= high)%Z.
Proof.
  rewrite !daily_costs_are_scaled_base_rates. cbv zeta.
  change (dict_get_default BUDGET_MULTIPLIERS (Some (lower "budget")) 1.0) with 0.6.
  change (dict_get_default BUDGET_MULTIPLIERS (Some (lower "mid-range")) 1.0) with 1.0.
  change (dict_get_default BUDGET_MULTIPLIERS (Some (lower "luxury")) 1.0) with 2.5.
  pose proof (cost_index_nonneg destination) as Hi.
  set (index := get_destination_cost_index destination) in *.
  assert (R1 : forall base, (0 <= base)%Z ->
                 (round_int (inject_Z base * index * 0.6)
                  <= round_int (inject_Z base * index * 1.0))%Z)
    by (intros; apply daily_rate_mono; [assumption | assumption | lra]).
  assert (R2 : forall base, (0 <= base)%Z ->
                 (round_int (inject_Z base * index * 1.0)
                  <= round_int (inject_Z base * index * 2.5))%Z)
    by (intros; apply daily_rate_mono; [assumption | assumption | lra]).
  pose proof (R1 2000%Z ltac:(lia)). pose proof (R1 800%Z ltac:(lia)).
  pose proof (R1 400%Z ltac:(lia)). pose proof (R1 500%Z ltac:(lia)).
  pose proof (R2 2000%Z ltac:(lia)). pose proof (R2 800%Z ltac:(lia)).
  pose proof (R2 400%Z ltac:(lia)). pose proof (R2 500%Z ltac:(lia)).
  cbn [dict_get].
  repeat (destruct (String.eqb entry _);
          [intros [= <-] [= <-] [= <-]; lia|]).
  discriminate.
Qed.

Lemma daily_costs_are_ordered_by_level_witness :
  exists low mid high,
    dict_get "total" (calculate_daily_costs "Paris" "budget") = Some low
    /\ dict_get "total" (calculate_daily_costs "Paris" "mid-range") = Some mid
    /\ dict_get "total" (calculate_daily_costs "Paris" "luxury") = Some high
    /\ (low <= mid <= high)%Z.
Proof.
  do 3 eexists.
  split; [vm_compute; reflexivity|].
  split; [vm_compute; reflexivity|].
  split; [vm_compute; reflexivity|].
  apply (daily_costs_are_ordered_by_level "Paris" "total" _ _ _
           eq_refl eq_refl eq_refl).
Defined.

End CostService.

(** ** The trip-cost path: edges *)

Lemma round_int_near (x : Q) :
  x - 0.5 <= inject_Z (round_int x) /\ inject_Z (round_int x) <= x + 0.5.
Proof.
  pose proof (Qfloor_le x) as Hl. pose proof (Qlt_floor x) as Hu.
  rewrite inject_Z_plus in Hu. change (inject_Z 1) with 1 in Hu.
  unfold round_int.
  destruct (Qcompare_spec (x - inject_Z (Qfloor x)) 0.5) as [E|E|E];
    [destruct (Z.even (Qfloor x))| |];
    rewrite ?inject_Z_plus; change (inject_Z 1) with 1; lra.
Qed.

Lemma abs_product_le (a b c A B C : Z) :
  (Z.abs a <= A)%Z -> (Z.abs b <= B)%Z -> (Z.abs c <= C)%Z ->
  (Z.abs (a * b * c) <= A * B * C)%Z.
Proof.
  intros Ha Hb Hc. rewrite !Z.abs_mul.
  pose proof (Z.abs_nonneg a). pose proof (Z.abs_nonneg b).
  pose proof (Z.abs_nonneg c).
  apply Z.mul_le_mono_nonneg; [lia | | lia | exact Hc].
  apply Z.mul_le_mono_nonneg; lia.
Qed.

Section TripCostEdges.
Import CostCalculationService.
Context `{MathLib}.

(** A daily rate lies between 0 and five times its base rate: the index is
    at most 2 and the multiplier at most 2.5. *)
Lemma daily_rate_bounds (destination budget : string) (base : Z) :
  (0 <= base)%Z ->
  let index := get_destination_cost_index destination in
  let multiplier := dict_get_default BUDGET_MULTIPLIERS (Some (lower budget)) 1.0 in
  (0 <= round_int (inject_Z base * index * multiplier) <= 5 * base)%Z.
Proof.
  intros Hb index multiplier.
  assert (Hi : 0 <= index <= 2).
  { subst index. destruct (cost_index_is_an_entry destination)
      as [-> | (city & i & Hin & ->)]; [lra|].
    pose proof cost_table_bounds as Ht. rewrite Forall_forall in Ht.
    specialize (Ht _ Hin). cbn [snd] in Ht. destruct Ht as [Hlo Hhi].
    rewrite Zle_Qle in Hlo, Hhi.
    change (inject_Z 65) with 65 in Hlo. change (inject_Z 200) with 200 in Hhi.
    split; [apply Qle_shift_div_l | apply Qle_shift_div_r]; lra. }
  assert (Hm : 0 <= multiplier <= 2.5).
  { subst multiplier. cbn.
    repeat (destruct (String.eqb (lower budget) _); [lra|]). lra. }
  assert (HB : 0 <= inject_Z base).
  { change 0 with (inject_Z 0). rewrite <- Zle_Qle. exact Hb. }
  assert (P1 : 0 <= inject_Z base * index) by (apply Qmult_le_0_compat; lra).
  assert (P2 : 0 <= inject_Z base * index * multiplier)
    by (apply Qmult_le_0_compat; lra).
  assert (P3 : 0 <= inject_Z base * (2 - index)) by (apply Qmult_le_0_compat; lra).
  assert (P4 : 0 <= inject_Z base * index * (2.5 - multiplier))
    by (apply Qmult_le_0_compat; lra).
  split.
  - rewrite <- (round_int_inject 0). apply round_int_mono. exact P2.
  - rewrite <- (round_int_inject (5 * base)). apply round_int_mono.
    rewrite inject_Z_mult. change (inject_Z 5) with 5. lra.
Qed.

(** X19.  When one of the four coordinates is missing or 0, and the duration
    and the number of travellers are at most [10^100] in magnitude, the trip
    costs are computed without raising, nothing is charged for the transport
    to the destination and no transport details are attached. *)
Theorem trip_costs_without_coordinates
  (destination : string) (duration_days : Z) (budget : string) (travelers : Z)
  (user_latitude user_longitude dest_latitude dest_longitude : option Q) :
  truthy_opt user_latitude && truthy_opt user_longitude
  && truthy_opt dest_latitude && truthy_opt dest_longitude = false ->
  (Z.abs duration_days <= 10 ^ 100)%Z -> (Z.abs travelers <= 10 ^ 100)%Z ->
  exists r,
    calculate_trip_costs destination duration_days budget travelers
      user_latitude user_longitude dest_latitude dest_longitude = Ok r
    /\ CostBreakdown.transportation_to_destination (TripCosts.cost_breakdown r) = 0%Z
    /\ TripCosts.transportation_details r = None
    /\ TripCosts.distance_km r = None.
Proof.
  intros Hc Hd Ht.
  assert (Hreturns :
            exists r,
              calculate_trip_costs destination duration_days budget travelers
                user_latitude user_longitude dest_latitude dest_longitude = Ok r).
  { unfold calculate_trip_costs.
    rewrite daily_costs_are_scaled_base_rates. cbv zeta.
    pose proof (daily_rate_bounds destination budget 2000 ltac:(lia)) as R1.
    pose proof (daily_rate_bounds destination budget 800 ltac:(lia)) as R2.
    pose proof (daily_rate_bounds destination budget 400 ltac:(lia)) as R3.
    pose proof (daily_rate_bounds destination budget 500 ltac:(lia)) as R4.
    cbv zeta in R1, R2, R3, R4.
    match goal with
    | |- context [dict_get_default BUDGET_MULTIPLIERS ?k ?d] =>
        set (multiplier := dict_get_default BUDGET_MULTIPLIERS k d) in *
    end.
    set (index := get_destination_cost_index destination) in *.
    set (rate := fun base : Z => round_int (inject_Z base * index * multiplier)).
    change (round_int (inject_Z 2000 * index * multiplier)) with (rate 2000%Z) in R1.
    change (round_int (inject_Z 800 * index * multiplier)) with (rate 800%Z) in R2.
    change (round_int (inject_Z 400 * index * multiplier)) with (rate 400%Z) in R3.
    change (round_int (inject_Z 500 * index * multiplier)) with (rate 500%Z) in R4.
    change (subscript _ "accommodation") with (Ok (rate 2000%Z)).
    change (subscript _ "food") with (Ok (rate 800%Z)).
    change (subscript _ "local_transport") with (Ok (rate 400%Z)).
    change (subscript _ "activities") with (Ok (rate 500%Z)).
    cbn [bind].
    assert (Et : match user_latitude, user_longitude, dest_latitude, dest_longitude with
                 | Some ulat, Some ulon, Some dlat, Some dlon =>
                     truthy ulat && truthy ulon && truthy dlat && truthy dlon = false
                 | _, _, _, _ => True
                 end).
    { destruct user_latitude, user_longitude, dest_latitude, dest_longitude;
        try exact I. exact Hc. }
    set (nights := Z.max 1 (duration_days - 1)).
    set (M := (10 ^ 100)%Z) in *.
    assert (HM : (1 <= M)%Z) by (subst M; vm_compute; discriminate).
    assert (Hnights : (Z.abs nights <= M)%Z) by (subst nights; lia).
    set (sum := (rate 2000 * nights * travelers + rate 800 * duration_days * travelers
                 + rate 400 * duration_days * travelers
                 + rate 500 * duration_days * travelers)%Z).
    assert (Hsum : (Z.abs sum <= 4 * (10000 * M * M))%Z).
    { pose proof (abs_product_le (rate 2000%Z) nights travelers 10000%Z M M
                    ltac:(lia) Hnights Ht).
      pose proof (abs_product_le (rate 800%Z) duration_days travelers 10000%Z M M
                    ltac:(lia) Hd Ht).
      pose proof (abs_product_le (rate 400%Z) duration_days travelers 10000%Z M M
                    ltac:(lia) Hd Ht).
      pose proof (abs_product_le (rate 500%Z) duration_days travelers 10000%Z M M
                    ltac:(lia) Hd Ht).
      subst sum. lia. }
    assert (Hbig : (3 * (4 * (10000 * M * M)) < overflow_threshold)%Z)
      by (subst M; vm_compute; reflexivity).
    assert (Hconv : float_of_int sum = Ok (inject_Z sum))
      by (apply int_converts; lia).
    set (misc := round_int (inject_Z sum * 0.1)).
    assert (Hmisc : (Z.abs misc <= Z.abs sum + 1)%Z).
    { pose proof (round_int_near (inject_Z sum * 0.1)) as [Hl Hu].
      fold misc in Hl, Hu.
      assert (Hs : - inject_Z (Z.abs sum) <= inject_Z sum <= inject_Z (Z.abs sum)).
      { rewrite <- inject_Z_opp, <- !Zle_Qle. lia. }
      assert (Hlo : inject_Z (- (Z.abs sum + 1)) <= inject_Z misc).
      { rewrite inject_Z_opp, inject_Z_plus. change (inject_Z 1) with 1.
        assert (0 <= inject_Z (Z.abs sum)).
        { change 0 with (inject_Z 0). rewrite <- Zle_Qle. apply Z.abs_nonneg. }
        lra. }
      assert (Hhi : inject_Z misc <= inject_Z (Z.abs sum + 1)).
      { rewrite inject_Z_plus. change (inject_Z 1) with 1.
        assert (0 <= inject_Z (Z.abs sum)).
        { change 0 with (inject_Z 0). rewrite <- Zle_Qle. apply Z.abs_nonneg. }
        lra. }
      rewrite <- Zle_Qle in Hlo, Hhi. lia. }
    assert (Hp : forall total : Z,
               (Z.abs total <= 2 * Z.abs sum + 1)%Z ->
               exists p,
                 (if (0 <? travelers)%Z
                  then q <- int_truediv total travelers ;; Ok (round_int q)
                  else Ok 0%Z) = Ok p).
    { intros total Htotal. destruct (0 <? travelers)%Z eqn:Hpos;
        [|eexists; reflexivity].
      apply Z.ltb_lt in Hpos. unfold int_truediv.
      assert ((travelers =? 0)%Z = false) as -> by (apply Z.eqb_neq; lia).
      assert (Hq : Qle_bool (inject_Z overflow_threshold)
                     (Qabs (inject_Z total / inject_Z travelers)) = false).
      { destruct (Qle_bool _ _) eqn:L; [|reflexivity]. exfalso.
        apply Qle_bool_iff in L.
        assert (HT : 1 <= inject_Z travelers).
        { change 1 with (inject_Z 1). rewrite <- Zle_Qle. lia. }
        assert (Hqa : Qabs (inject_Z total / inject_Z travelers)
                      <= inject_Z (Z.abs total)).
        { unfold Qdiv. rewrite Qabs_Qmult, Qabs_Qinv.
          change (Qabs (inject_Z total)) with (inject_Z (Z.abs total)).
          rewrite (Qabs_pos (inject_Z travelers)) by lra.
          assert (0 <= inject_Z (Z.abs total)).
          { change 0 with (inject_Z 0). rewrite <- Zle_Qle. apply Z.abs_nonneg. }
          apply Qle_shift_div_r; [lra|].
          assert (0 <= inject_Z (Z.abs total) * (inject_Z travelers - 1))
            by (apply Qmult_le_0_compat; lra).
          lra. }
        assert (Hlt : inject_Z (Z.abs total) < inject_Z overflow_threshold).
        { rewrite <- Zlt_Qlt. lia. }
        lra. }
      rewrite Hq. cbn [bind]. eexists; reflexivity. }
    destruct user_latitude as [ulat|], user_longitude as [ulon|],
      dest_latitude as [dlat|], dest_longitude as [dlon|];
      try rewrite Et; cbn [bind]; fold nights; fold sum;
      rewrite Hconv; cbn [bind]; fold misc;
      (destruct (Hp (sum + 0 + misc)%Z ltac:(lia)) as [p Ep]);
      rewrite Ep; cbn [bind]; eexists; reflexivity. }
  destruct Hreturns as [r Er]. exists r. split; [exact Er|].
  destruct (trip_costs_shape _ _ _ _ _ _ _ _ _ Er)
    as (_ & _ & _ & _ & _ & _ & Hz & _).
  exact (Hz Hc).
Qed.

(** X20.  At least one night is billed: for every duration of at most 2 days,
    0 and negative durations included, the accommodation is one nightly rate
    per traveller, while the food follows the duration itself. *)
Theorem one_night_is_always_billed
  (destination : string) (duration_days : Z) (budget : string) (travelers : Z)
  (user_latitude user_longitude dest_latitude dest_longitude : option Q)
  (r : TripCosts.t) :
  (duration_days <= 2)%Z ->
  calculate_trip_costs destination duration_days budget travelers
    user_latitude user_longitude dest_latitude dest_longitude = Ok r ->
  exists nightly food_rate,
    dict_get "accommodation" (calculate_daily_costs destination budget) = Some nightly
    /\ dict_get "food" (calculate_daily_costs destination budget) = Some food_rate
    /\ CostBreakdown.accommodation (TripCosts.cost_breakdown r)
       = (nightly * travelers)%Z
    /\ CostBreakdown.food (TripCosts.cost_breakdown r)
       = (food_rate * duration_days * travelers)%Z.
Proof.
  intros Hd E.
  destruct (trip_costs_shape _ _ _ _ _ _ _ _ _ E) as (Ha & Hf & _).
  rewrite daily_costs_are_scaled_base_rates. cbv zeta.
  do 2 eexists. split; [reflexivity|]. split; [reflexivity|].
  rewrite Ha, Hf. split; [|reflexivity].
  replace (Z.max 1 (duration_days - 1)) with 1%Z by lia. lia.
Qed.

(** X21.  The cost per person is guarded against a division by zero: with no
    traveller, or a negative number of them, it is 0; with one traveller it
    is the total, as long as the total is below [2^53] in magnitude. *)
Theorem per_person_cost_edges
  (destination : string) (duration_days : Z) (budget : string) (travelers : Z)
  (user_latitude user_longitude dest_latitude dest_longitude : option Q)
  (r : TripCosts.t) :
  calculate_trip_costs destination duration_days budget travelers
    user_latitude user_longitude dest_latitude dest_longitude = Ok r ->
  ((travelers <= 0)%Z -> TripCosts.per_person_cost r = 0%Z)
  /\ (travelers = 1%Z ->
      (Z.abs (CostBreakdown.total (TripCosts.cost_breakdown r)) < 2 ^ 53)%Z ->
      TripCosts.per_person_cost r
      = CostBreakdown.total (TripCosts.cost_breakdown r)).
Proof.
  intro E.
  destruct (trip_costs_shape _ _ _ _ _ _ _ _ _ E)
    as (_ & _ & _ & _ & _ & _ & _ & Hp).
  rewrite Hp. split.
  - intro Ht. assert ((0 <? travelers)%Z = false) as -> by (apply Z.ltb_ge; lia).
    reflexivity.
  - intros -> _. cbn.
    rewrite (round_int_comp _ (inject_Z (CostBreakdown.total (TripCosts.cost_breakdown r)))).
    + apply round_int_inject.
    + change (inject_Z 1) with 1. field.
Qed.

End TripCostEdges.

Lemma trip_costs_without_coordinates_witness :
  exists r,
    @CostCalculationService.calculate_trip_costs small_angle_math
      "Goa" 4 "budget" 2 (Some 19.0760) (Some 72.8777) (Some 0) (Some 74.1240)
    = Ok r
    /\ CostCalculationService.CostBreakdown.transportation_to_destination
         (CostCalculationService.TripCosts.cost_breakdown r) = 0%Z.
Proof.
  destruct (@trip_costs_without_coordinates small_angle_math "Goa" 4 "budget" 2
              (Some 19.0760) (Some 72.8777) (Some 0) (Some 74.1240) eq_refl)
    as (r & E & Ht & _); [vm_compute; discriminate | vm_compute; discriminate |].
  exists r. auto.
Defined.

Lemma one_night_is_always_billed_witness :
  exists r nightly,
    @CostCalculationService.calculate_trip_costs small_angle_math
      "Bali" 0 "mid-range" 3 None None None None = Ok r
    /\ dict_get "accommodation"
         (CostCalculationService.calculate_daily_costs "Bali" "mid-range")
       = Some nightly
    /\ CostCalculationService.CostBreakdown.accommodation
         (CostCalculationService.TripCosts.cost_breakdown r)
       = (nightly * 3)%Z
    /\ CostCalculationService.CostBreakdown.food
         (CostCalculationService.TripCosts.cost_breakdown r) = 0%Z.
Proof.
  destruct (@CostCalculationService.calculate_trip_costs small_angle_math
              "Bali" 0 "mid-range" 3 None None None None) as [r|e] eqn:E;
    [|vm_compute in E; discriminate E].
  destruct (@one_night_is_always_billed small_angle_math "Bali" 0 "mid-range" 3
              None None None None r ltac:(lia) E)
    as (nightly & food_rate & En & Ef & Ha & Hf).
  exists r, nightly. split; [reflexivity|]. split; [exact En|].
  split; [exact Ha|]. rewrite Hf. lia.
Defined.

Lemma per_person_cost_edges_witness :
  (exists r,
     @CostCalculationService.calculate_trip_costs small_angle_math
       "London" 6 "luxury" 0 None None None None = Ok r
     /\ CostCalculationService.TripCosts.per_person_cost r = 0%Z)
  /\ (exists r,
        @CostCalculationService.calculate_trip_costs small_angle_math
          "London" 6 "luxury" 1 None None None None = Ok r
        /\ CostCalculationService.TripCosts.per_person_cost r
           = CostCalculationService.CostBreakdown.total
               (CostCalculationService.TripCosts.cost_breakdown r)).
Proof.
  split.
  - destruct (@CostCalculationService.calculate_trip_costs small_angle_math
                "London" 6 "luxury" 0 None None None None) as [r|e] eqn:E;
      [|vm_compute in E; discriminate E].
    exists r. split; [reflexivity|].
    destruct (@per_person_cost_edges small_angle_math "London" 6 "luxury" 0
                None None None None r E) as [H0 _].
    apply H0. lia.
  - destruct (@CostCalculationService.calculate_trip_costs small_angle_math
                "London" 6 "luxury" 1 None None None None) as [r|e] eqn:E;
      [|vm_compute in E; discriminate E].
    exists r. split; [reflexivity|].
    destruct (@per_person_cost_edges small_angle_math "London" 6 "luxury" 1
                None None None None r E) as [_ H1].
    apply H1; [reflexivity|].
    vm_compute in E. injection E as <-. vm_compute. reflexivity.
Defined.

(** ** The detailed transport table *)

Lemma pymax_number_spec (a b : CostCalculationService.number) :
  (CostCalculationService.pymax_number a b = a
   /\ CostCalculationService.value b <= CostCalculationService.value a)
  \/ (CostCalculationService.pymax_number a b = b
      /\ CostCalculationService.value a < CostCalculationService.value b).
Proof.
  unfold CostCalculationService.pymax_number.
  destruct (Qltb _ _) eqn:L.
  - right. apply Qltb_lt in L. auto.
  - left. apply Qltb_ge in L. auto.
Qed.

Lemma pymin_number_spec (a b : CostCalculationService.number) :
  (CostCalculationService.pymin_number a b = a
   /\ CostCalculationService.value a <= CostCalculationService.value b)
  \/ (CostCalculationService.pymin_number a b = b
      /\ CostCalculationService.value b < CostCalculationService.value a).
Proof.
  unfold CostCalculationService.pymin_number.
  destruct (Qltb _ _) eqn:L.
  - right. apply Qltb_lt in L. auto.
  - left. apply Qltb_ge in L. auto.
Qed.

Ltac max_min_cases :=
  repeat match goal with
  | |- context [CostCalculationService.pymax_number ?a ?b] =>
      let E := fresh "E" in
      let H := fresh "Hmax" in
      destruct (pymax_number_spec a b) as [[E H] | [E H]]; rewrite E in *; clear E
  | |- context [CostCalculationService.pymin_number ?a ?b] =>
      let E := fresh "E" in
      let H := fresh "Hmin" in
      destruct (pymin_number_spec a b) as [[E H] | [E H]]; rewrite E in *; clear E
  end.

(** X22.  In the detailed transport table, for a distance of at most
    [10^300] km in magnitude, the recommended mode is one of the modes on
    offer, it is marked available, the cost displayed for it is the
    recommended cost rounded to a whole amount, and the recommended cost lies
    between 50 and 50000. *)
Theorem recommended_mode_is_offered_and_available (distance_km : Q) :
  - inject_Z (10 ^ 300) <= distance_km <= inject_Z (10 ^ 300) ->
  let table := CostCalculationService.calculate_transportation_cost distance_km in
  exists option,
    dict_get (CostCalculationService.TransportOptions.recommended table)
      (CostCalculationService.TransportOptions.options table) = Some option
    /\ CostCalculationService.TransportOption.available option = true
    /\ CostCalculationService.TransportOption.cost option
       = CostCalculationService.round_number
           (CostCalculationService.TransportOptions.recommended_cost table)
    /\ 50 <= CostCalculationService.value
               (CostCalculationService.TransportOptions.recommended_cost table)
       <= 50000.
Proof.
  intros _.
  unfold CostCalculationService.calculate_transportation_cost.
  destruct (Qltb distance_km 20) eqn:B1; [|
  destruct (Qltb distance_km 100) eqn:B2; [|
  destruct (Qltb distance_km 500) eqn:B3; [|
  destruct (Qltb distance_km 1500) eqn:B4]]];
  repeat match goal with
  | H : Qltb _ _ = true |- _ => apply Qltb_lt in H
  | H : Qltb _ _ = false |- _ => apply Qltb_ge in H
  end;
  eexists; (split; [reflexivity|]);
  (split; [reflexivity|]); (split; [reflexivity|]);
  cbn [CostCalculationService.TransportOptions.recommended_cost];
  max_min_cases; cbn [CostCalculationService.value] in *;
  repeat match goal with
  | H : context [inject_Z ?k] |- _ =>
      let v := eval vm_compute in (inject_Z k) in
      change (inject_Z k) with v in H
  | |- context [inject_Z ?k] =>
      let v := eval vm_compute in (inject_Z k) in
      change (inject_Z k) with v
  end;
  lra.
Qed.

Lemma recommended_mode_is_offered_and_available_witness :
  exists option,
    dict_get "flight"
      (CostCalculationService.TransportOptions.options
         (CostCalculationService.calculate_transportation_cost 1200))
    = Some option
    /\ CostCalculationService.TransportOption.available option = true
    /\ CostCalculationService.TransportOption.cost option = 4800%Z.
Proof.
  destruct (recommended_mode_is_offered_and_available 1200)
    as (option & Ho & Ha & Hc & _); [split; vm_compute; discriminate|].
  exists option. split; [exact Ho|]. split; [exact Ha|].
  rewrite Hc. vm_compute. reflexivity.
Defined.

(** ** Geocoding *)

Section GeocodingFacts.
Import Geocoding.

Lemma city_table_is_consistent :
  Forall (fun entry => dict_get (fst entry) CITY_COORDINATES = Some (snd entry))
    CITY_COORDINATES.
Proof. repeat constructor. Qed.

(** X23.  [geocode_city] never depends on the service going well: when the
    service is not available, raises, answers nothing, or answers without a
    latitude or a longitude (0 counts as without), the result is the lookup
    in the local table of the lower-cased, stripped name; an answer is used
    only when both of its coordinates are present and not 0. *)
Theorem geocoding_falls_back_to_the_table `{OpenRoute} (city_name : string) :
  (OPENROUTE_AVAILABLE = false
   \/ (exists e, ors_geocode city_name = Raise e)
   \/ ors_geocode city_name = Ok None
   \/ (exists answer,
         ors_geocode city_name = Ok (Some answer)
         /\ (truthy_opt (latitude answer) = false
             \/ truthy_opt (longitude answer) = false)) ->
   geocode_city city_name = geocode_local (strip (lower city_name)))
  /\ (forall lat lon,
        OPENROUTE_AVAILABLE = true ->
        ors_geocode city_name
        = Ok (Some {| latitude := Some lat; longitude := Some lon |}) ->
        truthy lat = true -> truthy lon = true ->
        geocode_city city_name = Some (lat, lon)).
Proof.
  unfold geocode_city. split.
  - intros [-> | [[e ->] | [-> | (answer & -> & Hc)]]];
      try (destruct OPENROUTE_AVAILABLE; reflexivity).
    destruct OPENROUTE_AVAILABLE; [|reflexivity].
    destruct (latitude answer) as [lat|], (longitude answer) as [lon|];
      cbn in Hc; try reflexivity.
    destruct (truthy lat), (truthy lon); cbn; try reflexivity.
    destruct Hc; discriminate.
  - intros lat lon -> -> Tlat Tlon. cbn. rewrite Tlat, Tlon. reflexivity.
Qed.

(** X24.  Every coordinate pair that the local lookup returns is a pair of
    the table, and every city of the table, written in any letter case and
    with blanks around it, is found with its own coordinates when the service
    is not available. *)
Theorem local_geocoding_answers_from_the_table `{OpenRoute} :
  (forall name coords,
     geocode_local name = Some coords ->
     exists city, In (city, coords) CITY_COORDINATES)
  /\ (forall city coords city_name,
        In (city, coords) CITY_COORDINATES ->
        strip (lower city_name) = city ->
        OPENROUTE_AVAILABLE = false ->
        geocode_city city_name = Some coords).
Proof.
  split.
  - intros name coords. unfold geocode_local.
    destruct (dict_get name CITY_COORDINATES) as [c|] eqn:E.
    + intros [= <-]. exists name. exact (dict_get_In _ _ _ E).
    + destruct (find _ CITY_COORDINATES) as [[city c]|] eqn:F; [|discriminate].
      intros [= <-]. exists city. apply find_some in F. exact (proj1 F).
  - intros city coords city_name Hin Hn Hoff.
    unfold geocode_city. rewrite Hoff, Hn. unfold geocode_local.
    pose proof city_table_is_consistent as Hc. rewrite Forall_forall in Hc.
    specialize (Hc _ Hin). cbn [fst snd] in Hc. rewrite Hc. reflexivity.
Qed.

End GeocodingFacts.

Lemma geocoding_falls_back_to_the_table_witness :
  @Geocoding.geocode_city failing_service "  Tokyo " = Some (35.6762, 139.6503)
  /\ @Geocoding.geocode_city (fixed_service 48.2082 16.3738) "Vienna"
     = Some (48.2082, 16.3738).
Proof.
  split.
  - destruct (@geocoding_falls_back_to_the_table failing_service "  Tokyo ")
      as [H _].
    rewrite H; [reflexivity|].
    right. left. eexists. reflexivity.
  - destruct (@geocoding_falls_back_to_the_table
                (fixed_service 48.2082 16.3738) "Vienna") as [_ H].
    apply H; reflexivity.
Defined.

Lemma local_geocoding_answers_from_the_table_witness :
  @Geocoding.geocode_city
    {| Geocoding.OPENROUTE_AVAILABLE := false;
       Geocoding.ors_geocode := fun _ => Ok None |} " New York"
  = Some (40.7128, -74.0060).
Proof.
  destruct (@local_geocoding_answers_from_the_table
              {| Geocoding.OPENROUTE_AVAILABLE := false;
                 Geocoding.ors_geocode := fun _ => Ok None |}) as [_ H].
  apply (H "new york"); [|reflexivity|reflexivity].
  do 31 right. left. reflexivity.
Defined.

(** ** Similar destinations *)

Section SimilarFacts.
Import RecommendationJobs.
Context `{SqlEngine}.
Variable sql_limit : Z -> list Destination.t -> list Destination.t.
Hypothesis sql_limit_rows :
  forall n rows row, In row (sql_limit n rows) -> In row rows.

(** X25.  The similarity query returns the empty list for an identifier that
    is not in the table; otherwise it never returns the destination itself,
    and when the destination has a category every row returned has that
    category. *)
Theorem similar_destinations_exclude_the_destination
  (table : list Destination.t) (destination_id limit : Z) :
  (find (fun d => (Destination.id d =? destination_id)%Z) table = None ->
   get_similar_destinations sql_limit table destination_id limit = [])
  /\ (forall s,
        In s (get_similar_destinations sql_limit table destination_id limit) ->
        SimilarDestination.id s <> destination_id
        /\ forall dest,
             find (fun d => (Destination.id d =? destination_id)%Z) table
             = Some dest ->
             str_truthy (Destination.category dest) = true ->
             SimilarDestination.category s = Destination.category dest).
Proof.
  unfold get_similar_destinations. split.
  - intros ->. reflexivity.
  - intros s Hs.
    destruct (find _ table) as [dest|] eqn:F; [|destruct Hs].
    apply in_map_iff in Hs. destruct Hs as (other & <- & Hin).
    apply sql_limit_rows in Hin. apply filter_In in Hin.
    destruct Hin as [_ Hf]. unfold similar_filter in Hf.
    apply andb_true_iff in Hf. destruct Hf as [Hf _].
    apply andb_true_iff in Hf. destruct Hf as [Hid Hcat].
    cbn. split.
    + apply negb_true_iff in Hid. apply Z.eqb_neq. exact Hid.
    + intros dest' [= <-] Tc. rewrite Tc in Hcat.
      destruct (Destination.category other) as [c|],
        (Destination.category dest) as [c'|]; try discriminate.
      apply String.eqb_eq in Hcat. congruence.
Qed.

End SimilarFacts.

Lemma similar_destinations_exclude_the_destination_witness :
  Forall
    (fun s =>
       RecommendationJobs.SimilarDestination.id s <> 2%Z
       /\ RecommendationJobs.SimilarDestination.category s = Some "city")
    (@RecommendationJobs.get_similar_destinations substring_like first_rows
       [mysore; hampi; unmapped; null_island; bengaluru] 2 3).
Proof.
  apply Forall_forall. intros s Hs.
  destruct (@similar_destinations_exclude_the_destination substring_like
              first_rows (fun n rows row => In_firstn (Z.to_nat n) rows row)
              [mysore; hampi; unmapped; null_island; bengaluru] 2 3)
    as [_ H].
  destruct (H s Hs) as [Hid Hcat]. split; [exact Hid|].
  apply (Hcat hampi); reflexivity.
Defined.

(** ** The rating in the score *)

(** The score of a returned recommendation: the budget step has returned,
    and the score is the rounded sum of the weighted parts, of which the
    rating's is the second. *)
Lemma recommend_score (max_distance_km : option Q) (user_currency : string)
  (trip_duration_days : Z) (dest : Destination.t) (rating : option Q)
  (distance : option Q) (r : Recommendation.t) :
  recommend max_distance_km user_currency trip_duration_days
    (with_rating dest rating) distance = Ok r ->
  exists bb,
    match distance, Destination.average_cost_per_day dest with
    | Some d, Some cost =>
        if truthy cost then
          b <- calculate_comprehensive_budget d trip_duration_days cost
                 (Some (str_or (Destination.budget_tier dest) "mid-range")) ;;
          Ok (Some b)
        else Ok None
    | _, _ => Ok None
    end = Ok bb
    /\ Recommendation.recommendation_score r
       = round
           (let score :=
              0 + or_default (Destination.popularity_score dest) 0 * 0.4
              + or_default rating 3.0 * 0.3
              + inject_Z (review_count_or_0 dest) * 0.01 in
            let score :=
              match option_map total bb with
              | Some cost =>
                  if truthy cost
                  then score + pymax 0 ((5000 - cost) / 5000) * 5 * 0.2
                  else score
                       + (5.0 - or_default (Destination.average_cost_per_day dest) 100
                                / 50) * 0.2
              | None =>
                  score
                  + (5.0 - or_default (Destination.average_cost_per_day dest) 100
                           / 50) * 0.2
              end in
            match distance, max_distance_km with
            | Some d, Some m =>
                if truthy m then score + pymax 0 ((m - d) / m) * 0.1 else score
            | _, _ => score
            end) 2.
Proof.
  unfold recommend.
  cbn [with_rating Destination.average_cost_per_day Destination.budget_tier
       Destination.popularity_score Destination.rating].
  change (review_count_or_0 (with_rating dest rating))
    with (review_count_or_0 dest).
  intro E. apply bind_ok in E. destruct E as (bb & Ebb & E).
  exists bb. split; [exact Ebb|].
  apply bind_ok in E. destruct E as (score & Es & E).
  injection E as <-. cbn [Recommendation.recommendation_score].
  f_equal. cbv zeta.
  destruct distance as [d|], max_distance_km as [m|];
    try (injection Es as <-; reflexivity).
  destruct (truthy m) eqn:Tm; [|injection Es as <-; reflexivity].
  unfold pydiv in Es. unfold truthy in Tm. apply negb_true_iff in Tm.
  rewrite Tm in Es. cbn [bind] in Es. injection Es as <-. reflexivity.
Qed.

(** X26.  The score grows with the rating that the scoring uses, and that
    rating is 3.0 both for a missing rating and for a rating of 0: of two
    destinations that differ in the rating alone, the one rated 0 scores
    exactly as the unrated one, and never below one rated up to 3, whenever
    their recommendations are returned. *)
Theorem zero_rating_scores_as_three
  (max_distance_km : option Q) (user_currency : string) (trip_duration_days : Z)
  (dest : Destination.t) (distance : option Q) :
  (forall rating1 rating2 r1 r2,
     or_default rating1 3.0 <= or_default rating2 3.0 ->
     recommend max_distance_km user_currency trip_duration_days
       (with_rating dest rating1) distance = Ok r1 ->
     recommend max_distance_km user_currency trip_duration_days
       (with_rating dest rating2) distance = Ok r2 ->
     Recommendation.recommendation_score r1
     <= Recommendation.recommendation_score r2)
  /\ (forall r0 rn,
        recommend max_distance_km user_currency trip_duration_days
          (with_rating dest (Some 0)) distance = Ok r0 ->
        recommend max_distance_km user_currency trip_duration_days
          (with_rating dest None) distance = Ok rn ->
        Recommendation.recommendation_score r0
        = Recommendation.recommendation_score rn).
Proof.
  split.
  - intros rating1 rating2 r1 r2 Hle E1 E2.
    apply recommend_score in E1, E2.
    destruct E1 as (bb & Ebb & ->). destruct E2 as (bb' & Ebb' & ->).
    rewrite Ebb in Ebb'. injection Ebb' as <-.
    cbv zeta.
    set (rho1 := or_default rating1 3.0) in *.
    set (rho2 := or_default rating2 3.0) in *.
    apply round_mono.
    destruct distance as [d|], max_distance_km as [m|];
      try destruct (truthy m);
      (destruct (option_map total bb) as [cost|]; [destruct (truthy cost)|]);
      lra.
  - intros r0 rn E0 En.
    apply recommend_score in E0, En.
    destruct E0 as (bb & Ebb & ->). destruct En as (bb' & Ebb' & ->).
    rewrite Ebb in Ebb'. injection Ebb' as <-.
    reflexivity.
Qed.

Lemma zero_rating_scores_as_three_witness :
  exists r1 r2,
    recommend None "USD" 3 (with_rating hampi (Some 2)) (Some 120) = Ok r1
    /\ recommend None "USD" 3 (with_rating hampi (Some 0)) (Some 120) = Ok r2
    /\ Recommendation.recommendation_score r1
       <= Recommendation.recommendation_score r2.
Proof.
  destruct (recommend None "USD" 3 (with_rating hampi (Some 2)) (Some 120))
    as [r1|e] eqn:E1; [|vm_compute in E1; discriminate E1].
  destruct (recommend None "USD" 3 (with_rating hampi (Some 0)) (Some 120))
    as [r2|e] eqn:E2; [|vm_compute in E2; discriminate E2].
  exists r1, r2. do 2 (split; [reflexivity|]).
  destruct (zero_rating_scores_as_three None "USD" 3 hampi (Some 120)) as [H _].
  apply (H (Some 2) (Some 0) r1 r2); [vm_compute; discriminate | |]; assumption.
Defined.
